(** * llm-observability: the scoring pipeline of [main.py]

    A shallow embedding of the request-scoring service: the prompt hasher,
    the hallucination-risk heuristic, the self-confidence parser, the two
    telemetry dispatchers and the [/chat] handler.

    Conventions of the embedding.
    - A Python [str] inside a Python value (the prompt of a request, a field
      of a body or of a telemetry dict) is a [unicode]: the list of its
      code points, any code point, a lone surrogate included. [split],
      [encode] and [in] on it are the Python ones.
    - The text the model returns, and the texts the service itself writes
      (names, messages), are [string]s whose characters are the code points
      0..255 (Latin-1); [lower], [split], [strip] and the class [\d] are the
      Python ones on that range. A [string] is read as a [unicode] where one
      is expected. The keys of a dict are [string]s.
    - A Python [float] is an exact rational ([Q]); the literals [0.4], [0.3],
      [5.0], [50.0] are the rationals they denote, so rounding of binary64 is
      not part of the model; [round], which decides on the binary64 value,
      leaves the direction at an exact decimal tie to the environment. The
      score is also given on binary64 numbers ([Binary64]), to run it at the
      points the properties name.
    - Everything the service reaches outside the repository (the clock, the
      uuid generator, the Vertex AI model, the Datadog sinks) is a field of an
      environment record, and the handler runs in a small state-and-exception
      monad that records the calls made to them, each with the number of
      clock readings taken before it. The checks the Datadog client makes
      when a model object is built are written out. *)

From Stdlib Require Import ZArith QArith Qround Lia Lqa List String Ascii Bool.
From Stdlib Require Import DecimalString.
From Stdlib Require PrimFloat Uint63.
Import ListNotations.

Local Open Scope string_scope.

(** ** Python strings *)

Module PyStr.

Definition code (c : ascii) : N := N_of_ascii c.

Definition between (lo hi n : N) : bool := (N.leb lo n && N.leb n hi)%bool.

(** [str.isspace] on one character of the Latin-1 range. *)
Definition isspace (c : ascii) : bool :=
  let n := code c in
  (between 9 13 n || between 28 32 n || N.eqb n 133 || N.eqb n 160)%bool.

(** The class [\d] of [re] on the Latin-1 range. *)
Definition isdigit (c : ascii) : bool := between 48 57 (code c).

Definition lower_char (c : ascii) : ascii :=
  let n := code c in
  if (between 65 90 n || (between 192 222 n && negb (N.eqb n 215)))%bool
  then ascii_of_N (n + 32) else c.

(** [s.lower()] *)
Fixpoint lower (s : string) : string :=
  match s with
  | EmptyString => EmptyString
  | String c s' => String (lower_char c) (lower s')
  end.

(** [needle in hay] *)
Fixpoint contains (needle hay : string) : bool :=
  (prefix needle hay ||
   match hay with
   | EmptyString => false
   | String _ hay' => contains needle hay'
   end)%bool.

Definition is_empty (s : string) : bool :=
  match s with EmptyString => true | _ => false end.

(** [s.split()]: the maximal runs of non-whitespace characters. *)
Fixpoint split_from (cur s : string) : list string :=
  match s with
  | EmptyString => if is_empty cur then [] else [cur]
  | String c s' =>
      if isspace c
      then (if is_empty cur then split_from EmptyString s'
            else cur :: split_from EmptyString s')
      else split_from (cur ++ String c EmptyString) s'
  end.

Definition split (s : string) : list string := split_from EmptyString s.

Fixpoint lstrip (s : string) : string :=
  match s with
  | EmptyString => EmptyString
  | String c s' => if isspace c then lstrip s' else s
  end.

Fixpoint rev_onto (s acc : string) : string :=
  match s with
  | EmptyString => acc
  | String c s' => rev_onto s' (String c acc)
  end.

Definition reversed (s : string) : string := rev_onto s EmptyString.

(** [s.strip()] *)
Definition strip (s : string) : string :=
  reversed (lstrip (reversed (lstrip s))).

(** [s[:n]] *)
Fixpoint take (n : nat) (s : string) : string :=
  match n, s with
  | O, _ => EmptyString
  | _, EmptyString => EmptyString
  | S n', String c s' => String c (take n' s')
  end.

Fixpoint repeat_str (s : string) (n : nat) : string :=
  match n with
  | O => EmptyString
  | S n' => s ++ repeat_str s n'
  end.

End PyStr.

(** ** Strings of any code point *)

(** A [str] as Python holds it: the sequence of its code points, each at
    most [0x10FFFF]. The surrogates [0xD800..0xDFFF] are code points like
    the others; a JSON body can carry one alone. *)
Definition unicode : Type := list N.

Module Unicode.

Fixpoint of_string (s : string) : unicode :=
  match s with
  | EmptyString => []
  | String c s' => PyStr.code c :: of_string s'
  end.

(** [str.isspace] on one code point: the characters [s.split()] cuts at. *)
Definition isspace (n : N) : bool :=
  (PyStr.between 9 13 n || PyStr.between 28 32 n || N.eqb n 133 || N.eqb n 160
   || N.eqb n 0x1680 || PyStr.between 0x2000 0x200a n
   || N.eqb n 0x2028 || N.eqb n 0x2029 || N.eqb n 0x202f
   || N.eqb n 0x205f || N.eqb n 0x3000)%bool.

Definition is_empty (s : unicode) : bool :=
  match s with [] => true | _ => false end.

(** [s.split()]: the maximal runs of non-whitespace characters. *)
Fixpoint split_from (cur s : unicode) : list unicode :=
  match s with
  | [] => if is_empty cur then [] else [cur]
  | c :: s' =>
      if isspace c
      then (if is_empty cur then split_from [] s'
            else cur :: split_from [] s')
      else split_from (cur ++ [c])%list s'
  end.

Definition split (s : unicode) : list unicode := split_from [] s.

(** [len(s.split())] *)
Definition word_count (s : unicode) : Z := Z.of_nat (List.length (split s)).

Fixpoint prefix (needle hay : unicode) : bool :=
  match needle, hay with
  | [], _ => true
  | _ :: _, [] => false
  | a :: needle', b :: hay' => (N.eqb a b && prefix needle' hay')%bool
  end.

(** [needle in hay] *)
Fixpoint contains (needle hay : unicode) : bool :=
  (prefix needle hay ||
   match hay with
   | [] => false
   | _ :: hay' => contains needle hay'
   end)%bool.

(** A code point that UTF-8 does not encode. *)
Definition is_surrogate (n : N) : bool := PyStr.between 0xD800 0xDFFF n.

(** The length of the run of surrogates at the head of [s]. *)
Fixpoint surrogate_run (s : unicode) : nat :=
  match s with
  | c :: s' => if is_surrogate c then S (surrogate_run s') else O
  | [] => O
  end.

End Unicode.

Coercion Unicode.of_string : string >-> unicode.

(** ** Python floats as rationals *)

Module PyNum.

(** [min(a, b)]: [b] when [b < a], otherwise [a]. *)
Definition py_min (a b : Q) : Q := if Qle_bool a b then a else b.

End PyNum.

(** ** HallucinationRiskScorer *)

Import PyStr PyNum.

Definition hedging_words : list string :=
  ["might"; "possibly"; "perhaps"; "maybe"; "i think";
   "could be"; "it seems"; "likely"; "probably"].

(** [sum(1 for word in hedging_words if word in text_lower)] *)
Definition hedging_count (response_text : string) : Z :=
  let text_lower := lower response_text in
  Z.of_nat (List.length (filter (fun word => contains word text_lower) hedging_words)).

(** [len(s.split())] *)
Definition word_count (s : string) : Z := Z.of_nat (List.length (split s)).

(** [response_length / max(prompt_length, 1)] *)
Definition verbosity_ratio (response_text : string) (prompt : unicode) : Q :=
  inject_Z (word_count response_text) /
  inject_Z (Z.max (Unicode.word_count prompt) 1).

Definition calculate_hallucination_risk
    (response_text : string) (prompt : unicode) (confidence : Q) : Q :=
  let risk_score := 0 in
  (* Factor 1: low confidence (40% weight) *)
  let confidence_risk := 1 - confidence in
  let risk_score := risk_score + confidence_risk * (4 # 10) in
  (* Factor 2: hedging language (30% weight) *)
  let hedging_risk := py_min (inject_Z (hedging_count response_text) / 5) 1 in
  let risk_score := risk_score + hedging_risk * (3 # 10) in
  (* Factor 3: excessive verbosity (30% weight) *)
  let verbosity_risk := py_min (verbosity_ratio response_text prompt / 50) 1 in
  let risk_score := risk_score + verbosity_risk * (3 # 10) in
  py_min risk_score 1.

(** The same function on IEEE 754 binary64 numbers, as CPython computes
    it; a count becomes a float when it is divided. *)
Module Binary64.

Import PrimFloat.
Local Open Scope float_scope.

Definition py_min (a b : float) : float := if ltb b a then b else a.

Definition of_count (n : Z) : float := of_uint63 (Uint63.of_Z n).

#[warnings="-inexact-float"]
Definition calculate_hallucination_risk
    (response_text : string) (prompt : unicode) (confidence : float) : float :=
  let risk_score := 0.0 in
  let confidence_risk := 1.0 - confidence in
  let risk_score := risk_score + confidence_risk * 0.4 in
  let hedging_risk := py_min (of_count (hedging_count response_text) / 5.0) 1.0 in
  let risk_score := risk_score + hedging_risk * 0.3 in
  let response_length := word_count response_text in
  let prompt_length := Unicode.word_count prompt in
  let verbosity_ratio := of_count response_length / of_count (Z.max prompt_length 1) in
  let verbosity_risk := py_min (verbosity_ratio / 50.0) 1.0 in
  let risk_score := risk_score + verbosity_risk * 0.3 in
  py_min risk_score 1.0.

End Binary64.

(** ** Exceptions *)

Record exn : Type := Exn { exn_type : string; exn_msg : string }.

Inductive result (A : Type) : Type :=
  | Ok (a : A)
  | Raise (e : exn).
Arguments Ok {A} a.
Arguments Raise {A} e.

(** ** PromptHasher *)

(** SHA-256 (FIPS 180-4) on 32-bit words held in [Z], as [hashlib.sha256]
    computes it. *)
Module Sha256.

Local Open Scope Z_scope.

Definition wrap32 (x : Z) : Z := x mod 2 ^ 32.
Definition add32 (x y : Z) : Z := wrap32 (x + y).
Definition not32 (x : Z) : Z := Z.lxor x 4294967295.
Definition rotr (n x : Z) : Z :=
  Z.lor (Z.shiftr x n) (wrap32 (Z.shiftl x (32 - n))).
Definition shr (n x : Z) : Z := Z.shiftr x n.

Definition Ch (x y z : Z) : Z := Z.lxor (Z.land x y) (Z.land (not32 x) z).
Definition Maj (x y z : Z) : Z :=
  Z.lxor (Z.lxor (Z.land x y) (Z.land x z)) (Z.land y z).
Definition Sigma0 (x : Z) : Z := Z.lxor (Z.lxor (rotr 2 x) (rotr 13 x)) (rotr 22 x).
Definition Sigma1 (x : Z) : Z := Z.lxor (Z.lxor (rotr 6 x) (rotr 11 x)) (rotr 25 x).
Definition sigma0 (x : Z) : Z := Z.lxor (Z.lxor (rotr 7 x) (rotr 18 x)) (shr 3 x).
Definition sigma1 (x : Z) : Z := Z.lxor (Z.lxor (rotr 17 x) (rotr 19 x)) (shr 10 x).

(** Four 32-bit words packed in one 128-bit literal, most significant first. *)
Definition unpack4 (x : Z) : list Z :=
  map (fun i => Z.land (Z.shiftr x (32 * i)) 4294967295) [3; 2; 1; 0].

(** The round constants, four to a row. *)
Definition K : list Z :=
  flat_map unpack4
  [0x428a2f9871374491b5c0fbcfe9b5dba5;
   0x3956c25b59f111f1923f82a4ab1c5ed5;
   0xd807aa9812835b01243185be550c7dc3;
   0x72be5d7480deb1fe9bdc06a7c19bf174;
   0xe49b69c1efbe47860fc19dc6240ca1cc;
   0x2de92c6f4a7484aa5cb0a9dc76f988da;
   0x983e5152a831c66db00327c8bf597fc7;
   0xc6e00bf3d5a7914706ca635114292967;
   0x27b70a852e1b21384d2c6dfc53380d13;
   0x650a7354766a0abb81c2c92e92722c85;
   0xa2bfe8a1a81a664bc24b8b70c76c51a3;
   0xd192e819d6990624f40e3585106aa070;
   0x19a4c1161e376c082748774c34b0bcb5;
   0x391c0cb34ed8aa4a5b9cca4f682e6ff3;
   0x748f82ee78a5636f84c878148cc70208;
   0x90befffaa4506cebbef9a3f7c67178f2].

Record regs : Type := Regs { ra : Z; rb : Z; rc : Z; rd : Z; re : Z; rf : Z; rg : Z; rh : Z }.

Definition regs_of (ws : list Z) : regs :=
  Regs (nth 0 ws 0) (nth 1 ws 0) (nth 2 ws 0) (nth 3 ws 0)
     (nth 4 ws 0) (nth 5 ws 0) (nth 6 ws 0) (nth 7 ws 0).

(** The initial hash value. *)
Definition init : regs :=
  regs_of (flat_map unpack4
  [0x6a09e667bb67ae853c6ef372a54ff53a; 0x510e527f9b05688c1f83d9ab5be0cd19]).

(** Padding: one [0x80], zeros up to 56 modulo 64, the bit length on 8 bytes. *)
Definition be_bytes (n : nat) (x : Z) : list Z :=
  map (fun i => Z.land (Z.shiftr x (8 * Z.of_nat i)) 255) (rev (seq 0 n)).

Definition pad (msg : list Z) : list Z :=
  let len := Z.of_nat (List.length msg) in
  msg ++ [128] ++ repeat 0 (Z.to_nat ((55 - len) mod 64)) ++ be_bytes 8 (8 * len).

Definition be_word (b3 b2 b1 b0 : Z) : Z :=
  Z.lor (Z.lor (Z.shiftl b3 24) (Z.shiftl b2 16)) (Z.lor (Z.shiftl b1 8) b0).

Fixpoint words (bytes : list Z) : list Z :=
  match bytes with
  | b3 :: b2 :: b1 :: b0 :: rest => be_word b3 b2 b1 b0 :: words rest
  | _ => []
  end.

(** The message schedule, newest word first while it is extended. *)
Fixpoint extend (n : nat) (w : list Z) : list Z :=
  match n with
  | O => w
  | S n' =>
      extend n'
        (add32 (add32 (sigma1 (nth 1 w 0)) (nth 6 w 0))
               (add32 (sigma0 (nth 14 w 0)) (nth 15 w 0)) :: w)
  end.

Definition schedule (block : list Z) : list Z := rev (extend 48 (rev block)).

Definition round (s : regs) (kw : Z * Z) : regs :=
  let (k, w) := kw in
  let t1 := add32 (add32 (add32 (rh s) (Sigma1 (re s))) (Ch (re s) (rf s) (rg s)))
                  (add32 k w) in
  let t2 := add32 (Sigma0 (ra s)) (Maj (ra s) (rb s) (rc s)) in
  Regs (add32 t1 t2) (ra s) (rb s) (rc s) (add32 (rd s) t1) (re s) (rf s) (rg s).

Definition compress (h : regs) (block : list Z) : regs :=
  let s := fold_left round (combine K (schedule block)) h in
  Regs (add32 (ra h) (ra s)) (add32 (rb h) (rb s)) (add32 (rc h) (rc s))
       (add32 (rd h) (rd s)) (add32 (re h) (re s)) (add32 (rf h) (rf s))
       (add32 (rg h) (rg s)) (add32 (rh h) (rh s)).

(** Blocks of 16 words, consumed in order. *)
Fixpoint blocks (n : nat) (ws : list Z) (h : regs) : regs :=
  match n with
  | O => h
  | S n' =>
      match ws with
      | [] => h
      | _ => blocks n' (skipn 16 ws) (compress h (firstn 16 ws))
      end
  end.

Definition digest (msg : list Z) : regs :=
  let ws := words (pad msg) in
  blocks (List.length ws) ws init.

Definition hex_chars : list ascii :=
  ["0"; "1"; "2"; "3"; "4"; "5"; "6"; "7"; "8"; "9"; "a"; "b"; "c"; "d"; "e"; "f"]%char.

Definition hex_digit (x : Z) : ascii :=
  nth (Z.to_nat (Z.land x 15)) hex_chars "0"%char.

Definition hex_word (w : Z) : string :=
  String (hex_digit (Z.shiftr w 28)) (String (hex_digit (Z.shiftr w 24))
 (String (hex_digit (Z.shiftr w 20)) (String (hex_digit (Z.shiftr w 16))
 (String (hex_digit (Z.shiftr w 12)) (String (hex_digit (Z.shiftr w 8))
 (String (hex_digit (Z.shiftr w 4)) (String (hex_digit w) EmptyString))))))).

(** [hashlib.sha256(data).hexdigest()] *)
Definition hexdigest (msg : list Z) : string :=
  let h := digest msg in
  (hex_word (ra h) ++ hex_word (rb h) ++ hex_word (rc h) ++ hex_word (rd h) ++
   hex_word (re h) ++ hex_word (rf h) ++ hex_word (rg h) ++ hex_word (rh h))%string.

End Sha256.


(** A number in decimal digits, as [%d] prints it. *)
Definition decimal (n : nat) : string := NilZero.string_of_uint (Nat.to_uint n).

(** A code point of the basic plane as [\uxxxx]. *)
Definition escape (c : N) : string :=
  let n := Z.of_N c in
  "\u" ++ String (Sha256.hex_digit (Z.shiftr n 12)) (String (Sha256.hex_digit (Z.shiftr n 8))
         (String (Sha256.hex_digit (Z.shiftr n 4)) (String (Sha256.hex_digit n) EmptyString))).

(** What [s.encode()] raises at a run of [run] surrogates that starts with
    [c] at index [position]. *)
Definition UnicodeEncodeError (c : N) (position run : nat) : exn :=
  Exn "UnicodeEncodeError"
      (if Nat.eqb run 1
       then "'utf-8' codec can't encode character '" ++ escape c ++ "' in position " ++
            decimal position ++ ": surrogates not allowed"
       else "'utf-8' codec can't encode characters in position " ++
            decimal position ++ "-" ++ decimal (position + run - 1) ++
            ": surrogates not allowed").

(** The UTF-8 bytes of one code point that is not a surrogate. *)
Definition utf8 (c : N) : list Z :=
  let n := Z.of_N c in
  let tail (shift : Z) := Z.lor 128 (Z.land (Z.shiftr n shift) 63) in
  if (n <? 128)%Z then [n]
  else if (n <? 2048)%Z then [Z.lor 192 (Z.shiftr n 6); tail 0%Z]
  else if (n <? 65536)%Z then [Z.lor 224 (Z.shiftr n 12); tail 6%Z; tail 0%Z]
  else [Z.lor 240 (Z.shiftr n 18); tail 12%Z; tail 6%Z; tail 0%Z].

Fixpoint encode_from (position : nat) (s : unicode) : result (list Z) :=
  match s with
  | [] => Ok []
  | c :: s' =>
      if Unicode.is_surrogate c
      then Raise (UnicodeEncodeError c position (Unicode.surrogate_run s))
      else
        match encode_from (S position) s' with
        | Ok data => Ok (utf8 c ++ data)%list
        | Raise e => Raise e
        end
  end.

(** [s.encode()]: UTF-8, strict; the first surrogate is an error. *)
Definition encode (s : unicode) : result (list Z) := encode_from 0 s.

Definition hash_prompt (prompt : unicode) : result string :=
  match encode prompt with
  | Ok data => Ok (take 16 (Sha256.hexdigest data))
  | Raise e => Raise e
  end.

(** ** Python values and the effects of a request *)

(** The values that travel through the handler: what [request.get_json()]
    returns, the entries of the telemetry dicts and the JSON bodies. *)
#[warnings="-register-all"]
Inductive pyval : Type :=
  | PNone
  | PBool (b : bool)
  | PInt (z : Z)
  | PFloat (q : Q)
  | PStr (s : unicode)
  | PList (l : list pyval)
  | PDict (d : list (string * pyval)).

Definition dict : Type := list (string * pyval).

Fixpoint lookup (key : string) (d : dict) : option pyval :=
  match d with
  | [] => None
  | (k, v) :: d' => if String.eqb k key then Some v else lookup key d'
  end.

(** [bool(v)] *)
Definition truthy (v : pyval) : bool :=
  match v with
  | PNone => false
  | PBool b => b
  | PInt z => negb (Z.eqb z 0)
  | PFloat q => negb (Qeq_bool q 0)
  | PStr s => negb (Unicode.is_empty s)
  | PList l => match l with [] => false | _ => true end
  | PDict d => match d with [] => false | _ => true end
  end.

Definition type_name (v : pyval) : string :=
  match v with
  | PNone => "NoneType"
  | PBool _ => "bool"
  | PInt _ => "int"
  | PFloat _ => "float"
  | PStr _ => "str"
  | PList _ => "list"
  | PDict _ => "dict"
  end.

Definition AttributeError (v : pyval) (attr : string) : exn :=
  Exn "AttributeError"
      ("'" ++ type_name v ++ "' object has no attribute '" ++ attr ++ "'").

(** The response object of the model: [.text] may itself raise, and
    [usage_metadata] may be absent. *)
Record response : Type :=
  Response { text : result string; usage_metadata : option Z }.

(** Datadog models built by the dispatchers. *)
Inductive MetricIntakeType : Type := UNSPECIFIED.

Record MetricPoint : Type := { timestamp : Z; value : pyval }.
Record MetricResource : Type := { resource_name : string; resource_type : string }.
Record MetricSeries : Type :=
  { metric : string;
    intake_type : MetricIntakeType;
    points : list MetricPoint;
    resources : list MetricResource;
    tags : list unicode }.
Definition MetricPayload : Type := list MetricSeries.

Record HTTPLogItem : Type :=
  { ddsource : string;
    ddtags : string;
    hostname : string;
    message : unicode;
    service : string;
    additional : dict }.
Definition HTTPLog : Type := list HTTPLogItem.

(** What a request does to the outside, in order. *)
Inductive event : Type :=
  | EvGenerate (prompt : pyval)
  | EvSubmitMetrics (body : MetricPayload)
  | EvSubmitLog (body : HTTPLog)
  | EvPrint (line : string).

(** Process configuration and the collaborators outside the repository.
    [uuid4 n], [time_time n] and [generate_content n] are the results of the
    [n]-th call of the process; [py_str] is [str()] on a value that is not
    already a string; [round_tie_up x n] is the side [round(x, n)] takes
    when [x] lies exactly halfway between two decimals of [n] digits, where
    the binary64 number the process holds decides. *)
Record Env : Type :=
  { MODEL_NAME : string;
    ENVIRONMENT : string;
    uuid4 : nat -> string;
    time_time : nat -> Q;
    generate_content : nat -> pyval -> result response;
    submit_metrics : MetricPayload -> result unit;
    submit_log : HTTPLog -> result unit;
    py_str : pyval -> unicode;
    round_tie_up : Q -> nat -> bool }.

(** [trace] is what the process did to the outside, in order; [timeline]
    holds the same events, each with the number of clock readings taken
    before it. *)
Record State : Type :=
  { uuids : nat;
    clock_reads : nat;
    model_calls : nat;
    trace : list event;
    timeline : list (nat * event) }.

Definition SERVICE_NAME : string := "llm-observability-service".

(** Computations that read and extend the state and may raise; the state
    survives an exception, as the calls already made are not undone. *)
Definition M (A : Type) : Type := State -> result A * State.

Definition ret {A} (a : A) : M A := fun st => (Ok a, st).

Definition bind {A B} (c : M A) (k : A -> M B) : M B :=
  fun st =>
    match c st with
    | (Ok a, st') => k a st'
    | (Raise e, st') => (Raise e, st')
    end.

Definition raise {A} (e : exn) : M A := fun st => (Raise e, st).

Definition lift {A} (r : result A) : M A := fun st => (r, st).

(** [try: c except Exception as e: handler e] *)
Definition try_except {A} (c : M A) (handler : exn -> M A) : M A :=
  fun st =>
    match c st with
    | (Ok a, st') => (Ok a, st')
    | (Raise e, st') => handler e st'
    end.

Declare Scope py_scope.
Delimit Scope py_scope with py.
Notation "x <- c ;; k" := (bind c (fun x => k))
  (at level 61, c at next level, right associativity) : py_scope.
Notation "c ;; k" := (bind c (fun _ => k))
  (at level 61, right associativity) : py_scope.
Local Open Scope py_scope.

Definition emit (ev : event) : M unit :=
  fun st =>
    (Ok tt, {| uuids := uuids st; clock_reads := clock_reads st;
               model_calls := model_calls st; trace := (trace st ++ [ev])%list;
               timeline := (timeline st ++ [(clock_reads st, ev)])%list |}).

(** [print(line)] *)
Definition print (line : string) : M unit := emit (EvPrint line).

(** Nearest integer; at an exact tie the greater one when [up], the
    smaller one otherwise. *)
Definition round_nearest (up : bool) (x : Q) : Z :=
  let f := Qfloor x in
  match Qcompare (x - inject_Z f) (1 # 2) with
  | Lt => f
  | Gt => (f + 1)%Z
  | Eq => if up then (f + 1)%Z else f
  end.

Section Service.

Variable env : Env.

(** [str(uuid.uuid4())] *)
Definition new_uuid : M string :=
  fun st =>
    (Ok (uuid4 env (uuids st)),
     {| uuids := S (uuids st); clock_reads := clock_reads st;
        model_calls := model_calls st; trace := trace st;
        timeline := timeline st |}).

(** [time.time()] *)
Definition now : M Q :=
  fun st =>
    (Ok (time_time env (clock_reads st)),
     {| uuids := uuids st; clock_reads := S (clock_reads st);
        model_calls := model_calls st; trace := trace st;
        timeline := timeline st |}).

(** [model.generate_content(prompt)] *)
Definition model (prompt : pyval) : M response :=
  fun st =>
    (generate_content env (model_calls st) prompt,
     {| uuids := uuids st; clock_reads := clock_reads st;
        model_calls := S (model_calls st);
        trace := (trace st ++ [EvGenerate prompt])%list;
        timeline := (timeline st ++ [(clock_reads st, EvGenerate prompt)])%list |}).

(** [api_instance.submit_metrics(body=payload)] *)
Definition api_submit_metrics (body : MetricPayload) : M unit :=
  emit (EvSubmitMetrics body) ;; lift (submit_metrics env body).

(** [api_instance.submit_log(body=body)] *)
Definition api_submit_log (body : HTTPLog) : M unit :=
  emit (EvSubmitLog body) ;; lift (submit_log env body).

(** [f"{v}"] *)
Definition format (v : pyval) : unicode :=
  match v with
  | PStr s => s
  | _ => py_str env v
  end.

(** [round(x, ndigits)] *)
Definition py_round (x : Q) (ndigits : nat) : Q :=
  let scale := inject_Z (10 ^ Z.of_nat ndigits) in
  inject_Z (round_nearest (round_tie_up env x ndigits) (x * scale)) / scale.

End Service.

(** ** SelfConfidenceEstimator: the pattern and the number it yields *)

Module Re.

(** The fragment of [re] patterns the service uses. Alternation and the
    quantifiers backtrack as in [re]: the left branch first, greedy. *)
Inductive regex : Type :=
  | Lit (c : ascii)
  | Digit
  | Seq (a b : regex)
  | Alt (a b : regex)
  | Opt (a : regex)
  | Plus (a : regex).

Definition or_else {A} (x y : option A) : option A :=
  match x with Some _ => x | None => y end.

(** One or more rounds of [step], as many as possible first; every round
    of a pattern that consumes a character shortens the text, so a fuel of
    one more than its length is never exhausted. *)
Fixpoint iterate (step : string -> (string -> option string) -> option string)
  (fuel : nat) (s : string) (k : string -> option string) : option string :=
  match fuel with
  | O => None
  | S fuel' => step s (fun s' => or_else (iterate step fuel' s' k) (k s'))
  end.

(** [matcher r s k]: match [r] at the head of [s], then hand the rest to
    [k]; the result is what is left of [s] after the whole match. *)
Fixpoint matcher (r : regex) (s : string) (k : string -> option string)
  : option string :=
  match r with
  | Lit c =>
    match s with
    | String c' s' => if Ascii.eqb c c' then k s' else None
    | EmptyString => None
    end
  | Digit =>
    match s with
    | String c' s' => if isdigit c' then k s' else None
    | EmptyString => None
    end
  | Seq a b => matcher a s (fun s' => matcher b s' k)
  | Alt a b => or_else (matcher a s k) (matcher b s k)
  | Opt a => or_else (matcher a s k) (k s)
  | Plus a => iterate (matcher a) (S (String.length s)) s k
  end.

(** The text of a match at the head of [s], as [m.group()] gives it. *)
Definition match_here (r : regex) (s : string) : option string :=
  match matcher r s (fun rest => Some rest) with
  | Some rest => Some (take (String.length s - String.length rest) s)
  | None => None
  end.

(** [re.search(r, s)]: the match at the leftmost position that has one. *)
Fixpoint search (r : regex) (s : string) : option string :=
  match match_here r s with
  | Some m => Some m
  | None =>
      match s with
      | EmptyString => None
      | String _ s' => search r s'
      end
  end.

End Re.

(** [r'0?\.\d+|1\.0|0|1'] *)
Definition confidence_pattern : Re.regex :=
  Re.Alt (Re.Seq (Re.Opt (Re.Lit "0")) (Re.Seq (Re.Lit ".") (Re.Plus Re.Digit)))
 (Re.Alt (Re.Seq (Re.Lit "1") (Re.Seq (Re.Lit ".") (Re.Lit "0")))
 (Re.Alt (Re.Lit "0") (Re.Lit "1"))).

(** Decimal digits read most significant first. *)
Fixpoint digits_value (acc : Z) (s : string) : option Z :=
  match s with
  | EmptyString => Some acc
  | String c s' =>
      if isdigit c
      then digits_value (10 * acc + (Z.of_N (code c) - 48)) s'
      else None
  end.

Fixpoint split_at_dot (s : string) : string * option string :=
  match s with
  | EmptyString => (EmptyString, None)
  | String c s' =>
      if Ascii.eqb c "." then (EmptyString, Some s')
      else let (i, f) := split_at_dot s' in (String c i, f)
  end.

Definition ValueError_float (s : string) : exn :=
  Exn "ValueError" ("could not convert string to float: '" ++ s ++ "'").

(** [float(s)] for an unsigned decimal literal [digits], [digits.digits],
    [.digits] or [digits.]; anything else is reported as a [ValueError]
    (the signs, exponents and special values that [float] also reads are not
    part of this model, and the pattern above never yields them). *)
Definition py_float (s : string) : result Q :=
  let (int_part, frac) := split_at_dot s in
  let frac_part := match frac with Some f => f | None => EmptyString end in
  if (is_empty int_part && is_empty frac_part)%bool then Raise (ValueError_float s)
  else
    match digits_value 0 int_part, digits_value 0 frac_part with
    | Some i, Some f =>
        Ok (inject_Z i + inject_Z f / inject_Z (10 ^ Z.of_nat (String.length frac_part)))
    | _, _ => Raise (ValueError_float s)
    end.

(** [int(x)]: truncation toward zero. *)
Definition py_int (x : Q) : Z := Z.quot (Qnum x) (Zpos (Qden x)).

Definition nl : string := String (ascii_of_nat 10) EmptyString.

Definition KeyError (key : string) : exn := Exn "KeyError" ("'" ++ key ++ "'").

(** [d[key]] *)
Definition getitem (d : dict) (key : string) : result pyval :=
  match lookup key d with
  | Some v => Ok v
  | None => Raise (KeyError key)
  end.

(** [d.get(key, default)] *)
Definition dict_get (d : dict) (key : string) (default : pyval) : pyval :=
  match lookup key d with
  | Some v => v
  | None => default
  end.

(** [data.get(key, default)] on whatever [data] is. *)
Definition get_method (data : pyval) (key : string) (default : pyval) : result pyval :=
  match data with
  | PDict d => Ok (dict_get d key default)
  | _ => Raise (AttributeError data "get")
  end.

(** [isinstance(value, (int, float))]; [bool] is a subclass of [int]. *)
Definition is_number (v : pyval) : bool :=
  match v with
  | PInt _ | PFloat _ | PBool _ => true
  | _ => false
  end.

(** ** The models of the Datadog client *)

(** The client checks an attribute against the type its model declares
    when the model object is built, and complains with an [ApiTypeError]
    (the wording of the complaint is the client's, given here in outline). *)
Definition ApiTypeError (name required : string) (v : pyval) : exn :=
  Exn "ApiTypeError"
      ("Invalid type for variable '" ++ name ++ "'. Required value type is " ++
       required ++ " and passed type was " ++ type_name v ++ " at ['" ++ name ++ "']").

(** What [MetricPoint(timestamp=timestamp, value=value)] stores: [value] is
    declared a [float]; a [float] is taken, an [int] is turned into one, and
    anything else ([bool] included) is refused. *)
Definition metric_value (value : pyval) : result pyval :=
  match value with
  | PFloat q => Ok (PFloat q)
  | PInt z => Ok (PFloat (inject_Z z))
  | _ => Raise (ApiTypeError "value" "float" value)
  end.

(** The keyword arguments [HTTPLogItem] is given besides [**log_data_str]. *)
Definition log_item_keywords : list string :=
  ["ddsource"; "ddtags"; "hostname"; "message"; "service"].

Definition TypeError_keyword (key : string) : exn :=
  Exn "TypeError"
      ("datadog_api_client.v1.model.http_log_item.HTTPLogItem() " ++
       "got multiple values for keyword argument '" ++ key ++ "'").

Definition first_clash (d : dict) : option string :=
  match filter (fun kv => existsb (String.eqb (fst kv)) log_item_keywords) d with
  | [] => None
  | kv :: _ => Some (fst kv)
  end.

Definition is_str (v : pyval) : bool :=
  match v with
  | PStr _ => true
  | _ => false
  end.

(** [HTTPLogItem(ddsource=..., ..., service=..., **kwargs)] for the item
    [item] whose additional attributes are [kwargs]: a key of [kwargs] that
    is also given by keyword makes the call itself a [TypeError]; the client
    then takes additional attributes of type [str] only, in the order of the
    dict. *)
Definition make_HTTPLogItem (item : HTTPLogItem) : result HTTPLogItem :=
  match first_clash (additional item) with
  | Some key => Raise (TypeError_keyword key)
  | None =>
      match find (fun kv => negb (is_str (snd kv))) (additional item) with
      | Some kv => Raise (ApiTypeError (fst kv) "str" (snd kv))
      | None => Ok item
      end
  end.

Section Pipeline.

Variable env : Env.

(** [calculate_hallucination_risk] as the handler calls it: [prompt] is
    whatever the request carried, and [prompt.split()] needs a string. *)
Definition calculate_hallucination_risk_dyn
    (response_text : string) (prompt : pyval) (confidence : Q) : result Q :=
  match prompt with
  | PStr p => Ok (calculate_hallucination_risk response_text p confidence)
  | _ => Raise (AttributeError prompt "split")
  end.

Definition hash_prompt_dyn (prompt : pyval) : result string :=
  match prompt with
  | PStr p => hash_prompt p
  | _ => Raise (AttributeError prompt "encode")
  end.

(** The follow-up instruction sent to the model. *)
Definition confidence_question
    (original_prompt : pyval) (original_response : string) : unicode :=
  (Unicode.of_string
     ("You previously answered this question:" ++ nl ++
      "Question: ") ++
   format env original_prompt ++
   Unicode.of_string
     (nl ++
      "Your answer: " ++ original_response ++ nl ++ nl ++
      "On a scale from 0.0 to 1.0, how confident are you that your answer is accurate and complete?" ++ nl ++
      "Respond with ONLY a number between 0.0 and 1.0, nothing else."))%list.

Definition get_self_confidence
    (model_instance : pyval -> M response)
    (original_prompt : pyval) (original_response : string) : M Q :=
  let confidence_prompt := confidence_question original_prompt original_response in
  try_except
  (response <- model_instance (PStr confidence_prompt) ;;
   response_text <- lift (text response) ;;
   let confidence_text := strip response_text in
   (* Extract number from response *)
   match Re.search confidence_pattern confidence_text with
   | Some group => lift (py_float group)
   | None => ret (1 # 2)  (* Default if parsing fails *)
   end)
  (fun e =>
     print ("Error getting self-confidence: " ++ exn_msg e) ;;
     ret (1 # 2)).

(** [MetricSeries(metric=..., type=..., points=[point], resources=[...],
    tags=tags)] around the stored value of its one point. *)
Definition success_series (timestamp : Z) (tags : list unicode)
    (named : string * pyval) : MetricSeries :=
  {| metric := fst named;
     intake_type := UNSPECIFIED;
     points := [ {| timestamp := timestamp; value := snd named |} ];
     resources := [ {| resource_name := SERVICE_NAME; resource_type := "service" |} ];
     tags := tags |}.

(** The [for] loop over the named values: each series is built in turn,
    and the first value the client refuses ends the loop. *)
Fixpoint build_series (timestamp : Z) (tags : list unicode)
    (named : list (string * pyval)) : result (list MetricSeries) :=
  match named with
  | [] => Ok []
  | (metric_name, value) :: rest =>
      match metric_value value with
      | Raise e => Raise e
      | Ok stored =>
          match build_series timestamp tags rest with
          | Raise e => Raise e
          | Ok series =>
              Ok (success_series timestamp tags (metric_name, stored) :: series)
          end
      end
  end.

Definition send_metrics_to_datadog (metrics_data : dict) : M unit :=
  try_except
    (t <- now env ;;
     let timestamp := py_int t in
     model_name <- lift (getitem metrics_data "model_name") ;;
     let tags :=
       [ (Unicode.of_string "model_name:" ++ format env model_name)%list;
         Unicode.of_string ("service:" ++ SERVICE_NAME);
         Unicode.of_string ("env:" ++ ENVIRONMENT env) ] in
     latency_ms <- lift (getitem metrics_data "latency_ms") ;;
     self_confidence <- lift (getitem metrics_data "self_confidence") ;;
     hallucination_risk <- lift (getitem metrics_data "hallucination_risk") ;;
     answer_length <- lift (getitem metrics_data "answer_length") ;;
     let token_count := dict_get metrics_data "token_count" (PInt 0) in
     series <-
       lift (build_series timestamp tags
               [ ("llm.request.latency_ms", latency_ms);
                 ("llm.self_confidence", self_confidence);
                 ("llm.hallucination_risk", hallucination_risk);
                 ("llm.answer_length", answer_length);
                 ("llm.token.count", token_count) ]) ;;
     api_submit_metrics env series)
    (fun e => print ("Error sending metrics to Datadog: " ++ exn_msg e)).

Definition send_logs_to_datadog (log_data : dict) : M unit :=
  try_except
    ((* Convert all numeric values to strings for Datadog logs API *)
     let log_data_str :=
       map (fun kv : string * pyval =>
              if is_number (snd kv) then (fst kv, PStr (py_str env (snd kv)))
              else kv) log_data in
     item <-
       lift (make_HTTPLogItem
               {| ddsource := "llm-observability";
                  ddtags := "env:" ++ ENVIRONMENT env ++ ",service:" ++ SERVICE_NAME;
                  hostname := SERVICE_NAME;
                  message :=
                    (Unicode.of_string "LLM request completed: request_id=" ++
                     format env (dict_get log_data "request_id" (PStr "unknown")))%list;
                  service := SERVICE_NAME;
                  additional := log_data_str |}) ;;
     api_submit_log env [item])
    (fun e => print ("Error sending logs to Datadog: " ++ exn_msg e)).

Definition error_series (timestamp : Z) : MetricSeries :=
  {| metric := "llm.error.count";
     intake_type := UNSPECIFIED;
     points := [ {| timestamp := timestamp; value := PFloat 1 |} ];
     resources := [];
     tags := [ Unicode.of_string ("service:" ++ SERVICE_NAME);
               Unicode.of_string ("env:" ++ ENVIRONMENT env) ] |}.

(** The [/health] handler. *)
Definition health : pyval * Z := (PDict [("status", PStr "healthy")], 200%Z).

(** The [except Exception as e] block of the [/chat] handler. *)
Definition on_exception (request_id : string) (start_time : Q) (e : exn)
  : M (pyval * Z) :=
  (* Log error *)
  error_time <- now env ;;
  let error_data :=
  [ ("request_id", PStr request_id);
    ("error", PStr (exn_msg e));
    ("latency_ms", PFloat ((error_time - start_time) * 1000));
    ("status", PStr "error") ] in
  send_logs_to_datadog error_data ;;
  (* Send error metric *)
  try_except
  (t <- now env ;; api_submit_metrics env [ error_series (py_int t) ])
  (fun _ => ret tt) ;;
  ret (PDict [("error", PStr (exn_msg e)); ("request_id", PStr request_id)],
     500%Z).

(** The [/chat] handler. [get_json] is the outcome of
    [request.get_json()]; the result is the JSON body and the status. *)
Definition chat (get_json : result pyval) : M (pyval * Z) :=
  request_id <- new_uuid env ;;
  start_time <- now env ;;
  try_except
  ((* Parse request *)
   data <- lift get_json ;;
   prompt <- lift (get_method data "prompt" (PStr "")) ;;
   if negb (truthy prompt)
   then ret (PDict [("error", PStr "prompt is required")], 400%Z)
   else
     (* Call Gemini *)
     llm_start <- now env ;;
     response <- model env prompt ;;
     llm_end <- now env ;;
     response_text <- lift (text response) ;;
     (* Get self-confidence score *)
     confidence_score <- get_self_confidence (model env) prompt response_text ;;
     (* Calculate hallucination risk *)
     hallucination_risk <-
       lift (calculate_hallucination_risk_dyn response_text prompt confidence_score) ;;
     (* Calculate metrics *)
     let latency_ms := (llm_end - llm_start) * 1000 in
     let answer_length := word_count response_text in
     let token_count :=
       match usage_metadata response with Some n => n | None => 0%Z end in
     (* Prepare telemetry data *)
     let metrics_data :=
       [ ("model_name", PStr (MODEL_NAME env));
         ("latency_ms", PFloat latency_ms);
         ("self_confidence", PFloat confidence_score);
         ("hallucination_risk", PFloat hallucination_risk);
         ("answer_length", PInt answer_length);
         ("token_count", PInt token_count) ] in
     prompt_hash <- lift (hash_prompt_dyn prompt) ;;
     let log_data :=
       [ ("request_id", PStr request_id);
         ("prompt_hash", PStr prompt_hash);
         ("model_name", PStr (MODEL_NAME env));
         ("latency_ms", PFloat latency_ms);
         ("hallucination_risk", PFloat hallucination_risk);
         ("self_confidence", PFloat confidence_score);
         ("answer_length", PInt answer_length);
         ("status", PStr "success") ] in
     (* Send telemetry *)
     send_metrics_to_datadog metrics_data ;;
     send_logs_to_datadog log_data ;;
     (* Return response *)
     end_time <- now env ;;
     ret (PDict
            [ ("request_id", PStr request_id);
              ("response", PStr response_text);
              ("metadata",
               PDict
                 [ ("latency_ms", PFloat (py_round env ((end_time - start_time) * 1000) 2));
                   ("confidence", PFloat (py_round env confidence_score 3));
                   ("hallucination_risk", PFloat (py_round env hallucination_risk 3));
                   ("model", PStr (MODEL_NAME env)) ]) ],
          200%Z))
  (on_exception request_id start_time).

End Pipeline.

(** ** Vocabulary of the statements *)

(** The characters of a string, for statements about all of them. *)
Fixpoint chars (s : string) : list ascii :=
  match s with
  | EmptyString => []
  | String c s' => c :: chars s'
  end.

(** A lowercase hexadecimal digit. *)
Definition lower_hex (c : ascii) : Prop := In c Sha256.hex_chars.

(** The leading run of decimal digits of a string, and what follows it. *)
Fixpoint take_digits (s : string) : string :=
  match s with
  | String c s' => if isdigit c then String c (take_digits s') else EmptyString
  | EmptyString => EmptyString
  end.

Fixpoint drop_digits (s : string) : string :=
  match s with
  | String c s' => if isdigit c then drop_digits s' else s
  | EmptyString => EmptyString
  end.

(** The shapes of text the confidence pattern can match: [0], [1], [1.0],
    or an optional [0], a dot and a non-empty run of digits. *)
Inductive confidence_token : string -> Prop :=
  | token_zero : confidence_token "0"
  | token_one : confidence_token "1"
  | token_one_point_zero : confidence_token "1.0"
  | token_fraction (lead : bool) (d : ascii) (ds : string) :
    isdigit d = true ->
    confidence_token
      ((if lead then "0." else ".") ++ String d (take_digits ds)).

(** Whether two calls of [hash_prompt] returned the same text. *)
Definition same_hash (a b : result string) : bool :=
  match a, b with
  | Ok x, Ok y => String.eqb x y
  | _, _ => false
  end.

(** Whether every prompt of [ps] has a hash, and equal hashes and equal
    prompts coincide on every pair of [ps]; each prompt is hashed once. *)
Definition distinct_hashes (ps : list string) : bool :=
  let hashed := map (fun p : string => (p, hash_prompt p)) ps in
  forallb (fun a =>
    forallb (fun b => Bool.eqb (same_hash (snd a) (snd b))
                               (String.eqb (fst a) (fst b))) hashed) hashed.

(** A prompt that [encode] accepts: no code point of it is a surrogate. *)
Definition encodable (s : unicode) : bool :=
  forallb (fun c => negb (Unicode.is_surrogate c)) s.

(** ** The paths of a request *)

Section Paths.

Variable env : Env.

(** What a dispatch leaves in the trace: the submitted body, and a line on
    the operational channel when the sink refused it. *)
Definition metrics_events (payload : MetricPayload) : list event :=
  EvSubmitMetrics payload ::
  match submit_metrics env payload with
  | Ok _ => []
  | Raise e => [EvPrint ("Error sending metrics to Datadog: " ++ exn_msg e)]
  end.

Definition log_events (body : HTTPLog) : list event :=
  EvSubmitLog body ::
  match submit_log env body with
  | Ok _ => []
  | Raise e => [EvPrint ("Error sending logs to Datadog: " ++ exn_msg e)]
  end.

(** The log entry made from a telemetry dict. *)
Definition log_entry (log_data : dict) : HTTPLogItem :=
  {| ddsource := "llm-observability";
     ddtags := "env:" ++ ENVIRONMENT env ++ ",service:" ++ SERVICE_NAME;
     hostname := SERVICE_NAME;
     message :=
       (Unicode.of_string "LLM request completed: request_id=" ++
        format env (dict_get log_data "request_id" (PStr "unknown")))%list;
     service := SERVICE_NAME;
     additional :=
       map (fun kv : string * pyval =>
              if is_number (snd kv) then (fst kv, PStr (py_str env (snd kv)))
              else kv) log_data |}.

(** The value and the trace of the confidence elicitation that is the
    [calls]-th model call. *)
Definition elicitation (calls : nat) (prompt : pyval) (answer : string)
  : Q * list event :=
  let question := PStr (confidence_question env prompt answer) in
  let complaint (e : exn) :=
    [EvGenerate question; EvPrint ("Error getting self-confidence: " ++ exn_msg e)] in
  match generate_content env calls question with
  | Raise e => (1 # 2, complaint e)
  | Ok reply =>
      match text reply with
      | Raise e => (1 # 2, complaint e)
      | Ok t =>
          match Re.search confidence_pattern (strip t) with
          | None => (1 # 2, [EvGenerate question])
          | Some group =>
              match py_float group with
              | Ok q => (q, [EvGenerate question])
              | Raise e => (1 # 2, complaint e)
              end
          end
      end
  end.

Definition rejection : pyval * Z :=
  (PDict [("error", PStr "prompt is required")], 400%Z).

Definition failure_response (e : exn) (request_id : string) : pyval * Z :=
  (PDict [("error", PStr (exn_msg e)); ("request_id", PStr request_id)], 500%Z).

Definition success_response (request_id answer : string)
    (full_latency_ms confidence risk : Q) : pyval * Z :=
  (PDict
     [ ("request_id", PStr request_id);
       ("response", PStr answer);
       ("metadata",
        PDict
          [ ("latency_ms", PFloat (py_round env full_latency_ms 2));
            ("confidence", PFloat (py_round env confidence 3));
            ("hallucination_risk", PFloat (py_round env risk 3));
            ("model", PStr (MODEL_NAME env)) ]) ],
   200%Z).

Definition success_payload (timestamp : Z) (latency_ms confidence risk : Q)
    (answer_length token_count : Z) : MetricPayload :=
  map (success_series timestamp
         [ (Unicode.of_string "model_name:" ++ Unicode.of_string (MODEL_NAME env))%list;
           Unicode.of_string ("service:" ++ SERVICE_NAME);
           Unicode.of_string ("env:" ++ ENVIRONMENT env) ])
    [ ("llm.request.latency_ms", PFloat latency_ms);
      ("llm.self_confidence", PFloat confidence);
      ("llm.hallucination_risk", PFloat risk);
      ("llm.answer_length", PFloat (inject_Z answer_length));
      ("llm.token.count", PFloat (inject_Z token_count)) ].

Definition success_log_data (request_id prompt_hash : string)
    (latency_ms confidence risk : Q) (answer_length : Z) : dict :=
  [ ("request_id", PStr request_id);
    ("prompt_hash", PStr prompt_hash);
    ("model_name", PStr (MODEL_NAME env));
    ("latency_ms", PFloat latency_ms);
    ("hallucination_risk", PFloat risk);
    ("self_confidence", PFloat confidence);
    ("answer_length", PInt answer_length);
    ("status", PStr "success") ].

Definition error_data (request_id : string) (e : exn) (latency_ms : Q) : dict :=
  [ ("request_id", PStr request_id);
    ("error", PStr (exn_msg e));
    ("latency_ms", PFloat latency_ms);
    ("status", PStr "error") ].

(** Events recorded after [k] clock readings of the process. *)
Definition recorded (k : nat) (events : list event) : list (nat * event) :=
  map (fun ev => (k, ev)) events.

(** The state a request leaves: one uuid drawn, [reads] clock readings and
    [calls] model calls made, the events of [log] appended to the trace and
    [log] itself to the timeline. *)
Definition after (st : State) (reads calls : nat) (log : list (nat * event)) : State :=
  {| uuids := S (uuids st);
     clock_reads := reads + clock_reads st;
     model_calls := calls + model_calls st;
     trace := trace st ++ map snd log;
     timeline := timeline st ++ log |}.

(** The outcome of the error handler entered after [reads] clock readings
    and [calls] model calls, [before] being what the failed attempt
    recorded: the error log follows one more reading, the error counter one
    more again. *)
Definition failed (st : State) (e : exn) (reads calls : nat)
    (before : list (nat * event)) : result (pyval * Z) * State :=
  let request_id := uuid4 env (uuids st) in
  let start_time := time_time env (clock_reads st) in
  let error_time := time_time env (reads + clock_reads st) in
  (Ok (failure_response e request_id),
   after st (2 + reads) calls
     (before ++
      recorded (1 + reads + clock_reads st)
        (log_events
           [log_entry (error_data request_id e ((error_time - start_time) * 1000))]) ++
      recorded (2 + reads + clock_reads st)
        [EvSubmitMetrics
           [error_series env (py_int (time_time env (1 + reads + clock_reads st)))]])).

(** What a request records up to the end of the confidence elicitation:
    the generation call between the second and the third clock reading, the
    elicitation after the third. *)
Definition generation_and_elicitation (st : State) (prompt : pyval) (answer : string)
  : list (nat * event) :=
  recorded (2 + clock_reads st) [EvGenerate prompt] ++
  recorded (3 + clock_reads st) (snd (elicitation (1 + model_calls st) prompt answer)).

(** The outcome of a request that goes through: the two dispatches follow
    the fourth clock reading, and the fifth reading follows them. *)
Definition succeeded (st : State) (prompt : unicode) (reply : response)
    (answer prompt_hash : string) : result (pyval * Z) * State :=
  let request_id := uuid4 env (uuids st) in
  let clock := fun n => time_time env (n + clock_reads st)%nat in
  let confidence := fst (elicitation (1 + model_calls st) (PStr prompt) answer) in
  let risk := calculate_hallucination_risk answer prompt confidence in
  let latency_ms := (clock 2%nat - clock 1%nat) * 1000 in
  let token_count := match usage_metadata reply with Some n => n | None => 0%Z end in
  (Ok (success_response request_id answer
         ((clock 4%nat - clock 0%nat) * 1000) confidence risk),
   after st 5 2
     (generation_and_elicitation st (PStr prompt) answer ++
      recorded (4 + clock_reads st)
        (metrics_events
           (success_payload (py_int (clock 3%nat)) latency_ms confidence risk
              (word_count answer) token_count) ++
         log_events
           [log_entry
              (success_log_data request_id prompt_hash latency_ms confidence risk
                 (word_count answer))]))).

(** The eight ways through the handler. *)
Inductive chat_path (get_json : result pyval) (st : State)
  : result (pyval * Z) * State -> Prop :=
  | path_rejected (d : dict) :
    get_json = Ok (PDict d) ->
    truthy (dict_get d "prompt" (PStr "")) = false ->
    chat_path get_json st (Ok rejection, after st 1 0 [])
  | path_no_json (e : exn) :
    get_json = Raise e ->
    chat_path get_json st (failed st e 1 0 [])
  | path_not_an_object (data : pyval) (e : exn) :
    get_json = Ok data ->
    get_method data "prompt" (PStr "") = Raise e ->
    chat_path get_json st (failed st e 1 0 [])
  | path_generation_failed (d : dict) (prompt : pyval) (e : exn) :
    get_json = Ok (PDict d) ->
    dict_get d "prompt" (PStr "") = prompt ->
    truthy prompt = true ->
    generate_content env (model_calls st) prompt = Raise e ->
    chat_path get_json st
      (failed st e 2 1 (recorded (2 + clock_reads st) [EvGenerate prompt]))
  | path_no_text (d : dict) (prompt : pyval) (reply : response) (e : exn) :
    get_json = Ok (PDict d) ->
    dict_get d "prompt" (PStr "") = prompt ->
    truthy prompt = true ->
    generate_content env (model_calls st) prompt = Ok reply ->
    text reply = Raise e ->
    chat_path get_json st
      (failed st e 3 1 (recorded (2 + clock_reads st) [EvGenerate prompt]))
  | path_prompt_not_text (d : dict) (prompt : pyval) (reply : response)
    (answer : string) (e : exn) :
    get_json = Ok (PDict d) ->
    dict_get d "prompt" (PStr "") = prompt ->
    truthy prompt = true ->
    generate_content env (model_calls st) prompt = Ok reply ->
    text reply = Ok answer ->
    calculate_hallucination_risk_dyn answer prompt
      (fst (elicitation (1 + model_calls st) prompt answer)) = Raise e ->
    chat_path get_json st
      (failed st e 3 2 (generation_and_elicitation st prompt answer))
  | path_prompt_not_encodable (d : dict) (prompt : unicode) (reply : response)
    (answer : string) (e : exn) :
    get_json = Ok (PDict d) ->
    dict_get d "prompt" (PStr "") = PStr prompt ->
    prompt <> [] ->
    generate_content env (model_calls st) (PStr prompt) = Ok reply ->
    text reply = Ok answer ->
    hash_prompt prompt = Raise e ->
    chat_path get_json st
      (failed st e 3 2 (generation_and_elicitation st (PStr prompt) answer))
  | path_succeeded (d : dict) (prompt : unicode) (reply : response)
    (answer prompt_hash : string) :
    get_json = Ok (PDict d) ->
    dict_get d "prompt" (PStr "") = PStr prompt ->
    prompt <> [] ->
    generate_content env (model_calls st) (PStr prompt) = Ok reply ->
    text reply = Ok answer ->
    hash_prompt prompt = Ok prompt_hash ->
    chat_path get_json st (succeeded st prompt reply answer prompt_hash).

End Paths.

(** ** Observations on an outcome *)

(** A member of a JSON object. *)
Definition field (key : string) (v : pyval) : option pyval :=
  match v with
  | PDict d => lookup key d
  | _ => None
  end.

(** The events a computation added to the trace of [st]. *)
Definition new_events (st st' : State) : list event :=
  skipn (List.length (trace st)) (trace st').

(** What a computation added to the timeline of [st]. *)
Definition new_timeline (st st' : State) : list (nat * event) :=
  skipn (List.length (timeline st)) (timeline st').

(** The events of [log] that come after the clock reading number [i] and
    before the reading number [j] of the process, readings being numbered
    from 0: an event recorded after [k] readings comes after reading
    [k - 1] and before reading [k]. *)
Definition events_between (i j : nat) (log : list (nat * event)) : list event :=
  map snd (filter (fun entry => (i <? fst entry)%nat && (fst entry <=? j)%nat)%bool log).

Definition submitted_logs (events : list event) : list HTTPLogItem :=
  flat_map (fun ev => match ev with EvSubmitLog body => body | _ => [] end) events.

Definition submitted_series (events : list event) : list MetricSeries :=
  flat_map (fun ev => match ev with EvSubmitMetrics body => body | _ => [] end) events.

Definition model_prompts (events : list event) : list pyval :=
  flat_map (fun ev => match ev with EvGenerate p => [p] | _ => [] end) events.

(** Whether the text [needle] occurs anywhere in a metric series. *)
Definition mentions (needle : string) (s : MetricSeries) : bool :=
  (contains needle (metric s)
   || existsb (Unicode.contains needle) (tags s)
   || existsb (fun r => contains needle (resource_name r)
                        || contains needle (resource_type r)) (resources s)
   || existsb (fun p => match value p with
                        | PStr v => Unicode.contains needle v
                        | _ => false
                        end) (points s))%bool.

(** Events that submit nothing to either sink. *)
Definition quiet (events : list event) : Prop :=
  submitted_logs events = [] /\ submitted_series events = [].

(** A metric series identified by configuration only: one of the six metric
    names, the service as its resource, tags made of model name, service and
    environment, and numbers as values. *)
Definition anonymous_series (env : Env) (s : MetricSeries) : Prop :=
  In (metric s)
     [ "llm.request.latency_ms"; "llm.self_confidence"; "llm.hallucination_risk";
       "llm.answer_length"; "llm.token.count"; "llm.error.count" ] /\
  incl (tags s)
       [ Unicode.of_string ("model_name:" ++ MODEL_NAME env);
         Unicode.of_string ("service:" ++ SERVICE_NAME);
         Unicode.of_string ("env:" ++ ENVIRONMENT env) ] /\
  incl (resources s)
       [ {| resource_name := SERVICE_NAME; resource_type := "service" |} ] /\
  Forall (fun p => is_number (value p) = true) (points s).

(** The same process with other sinks. *)
Definition with_sinks (env : Env)
    (metrics_sink : MetricPayload -> result unit)
    (log_sink : HTTPLog -> result unit) : Env :=
  {| MODEL_NAME := MODEL_NAME env;
     ENVIRONMENT := ENVIRONMENT env;
     uuid4 := uuid4 env;
     time_time := time_time env;
     generate_content := generate_content env;
     submit_metrics := metrics_sink;
     submit_log := log_sink;
     py_str := py_str env;
     round_tie_up := round_tie_up env |}.

(** A clock that never goes back. *)
Definition non_decreasing (clock : nat -> Q) : Prop :=
  forall i j : nat, (i <= j)%nat -> clock i <= clock j.

(** ** Concrete requests and environments used to run the model *)

Module Scenario.

(** Five hedging phrases in five words. *)
Definition hedged_short : string := "might possibly perhaps maybe likely".

(** The same five phrases followed by 45 more words: 50 words in all. *)
Definition hedged_long : string := hedged_short ++ repeat_str " x" 45.

Definition one_word_prompt : string := "why".

(** The prompts of [test_scenarios.py]. *)
Definition test_prompts : list string :=
  [ "What is the capital of France?";
    "Will it rain in Chennai next Tuesday at 3pm?";
    "Explain the philosophical implications of quantum entanglement on the nature of causality and determinism in a universe governed by both quantum mechanics and general relativity.";
    "Tell me about the biography of Dr. Xylophon Marthexius, the renowned 18th century Croatian mathematician who discovered the Theorem of Hyperbolic Infinities.";
    "What will be the most important technological breakthrough in 2030?";
    "Tell me everything about artificial intelligence." ].

(** A model capability that answers every prompt with the text [t], and
    one that fails on every prompt. *)
Definition replying (t : string) : pyval -> M response :=
  fun _ => ret (Response (Ok t) None).

Definition failing (e : exn) : pyval -> M response :=
  fun _ => raise e.

Definition service_unavailable : exn := Exn "ServiceUnavailable" "503 upstream".

Definition a_request_id : string := "123e4567-e89b-42d3-a456-426614174000".

Definition initial : State :=
  {| uuids := 0; clock_reads := 0; model_calls := 0; trace := []; timeline := [] |}.

(** An environment in which the model answers [answer] and then rates
    itself with [rating], read at the clock [clock], with the given sinks;
    [round] goes down at a tie. *)
Definition make_env (answer rating : string) (clock : nat -> Q)
    (metrics_sink : MetricPayload -> result unit)
    (log_sink : HTTPLog -> result unit) : Env :=
  {| MODEL_NAME := "gemini-2.5-flash";
     ENVIRONMENT := "dev";
     uuid4 := fun _ => a_request_id;
     time_time := clock;
     generate_content := fun n _ =>
       match n with
       | O => Ok (Response (Ok answer) (Some 12%Z))
       | _ => Ok (Response (Ok rating) None)
       end;
     submit_metrics := metrics_sink;
     submit_log := log_sink;
     py_str := fun _ => Unicode.of_string "<number>";
     round_tie_up := fun _ _ => false |}.

Definition sink_up {A : Type} : A -> result unit := fun _ => Ok tt.
Definition sink_down {A : Type} : A -> result unit :=
  fun _ => Raise (Exn "ApiException" "(503) Service Unavailable").

(** One clock reading per second, starting at 1000. *)
Definition seconds : nat -> Q := fun n => inject_Z (1000 + Z.of_nat n).

Definition paris_env : Env :=
  make_env "Paris." "0.9" seconds sink_up sink_up.

(** Five readings less than a microsecond apart around a generation of
    1.004 ms. *)
Definition tight_clock : nat -> Q := fun n =>
  match n with
  | 0%nat => 0
  | 1%nat => 1 # 10000000
  | 2%nat => 10041 # 10000000
  | 3%nat => 10042 # 10000000
  | _ => 10043 # 10000000
  end.

Definition tight_env : Env :=
  make_env "Paris." "0.9" tight_clock sink_up sink_up.

Definition json_prompt (p : unicode) : result pyval :=
  Ok (PDict [("prompt", PStr p)]).

(** A prompt that is one lone surrogate, as the JSON text ["\ud800"]
    carries it. *)
Definition lone_surrogate : unicode := [0xD800%N].

End Scenario.


(** ** Further vocabulary *)

(** The keys [send_metrics_to_datadog] reads with [metrics_data[key]], in
    the order it reads them. *)
Definition required_metric_keys : list string :=
  [ "model_name"; "latency_ms"; "self_confidence"; "hallucination_risk";
    "answer_length" ].

Definition first_missing (d : dict) : option string :=
  find (fun key => match lookup key d with None => true | Some _ => false end)
       required_metric_keys.

(** A character that can start a match of the confidence pattern. *)
Definition starts_number (c : ascii) : bool :=
  (Ascii.eqb c "0" || Ascii.eqb c "1" || Ascii.eqb c ".")%bool.

Fixpoint all_chars (p : ascii -> bool) (s : string) : bool :=
  match s with
  | EmptyString => true
  | String c s' => (p c && all_chars p s')%bool
  end.

Definition keys (d : dict) : list string := map fst d.

(** Whether a telemetry dict has a key that [HTTPLogItem] is also given by
    keyword. *)
Definition clashes (d : dict) : bool :=
  existsb (fun key => existsb (String.eqb key) log_item_keywords) (keys d).

(** An environment whose model answers the first call and fails on every
    later one. *)
Definition shaky_env : Env :=
  {| MODEL_NAME := "gemini-2.5-flash";
     ENVIRONMENT := "dev";
     uuid4 := fun _ => Scenario.a_request_id;
     time_time := Scenario.seconds;
     generate_content := fun n _ =>
       match n with
       | O => Ok (Response (Ok "Paris.") None)
       | _ => Raise Scenario.service_unavailable
       end;
     submit_metrics := Scenario.sink_up;
     submit_log := Scenario.sink_up;
     py_str := fun _ => Unicode.of_string "<number>";
     round_tie_up := fun _ _ => false |}.



(** A value that can be logged: a string, or a number that the dispatcher
    turns into one. *)
Definition loggable (v : pyval) : bool := (is_number v || is_str v)%bool.

(** Why a request fails: the exception that reaches the handler's
    [except] block, and the number of clock readings the handler has taken
    when it is raised. *)
Inductive failure (env : Env) (st : State) (get_json : result pyval)
  : exn -> nat -> Prop :=
  | body_unreadable (e : exn) :
    get_json = Raise e ->
    failure env st get_json e 1
  | body_not_an_object (data : pyval) :
    get_json = Ok data ->
    (forall d, data <> PDict d) ->
    failure env st get_json (AttributeError data "get") 1
  | generation_raised (d : dict) (prompt : pyval) (e : exn) :
    get_json = Ok (PDict d) ->
    dict_get d "prompt" (PStr "") = prompt ->
    truthy prompt = true ->
    generate_content env (model_calls st) prompt = Raise e ->
    failure env st get_json e 2
  | text_unreadable (d : dict) (prompt : pyval) (reply : response) (e : exn) :
    get_json = Ok (PDict d) ->
    dict_get d "prompt" (PStr "") = prompt ->
    truthy prompt = true ->
    generate_content env (model_calls st) prompt = Ok reply ->
    text reply = Raise e ->
    failure env st get_json e 3
  | prompt_not_a_string (d : dict) (prompt : pyval) (reply : response)
    (answer : string) :
    get_json = Ok (PDict d) ->
    dict_get d "prompt" (PStr "") = prompt ->
    truthy prompt = true ->
    (forall s, prompt <> PStr s) ->
    generate_content env (model_calls st) prompt = Ok reply ->
    text reply = Ok answer ->
    failure env st get_json (AttributeError prompt "split") 3
  | prompt_not_encodable (d : dict) (prompt : unicode) (reply : response)
    (answer : string) (e : exn) :
    get_json = Ok (PDict d) ->
    dict_get d "prompt" (PStr "") = PStr prompt ->
    prompt <> [] ->
    generate_content env (model_calls st) (PStr prompt) = Ok reply ->
    text reply = Ok answer ->
    hash_prompt prompt = Raise e ->
    failure env st get_json e 3.

(** * Properties *)

(** ** Numeric helpers *)

Lemma py_min_cases (a b : Q) :
  (a <= b /\ py_min a b = a) \/ (b <= a /\ py_min a b = b).
Proof.
  unfold py_min. destruct (Qle_bool a b) eqn:E.
  - left. split; [apply Qle_bool_iff; exact E | reflexivity].
  - right. split; [| reflexivity].
    destruct (Qlt_le_dec b a) as [H|H].
    + apply Qlt_le_weak; exact H.
    + apply Qle_bool_iff in H. congruence.
Qed.

Lemma inject_Z_nonneg (z : Z) : (0 <= z)%Z -> 0 <= inject_Z z.
Proof. intros H. unfold Qle; simpl. lia. Qed.

Lemma hedging_count_nonneg (r : string) : (0 <= hedging_count r)%Z.
Proof. unfold hedging_count. apply Nat2Z.is_nonneg. Qed.

Lemma word_count_nonneg (s : string) : (0 <= word_count s)%Z.
Proof. unfold word_count. apply Nat2Z.is_nonneg. Qed.

Lemma verbosity_ratio_nonneg (r : string) (p : unicode) : 0 <= verbosity_ratio r p.
Proof.
  unfold verbosity_ratio.
  apply Qle_shift_div_l.
  - unfold Qlt; simpl. lia.
  - rewrite Qmult_0_l. apply inject_Z_nonneg, word_count_nonneg.
Qed.

Lemma verbosity_ratio_no_words (r : string) (p : unicode) :
  word_count r = 0%Z -> verbosity_ratio r p == 0.
Proof.
  intros H. unfold verbosity_ratio. rewrite H.
  unfold Qdiv. apply Qmult_0_l.
Qed.

(** ** HallucinationRiskScorer *)

(** The score written out in the three signals it is computed from. *)
Lemma risk_unfold (r : string) (p : unicode) (c : Q) :
  calculate_hallucination_risk r p c =
  py_min (0 + (1 - c) * (4 # 10)
            + py_min (inject_Z (hedging_count r) / 5) 1 * (3 # 10)
            + py_min (verbosity_ratio r p / 50) 1 * (3 # 10)) 1.
Proof. reflexivity. Qed.

(** Case split on every [py_min] in sight. *)
Ltac split_min :=
  repeat match goal with
  | |- context [py_min ?a ?b] =>
      let H := fresh "Hmin" in
      let E := fresh "Emin" in
      destruct (py_min_cases a b) as [[H E] | [H E]]; rewrite E in *; clear E
  | H0 : context [py_min ?a ?b] |- _ =>
      let H := fresh "Hmin" in
      let E := fresh "Emin" in
      destruct (py_min_cases a b) as [[H E] | [H E]]; rewrite E in *; clear E
  end.

(** Division by a literal, named so that linear arithmetic sees a product. *)
Ltac name_div x k :=
  let E := fresh "Ediv" in
  let q := fresh "q" in
  let inv := eval compute in (/ k) in
  assert (E : x / k == x * inv) by reflexivity;
  set (q := x / k) in *; clearbody q.

Ltac name_divs :=
  repeat match goal with
  | |- context [?x / ?k] => name_div x k
  | H : context [?x / ?k] |- _ => name_div x k
  end.

(** Forget where the hedging count and the verbosity ratio come from,
    keeping that they are not negative. *)
Ltac abstract_signals r p :=
  pose proof (inject_Z_nonneg _ (hedging_count_nonneg r));
  pose proof (verbosity_ratio_nonneg r p);
  let h := fresh "h" in
  let v := fresh "v" in
  set (h := inject_Z (hedging_count r)) in *; clearbody h;
  set (v := verbosity_ratio r p) in *; clearbody v.

Ltac solve_score := name_divs; split_min; lra.

Lemma at_least_five (z : Z) : (5 <= z)%Z -> 5 <= inject_Z z.
Proof. intros H. change 5 with (inject_Z 5). rewrite <- Zle_Qle. exact H. Qed.

Lemma risk_range (r : string) (p : unicode) (c : Q) :
  0 <= c <= 1 -> 0 <= calculate_hallucination_risk r p c <= 1.
Proof.
  intros Hc. rewrite risk_unfold.
  abstract_signals r p. solve_score.
Qed.

Lemma risk_at_max (r : string) (p : unicode) (c : Q) :
  c == 0 -> (5 <= hedging_count r)%Z -> 50 <= verbosity_ratio r p ->
  calculate_hallucination_risk r p c == 1.
Proof.
  intros Hc Hh Hv. rewrite risk_unfold.
  apply at_least_five in Hh.
  abstract_signals r p. solve_score.
Qed.

Lemma risk_at_min (r : string) (p : unicode) (c : Q) :
  c == 1 -> hedging_count r = 0%Z -> word_count r = 0%Z ->
  calculate_hallucination_risk r p c == 0.
Proof.
  intros Hc Hh Hw. rewrite risk_unfold.
  pose proof (verbosity_ratio_no_words r p Hw) as Hv.
  rewrite Hh. change (inject_Z 0) with 0.
  abstract_signals r p. solve_score.
Qed.

Lemma risk_low_confidence_hedged (r : string) (p : unicode) (c : Q) :
  c == 3 # 10 -> (5 <= hedging_count r)%Z ->
  calculate_hallucination_risk r p c ==
    (58 # 100) + (3 # 10) * py_min (verbosity_ratio r p / 50) 1.
Proof.
  intros Hc Hh. rewrite risk_unfold.
  apply at_least_five in Hh.
  abstract_signals r p. solve_score.
Qed.

(** C1. For every response, every prompt and every confidence in [0,1] the
    score lies in [0,1]. It is 1 when all three sub-risks are at their
    maximum (confidence 0, at least 5 hedging phrases, verbosity ratio at
    least 50), and 0 when confidence is 1, no hedging phrase matches and the
    response has no word (an empty response in particular). *)
Theorem calculate_hallucination_risk_bounds
    (response_text : string) (prompt : unicode) (confidence : Q) :
  0 <= confidence <= 1 ->
  0 <= calculate_hallucination_risk response_text prompt confidence <= 1 /\
  (confidence == 0 ->
   (5 <= hedging_count response_text)%Z ->
   50 <= verbosity_ratio response_text prompt ->
   calculate_hallucination_risk response_text prompt confidence == 1) /\
  (confidence == 1 ->
   hedging_count response_text = 0%Z ->
   word_count response_text = 0%Z ->
   calculate_hallucination_risk response_text prompt confidence == 0).
Proof.
  intros Hc. split; [| split].
  - apply risk_range; exact Hc.
  - apply risk_at_max.
  - apply risk_at_min.
Qed.

Lemma calculate_hallucination_risk_bounds_witness :
  (0 <= calculate_hallucination_risk Scenario.hedged_long Scenario.one_word_prompt 0 <= 1 /\
   calculate_hallucination_risk Scenario.hedged_long Scenario.one_word_prompt 0 == 1) /\
  calculate_hallucination_risk "" Scenario.one_word_prompt 1 == 0.
Proof.
  split.
  - destruct (calculate_hallucination_risk_bounds
                Scenario.hedged_long Scenario.one_word_prompt 0) as (Hr & Hmax & _).
    + split; apply Qle_bool_iff; vm_compute; reflexivity.
    + split; [exact Hr |].
      apply Hmax.
      * reflexivity.
      * apply Z.leb_le; vm_compute; reflexivity.
      * apply Qle_bool_iff; vm_compute; reflexivity.
  - destruct (calculate_hallucination_risk_bounds
                "" Scenario.one_word_prompt 1) as (_ & _ & Hmin).
    + split; apply Qle_bool_iff; vm_compute; reflexivity.
    + apply Hmin; reflexivity.
Defined.

(** C2. The score does not decrease when confidence decreases, when the
    number of matched hedging phrases increases, or when the verbosity ratio
    increases; with two of the three held fixed this is monotonicity in the
    third. *)
Theorem calculate_hallucination_risk_monotone
    (response1 : string) (prompt1 : unicode) (confidence1 : Q)
    (response2 : string) (prompt2 : unicode) (confidence2 : Q) :
  confidence2 <= confidence1 ->
  (hedging_count response1 <= hedging_count response2)%Z ->
  verbosity_ratio response1 prompt1 <= verbosity_ratio response2 prompt2 ->
  calculate_hallucination_risk response1 prompt1 confidence1 <=
  calculate_hallucination_risk response2 prompt2 confidence2.
Proof.
  intros Hc Hh Hv. rewrite !risk_unfold.
  rewrite Zle_Qle in Hh.
  abstract_signals response1 prompt1. abstract_signals response2 prompt2.
  solve_score.
Qed.

Lemma calculate_hallucination_risk_monotone_witness :
  calculate_hallucination_risk "Paris." Scenario.one_word_prompt (9 # 10) <=
  calculate_hallucination_risk Scenario.hedged_long Scenario.one_word_prompt (3 # 10).
Proof.
  apply calculate_hallucination_risk_monotone.
  - apply Qle_bool_iff; vm_compute; reflexivity.
  - apply Z.leb_le; vm_compute; reflexivity.
  - apply Qle_bool_iff; vm_compute; reflexivity.
Defined.

(** C6, as stated, fails: five hedging phrases and confidence 0.3 give
    0.28 + 0.30 = 0.58 before verbosity, and a five-word answer to a one-word
    prompt adds only 0.03. *)
Lemma hedged_low_confidence_not_above_threshold :
  (5 <= hedging_count Scenario.hedged_short)%Z /\
  calculate_hallucination_risk Scenario.hedged_short Scenario.one_word_prompt (3 # 10)
    == 61 # 100 /\
  ~ (7 # 10 <
     calculate_hallucination_risk Scenario.hedged_short Scenario.one_word_prompt (3 # 10)).
Proof.
  split; [| split].
  - apply Z.leb_le. vm_compute. reflexivity.
  - vm_compute. reflexivity.
  - apply Qle_not_lt. apply Qle_bool_iff. vm_compute. reflexivity.
Qed.

(** C6, amended. With at least 5 hedging phrases matched and confidence 0.3
    the score is 0.58 + 0.3 * min(verbosity_ratio / 50, 1); it is therefore at
    least 0.58, and it exceeds 0.7 exactly when the verbosity ratio exceeds
    20. *)
Theorem hedged_low_confidence_risk
    (response_text : string) (prompt : unicode) (confidence : Q) :
  confidence == 3 # 10 ->
  (5 <= hedging_count response_text)%Z ->
  calculate_hallucination_risk response_text prompt confidence ==
    (58 # 100) + (3 # 10) * py_min (verbosity_ratio response_text prompt / 50) 1 /\
  58 # 100 <= calculate_hallucination_risk response_text prompt confidence /\
  (7 # 10 < calculate_hallucination_risk response_text prompt confidence <->
   20 < verbosity_ratio response_text prompt).
Proof.
  intros Hc Hh.
  pose proof (risk_low_confidence_hedged response_text prompt confidence Hc Hh) as E.
  set (risk := calculate_hallucination_risk response_text prompt confidence) in *.
  clearbody risk.
  abstract_signals response_text prompt.
  name_divs; split_min; repeat split; intros; lra.
Qed.

Lemma hedged_low_confidence_risk_witness :
  7 # 10 < calculate_hallucination_risk
             Scenario.hedged_long Scenario.one_word_prompt (3 # 10).
Proof.
  destruct (hedged_low_confidence_risk
              Scenario.hedged_long Scenario.one_word_prompt (3 # 10))
    as (_ & _ & Hiff).
  - reflexivity.
  - apply Z.leb_le; vm_compute; reflexivity.
  - apply Hiff. vm_compute. reflexivity.
Defined.

Module Binary64Facts.

Import PrimFloat.

(** The binary64 score at the inputs used above: exactly 1.0 and 0.0 at the
    two boundaries, and below 0.7 for the hedged five-word answer. *)
#[warnings="-inexact-float"]
Lemma binary64_score_at_named_points :
  PrimFloat.eqb
    (Binary64.calculate_hallucination_risk
       Scenario.hedged_long Scenario.one_word_prompt 0%float) 1%float = true /\
  PrimFloat.eqb
    (Binary64.calculate_hallucination_risk "" Scenario.one_word_prompt 1%float)
    0%float = true /\
  PrimFloat.ltb
    (Binary64.calculate_hallucination_risk
       Scenario.hedged_short Scenario.one_word_prompt 0.3%float) 0.7%float = true.
Proof. repeat split; vm_compute; reflexivity. Qed.

End Binary64Facts.

(** ** PromptHasher *)

Lemma hex_digit_lower_hex (x : Z) : lower_hex (Sha256.hex_digit x).
Proof.
  unfold lower_hex, Sha256.hex_digit.
  apply nth_In.
  change (List.length Sha256.hex_chars) with 16%nat.
  change 15%Z with (Z.ones 4).
  rewrite Z.land_ones by lia.
  pose proof (Z.mod_pos_bound x (2 ^ 4) ltac:(lia)).
  lia.
Qed.

Lemma hex_word_chars (w : Z) :
  String.length (Sha256.hex_word w) = 8%nat /\
  Forall lower_hex (chars (Sha256.hex_word w)).
Proof.
  split; [reflexivity |].
  unfold Sha256.hex_word; cbn [chars].
  repeat (apply Forall_cons; [apply hex_digit_lower_hex |]).
  apply Forall_nil.
Qed.

(** The first 16 characters of the digest are the first two words. *)
Lemma hexdigest_words (data : list Z) :
  take 16 (Sha256.hexdigest data) =
  (Sha256.hex_word (Sha256.ra (Sha256.digest data)) ++
   Sha256.hex_word (Sha256.rb (Sha256.digest data)))%string.
Proof.
  unfold Sha256.hexdigest.
  generalize (Sha256.digest data). intros [a b c d e f g h].
  reflexivity.
Qed.

Lemma chars_app (s t : string) : chars (s ++ t) = (chars s ++ chars t)%list.
Proof. induction s; cbn; congruence. Qed.

Lemma hexdigest_format (data : list Z) :
  String.length (take 16 (Sha256.hexdigest data)) = 16%nat /\
  Forall lower_hex (chars (take 16 (Sha256.hexdigest data))).
Proof.
  rewrite hexdigest_words. split.
  - reflexivity.
  - rewrite chars_app. apply Forall_app. split; apply hex_word_chars.
Qed.

(** [encode] fails exactly on the texts that hold a surrogate. *)
Lemma encode_from_encodable (s : unicode) (position : nat) :
  encodable s = true -> exists data, encode_from position s = Ok data.
Proof.
  revert position. induction s as [| c s IH]; intros position H.
  - exists []. reflexivity.
  - cbn [encodable forallb] in H. apply andb_true_iff in H. destruct H as [Hc Hs].
    apply negb_true_iff in Hc. cbn [encode_from]. rewrite Hc.
    destruct (IH (S position) Hs) as [data Hdata]. rewrite Hdata.
    eexists. reflexivity.
Qed.

Lemma encode_from_surrogate (s : unicode) (position : nat) :
  encodable s = false ->
  exists e, encode_from position s = Raise e /\ exn_type e = "UnicodeEncodeError".
Proof.
  revert position. induction s as [| c s IH]; intros position H.
  - discriminate H.
  - cbn [encodable forallb] in H. cbn [encode_from].
    destruct (Unicode.is_surrogate c) eqn:Hc.
    + eexists. split; reflexivity.
    + cbn [negb andb] in H. destruct (IH (S position) H) as (e & He & Htype).
      rewrite He. exists e. split; [reflexivity | exact Htype].
Qed.

Lemma hash_prompt_encodable (p : unicode) :
  encodable p = true ->
  exists h, hash_prompt p = Ok h /\
            String.length h = 16%nat /\ Forall lower_hex (chars h).
Proof.
  intros H. unfold hash_prompt, encode.
  destruct (encode_from_encodable p 0 H) as [data Hdata]. rewrite Hdata.
  eexists. split; [reflexivity | apply hexdigest_format].
Qed.

Lemma hash_prompt_surrogate (p : unicode) :
  encodable p = false ->
  exists e, hash_prompt p = Raise e /\ exn_type e = "UnicodeEncodeError".
Proof.
  intros H. unfold hash_prompt, encode.
  destruct (encode_from_surrogate p 0 H) as (e & He & Htype). rewrite He.
  exists e. split; [reflexivity | exact Htype].
Qed.

(** Whatever [hash_prompt] returns is 16 lowercase hexadecimal characters. *)
Lemma hash_prompt_format (p : unicode) (h : string) :
  hash_prompt p = Ok h ->
  String.length h = 16%nat /\ Forall lower_hex (chars h).
Proof.
  unfold hash_prompt. destruct (encode p) as [data | e]; [| discriminate].
  intros [= <-]. apply hexdigest_format.
Qed.

(** The strings of the service itself hold no surrogate. *)
Lemma code_not_surrogate (c : ascii) : Unicode.is_surrogate (code c) = false.
Proof. destruct c as [[] [] [] [] [] [] [] []]; reflexivity. Qed.

Lemma of_string_encodable (s : string) : encodable (Unicode.of_string s) = true.
Proof.
  induction s as [| c s IH]; [reflexivity |].
  cbn [Unicode.of_string encodable forallb]. rewrite code_not_surrogate. exact IH.
Qed.

Lemma distinct_hashes_sound (ps : list string) :
  distinct_hashes ps = true ->
  forall p1 p2 : string, In p1 ps -> In p2 ps ->
    (hash_prompt p1 = hash_prompt p2 <-> p1 = p2).
Proof.
  intros Hall p1 p2 H1 H2.
  unfold distinct_hashes in Hall.
  set (hashed := map (fun p : string => (p, hash_prompt p)) ps) in Hall.
  assert (Hin : forall p : string, In p ps -> In (p, hash_prompt p) hashed).
  { intros p Hp. apply in_map_iff. exists p. split; [reflexivity | exact Hp]. }
  rewrite forallb_forall in Hall.
  pose proof (Hall _ (Hin p1 H1)) as Hrow.
  rewrite forallb_forall in Hrow.
  pose proof (Hrow _ (Hin p1 H1)) as H11.
  pose proof (Hrow _ (Hin p2 H2)) as H12.
  apply Bool.eqb_prop in H11, H12.
  change (same_hash (hash_prompt p1) (hash_prompt p1) = String.eqb p1 p1) in H11.
  change (same_hash (hash_prompt p1) (hash_prompt p2) = String.eqb p1 p2) in H12.
  rewrite String.eqb_refl in H11.
  split; intros E.
  - apply String.eqb_eq. rewrite <- H12, <- E. exact H11.
  - rewrite E. reflexivity.
Qed.

(** C9, as stated, fails twice. Two distinct prompts of 16 characters have
    the same hash, so equal hashes do not force equal prompts; and a prompt
    that holds a lone surrogate has no hash at all, since [encode] raises on
    it. *)
Lemma hash_prompt_collides_and_raises :
  ("7b6631a08b6de5ed" <> "e9bedaebcde8f4eb" /\
   hash_prompt "7b6631a08b6de5ed" = Ok "ad919df74a1ddb1e" /\
   hash_prompt "e9bedaebcde8f4eb" = Ok "ad919df74a1ddb1e") /\
  hash_prompt Scenario.lone_surrogate =
    Raise (Exn "UnicodeEncodeError"
             "'utf-8' codec can't encode character '\ud800' in position 0: surrogates not allowed") /\
  ~ (forall p1 p2 : unicode, hash_prompt p1 = hash_prompt p2 <-> p1 = p2) /\
  ~ (forall p : unicode, exists h, hash_prompt p = Ok h /\ String.length h = 16%nat).
Proof.
  assert (H1 : hash_prompt "7b6631a08b6de5ed" = Ok "ad919df74a1ddb1e")
    by (vm_compute; reflexivity).
  assert (H2 : hash_prompt "e9bedaebcde8f4eb" = Ok "ad919df74a1ddb1e")
    by (vm_compute; reflexivity).
  split; [| split; [| split]].
  - split; [discriminate |]. split; assumption.
  - vm_compute. reflexivity.
  - intros Hiff.
    assert (E : Unicode.of_string "7b6631a08b6de5ed" = Unicode.of_string "e9bedaebcde8f4eb").
    { apply Hiff. rewrite H1, H2. reflexivity. }
    discriminate E.
  - intros Hall. destruct (Hall Scenario.lone_surrogate) as (h & Hh & _).
    discriminate Hh.
Qed.

(** ** SelfConfidenceEstimator: what the pattern matches *)

Lemma iterate_digit (s : string) (fuel : nat) :
  (String.length s < fuel)%nat ->
  Re.iterate (Re.matcher Re.Digit) fuel s (fun rest => Some rest) =
  match s with
  | String c s' => if isdigit c then Some (drop_digits s') else None
  | EmptyString => None
  end.
Proof.
  revert fuel. induction s as [| c s IH]; intros [| fuel] Hlen; cbn in Hlen; try lia.
  - reflexivity.
  - cbn [Re.iterate Re.matcher].
    destruct (isdigit c); [| reflexivity].
    rewrite IH by lia.
    destruct s as [| c' s']; [reflexivity |].
    cbn [drop_digits]. destruct (isdigit c'); reflexivity.
Qed.

Lemma drop_digits_length (s : string) :
  (String.length (drop_digits s) <= String.length s)%nat.
Proof.
  induction s as [| c s IH]; cbn; [lia |].
  destruct (isdigit c); cbn; lia.
Qed.

Lemma take_all (s : string) : take (String.length s) s = s.
Proof. induction s; cbn; congruence. Qed.

Lemma take_digits_by_length (s : string) :
  take (String.length s - String.length (drop_digits s)) s = take_digits s.
Proof.
  induction s as [| c s IH]; [reflexivity |].
  cbn [drop_digits take_digits]. destruct (isdigit c).
  - pose proof (drop_digits_length s).
    cbn [String.length]. rewrite Nat.sub_succ_l by assumption.
    cbn [take]. rewrite IH. reflexivity.
  - rewrite Nat.sub_diag. reflexivity.
Qed.

(** [take] past a known first character. *)
Lemma take_cons (c : ascii) (s rest : string) :
  (String.length rest <= String.length s)%nat ->
  take (String.length (String c s) - String.length rest) (String c s) =
  String c (take (String.length s - String.length rest) s).
Proof.
  intros H. cbn [String.length]. rewrite Nat.sub_succ_l by assumption. reflexivity.
Qed.

Lemma take_zero (s : string) : take 0 s = EmptyString.
Proof. destruct s; reflexivity. Qed.

Lemma take_first (c : ascii) (s : string) :
  take (String.length (String c s) - String.length s) (String c s) =
  String c EmptyString.
Proof. rewrite take_cons by lia. rewrite Nat.sub_diag, take_zero. reflexivity. Qed.

Ltac char_case c lit :=
  let E := fresh "E" in
  destruct (Ascii.eqb_spec lit c) as [E | E]; [subst c |].

(** What a match of the confidence pattern at the head of a text looks like. *)
Lemma match_here_token (s m : string) :
  Re.match_here confidence_pattern s = Some m -> confidence_token m.
Proof.
  unfold Re.match_here.
  destruct (Re.matcher confidence_pattern s (fun rest => Some rest)) as [rest |] eqn:E;
    [| discriminate].
  intros [= <-].
  destruct s as [| c1 s1]; [discriminate E |].
  unfold confidence_pattern in E. cbn [Re.matcher Re.or_else] in E.
  char_case c1 "0"%char.
  - (* the text starts with 0 *)
    destruct s1 as [| c2 s2].
    + cbn in E. injection E as <-. rewrite ?take_first. apply token_zero.
    + char_case c2 "."%char.
      * rewrite iterate_digit in E by (cbn; lia).
        destruct s2 as [| d s3].
        -- cbn in E. injection E as <-. rewrite ?take_first. apply token_zero.
        -- destruct (isdigit d) eqn:Hd.
           ++ cbn in E. injection E as <-.
              pose proof (drop_digits_length s3).
              rewrite !take_cons by (cbn; lia).
              rewrite take_digits_by_length.
              apply (token_fraction true d s3 Hd).
           ++ cbn in E. injection E as <-. rewrite ?take_first. apply token_zero.
      * cbn in E. injection E as <-. rewrite ?take_first. apply token_zero.
  - char_case c1 "."%char.
    + (* the text starts with a dot *)
      cbn [Re.or_else] in E.
      rewrite iterate_digit in E by (cbn; lia).
      destruct s1 as [| d s2]; [discriminate E |].
      destruct (isdigit d) eqn:Hd; [| discriminate E].
      cbn in E. injection E as <-.
      pose proof (drop_digits_length s2).
      rewrite !take_cons by (cbn; lia).
      rewrite take_digits_by_length.
      apply (token_fraction false d s2 Hd).
    + char_case c1 "1"%char; [| discriminate E].
      (* the text starts with 1 *)
      cbn [Re.or_else] in E.
      destruct s1 as [| c2 s2].
      * injection E as <-. rewrite ?take_first. apply token_one.
      * char_case c2 "."%char.
        -- destruct s2 as [| c3 s3].
           ++ injection E as <-. rewrite ?take_first. apply token_one.
           ++ char_case c3 "0"%char.
              ** cbn in E. injection E as <-.
                 rewrite !take_cons by (cbn; lia).
                 rewrite Nat.sub_diag, take_zero.
                 apply token_one_point_zero.
              ** cbn in E. injection E as <-. rewrite ?take_first. apply token_one.
        -- cbn in E. injection E as <-. rewrite ?take_first. apply token_one.
Qed.

Lemma search_token (s m : string) :
  Re.search confidence_pattern s = Some m -> confidence_token m.
Proof.
  induction s as [| c s IH]; cbn [Re.search];
    destruct (Re.match_here confidence_pattern _) as [m' |] eqn:E.
  - intros [= <-]. eapply match_here_token; exact E.
  - discriminate.
  - intros [= <-]. eapply match_here_token; exact E.
  - exact IH.
Qed.

Lemma isdigit_value (c : ascii) :
  isdigit c = true -> (0 <= Z.of_N (code c) - 48 <= 9)%Z.
Proof.
  unfold isdigit, between. intros H.
  apply andb_true_iff in H. destruct H as [H1 H2].
  apply N.leb_le in H1. apply N.leb_le in H2. lia.
Qed.

(** A run of digits read after [acc] yields a number with [acc] in front. *)
Lemma digits_value_run (ds : string) (acc : Z) :
  exists f : Z,
    digits_value acc (take_digits ds) = Some f /\
    (acc * 10 ^ Z.of_nat (String.length (take_digits ds)) <= f
     < (acc + 1) * 10 ^ Z.of_nat (String.length (take_digits ds)))%Z.
Proof.
  revert acc. induction ds as [| c ds IH]; intros acc.
  - exists acc. cbn. split; [reflexivity | lia].
  - cbn [take_digits]. destruct (isdigit c) eqn:Hc.
    + cbn [digits_value String.length]. rewrite Hc.
      destruct (IH (10 * acc + (Z.of_N (code c) - 48))%Z) as (f & Hf & Hlo & Hhi).
      exists f. split; [exact Hf |].
      pose proof (isdigit_value c Hc).
      rewrite Nat2Z.inj_succ, Z.pow_succ_r by lia.
      set (p := (10 ^ Z.of_nat (String.length (take_digits ds)))%Z) in *.
      assert (0 < p)%Z by (apply Z.pow_pos_nonneg; lia).
      nia.
    + exists acc. cbn. split; [reflexivity | lia].
Qed.

Lemma fraction_in_unit (f d : Z) :
  (0 <= f < d)%Z -> 0 <= inject_Z 0 + inject_Z f / inject_Z d <= 1.
Proof.
  intros [Hlo Hhi].
  assert (Hd : 0 < inject_Z d) by (change 0 with (inject_Z 0); rewrite <- Zlt_Qlt; lia).
  assert (H0 : 0 <= inject_Z f / inject_Z d).
  { apply Qle_shift_div_l; [exact Hd |]. rewrite Qmult_0_l.
    change 0 with (inject_Z 0). rewrite <- Zle_Qle. exact Hlo. }
  assert (H1 : inject_Z f / inject_Z d <= 1).
  { apply Qle_shift_div_r; [exact Hd |]. rewrite Qmult_1_l.
    rewrite <- Zle_Qle. lia. }
  change (inject_Z 0) with 0.
  set (x := inject_Z f / inject_Z d) in *. clearbody x. lra.
Qed.

(** Every text the pattern can match is read by [float] as a number of
    [0,1]. *)
Lemma py_float_token (m : string) :
  confidence_token m -> exists q : Q, py_float m = Ok q /\ 0 <= q <= 1.
Proof.
  intros [ | | | lead d ds Hd].
  - eexists. split; [reflexivity |]. split; apply Qle_bool_iff; reflexivity.
  - eexists. split; [reflexivity |]. split; apply Qle_bool_iff; reflexivity.
  - eexists. split; [reflexivity |]. split; apply Qle_bool_iff; reflexivity.
  - destruct (digits_value_run ds (Z.of_N (code d) - 48)) as (f & Hf & Hlo & Hhi).
    pose proof (isdigit_value d Hd) as Hv.
    set (len := String.length (take_digits ds)) in *.
    assert (Hp : (0 < 10 ^ Z.of_nat len)%Z) by (apply Z.pow_pos_nonneg; lia).
    exists (inject_Z 0 + inject_Z f / inject_Z (10 ^ Z.of_nat (S len))).
    split.
    + unfold py_float. destruct lead; cbn; rewrite Hd; fold len;
        cbn in Hf; rewrite Hf; reflexivity.
    + apply fraction_in_unit.
      rewrite Nat2Z.inj_succ, Z.pow_succ_r by lia. nia.
Qed.

(** ** SelfConfidenceEstimator *)

(** The result of [get_self_confidence], by what the model call did. *)
Lemma get_self_confidence_cases
    (env : Env) (model_instance : pyval -> M response)
    (original_prompt : pyval) (original_response : string) (st : State) :
  fst (get_self_confidence env model_instance original_prompt original_response st) =
  match model_instance (PStr (confidence_question env original_prompt original_response)) st with
  | (Raise _, _) => Ok (1 # 2)
  | (Ok reply, _) =>
      match text reply with
      | Raise _ => Ok (1 # 2)
      | Ok t =>
          match Re.search confidence_pattern (strip t) with
          | None => Ok (1 # 2)
          | Some group =>
              match py_float group with
              | Ok q => Ok q
              | Raise _ => Ok (1 # 2)
              end
          end
      end
  end.
Proof.
  unfold get_self_confidence, try_except, bind, lift.
  destruct (model_instance _ st) as [[reply | e] st1]; [| reflexivity].
  destruct (text reply) as [t | e]; [| reflexivity].
  destruct (Re.search confidence_pattern (strip t)) as [group |]; [| reflexivity].
  destruct (py_float group); reflexivity.
Qed.

(** C3. [get_self_confidence] never propagates an error and always yields a
    number of [0,1]: the value of the first text the pattern matches in the
    stripped reply, and the neutral 0.5 when the model call raises, when the
    reply has no text, or when nothing matches. Reply "0.8" gives 0.8,
    "I'd say about 0.65 confident" gives 0.65, "very confident" gives 0.5, and
    a raising model gives 0.5. *)
Theorem get_self_confidence_best_effort
    (env : Env) (model_instance : pyval -> M response)
    (original_prompt : pyval) (original_response : string) (st : State) :
  let question := PStr (confidence_question env original_prompt original_response) in
  let estimate := fun instance =>
    fst (get_self_confidence env instance original_prompt original_response st) in
  (exists q : Q, estimate model_instance = Ok q /\ 0 <= q <= 1) /\
  (forall e, fst (model_instance question st) = Raise e ->
             estimate model_instance = Ok (1 # 2)) /\
  (forall reply e, fst (model_instance question st) = Ok reply ->
                   text reply = Raise e ->
                   estimate model_instance = Ok (1 # 2)) /\
  (forall reply t, fst (model_instance question st) = Ok reply ->
                   text reply = Ok t ->
                   Re.search confidence_pattern (strip t) = None ->
                   estimate model_instance = Ok (1 # 2)) /\
  (forall reply t group, fst (model_instance question st) = Ok reply ->
                   text reply = Ok t ->
                   Re.search confidence_pattern (strip t) = Some group ->
                   exists q : Q, py_float group = Ok q /\
                                 estimate model_instance = Ok q) /\
  estimate (Scenario.replying "0.8") = Ok (8 # 10) /\
  estimate (Scenario.replying "I'd say about 0.65 confident") = Ok (65 # 100) /\
  estimate (Scenario.replying "very confident") = Ok (1 # 2) /\
  estimate (Scenario.failing Scenario.service_unavailable) = Ok (1 # 2).
Proof.
  intros question estimate. unfold estimate.
  split; [| split; [| split; [| split; [| split; [| split; [| split; [| split]]]]]]].
  - rewrite get_self_confidence_cases. fold question.
    destruct (model_instance question st) as [[reply | e] st1];
      [| exists (1 # 2); split; [reflexivity | lra]].
    destruct (text reply) as [t | e];
      [| exists (1 # 2); split; [reflexivity | lra]].
    destruct (Re.search confidence_pattern (strip t)) as [group |] eqn:Hs;
      [| exists (1 # 2); split; [reflexivity | lra]].
    destruct (py_float_token group (search_token _ _ Hs)) as (q & Hq & Hrange).
    rewrite Hq. exists q. split; [reflexivity | exact Hrange].
  - intros e He. rewrite get_self_confidence_cases. fold question.
    destruct (model_instance question st) as [[reply | e'] st1];
      [discriminate He | reflexivity].
  - intros reply e He Ht. rewrite get_self_confidence_cases. fold question.
    destruct (model_instance question st) as [[reply' | e'] st1];
      cbn in He; [| discriminate He].
    injection He as ->. rewrite Ht. reflexivity.
  - intros reply t He Ht Hs. rewrite get_self_confidence_cases. fold question.
    destruct (model_instance question st) as [[reply' | e'] st1];
      cbn in He; [| discriminate He].
    injection He as ->. rewrite Ht, Hs. reflexivity.
  - intros reply t group He Ht Hs. rewrite get_self_confidence_cases. fold question.
    destruct (model_instance question st) as [[reply' | e'] st1];
      cbn in He; [| discriminate He].
    injection He as ->. rewrite Ht, Hs.
    destruct (py_float_token group (search_token _ _ Hs)) as (q & Hq & _).
    rewrite Hq. exists q. split; reflexivity.
  - rewrite get_self_confidence_cases. reflexivity.
  - rewrite get_self_confidence_cases. reflexivity.
  - rewrite get_self_confidence_cases. reflexivity.
  - rewrite get_self_confidence_cases. reflexivity.
Qed.

Lemma get_self_confidence_best_effort_witness :
  fst (get_self_confidence Scenario.paris_env (Scenario.replying "  .25 ")
         (PStr "What is the capital of France?") "Paris." Scenario.initial)
    = Ok (25 # 100) /\
  fst (get_self_confidence Scenario.paris_env
         (Scenario.failing Scenario.service_unavailable)
         (PStr "What is the capital of France?") "Paris." Scenario.initial)
    = Ok (1 # 2).
Proof.
  split.
  - destruct (get_self_confidence_best_effort
                Scenario.paris_env (Scenario.replying "  .25 ")
                (PStr "What is the capital of France?") "Paris." Scenario.initial)
      as (_ & _ & _ & _ & Hmatch & _).
    destruct (Hmatch (Response (Ok "  .25 ") None) "  .25 " ".25")
      as (q & Hq & Hres).
    + reflexivity.
    + reflexivity.
    + vm_compute. reflexivity.
    + rewrite Hres. rewrite <- Hq. vm_compute. reflexivity.
  - destruct (get_self_confidence_best_effort
                Scenario.paris_env (Scenario.failing Scenario.service_unavailable)
                (PStr "What is the capital of France?") "Paris." Scenario.initial)
      as (_ & Hraise & _).
    apply (Hraise Scenario.service_unavailable). reflexivity.
Defined.

(** ** Running the handler *)

Lemma app_one_assoc {A : Type} (l : list A) (x : A) (l' : list A) :
  ((l ++ [x]) ++ l')%list = (l ++ x :: l')%list.
Proof. rewrite <- app_assoc. reflexivity. Qed.

Lemma events_recorded (k : nat) (events : list event) :
  map snd (recorded k events) = events.
Proof.
  unfold recorded. rewrite map_map. cbn [snd]. apply map_id.
Qed.

Lemma recorded_app (k : nat) (l1 l2 : list event) :
  recorded k (l1 ++ l2) = (recorded k l1 ++ recorded k l2)%list.
Proof. apply map_app. Qed.

(** Unfold the monad and the primitive effects, and nothing else. *)
Ltac run :=
  cbv beta iota delta
    [bind ret lift raise try_except emit print now new_uuid model
     api_submit_metrics api_submit_log negb];
  cbn [uuids clock_reads model_calls trace timeline fst snd].

Lemma recorded_cons (k : nat) (ev : event) (l : list event) :
  recorded k (ev :: l) = (k, ev) :: recorded k l.
Proof. reflexivity. Qed.

Lemma recorded_nil (k : nat) : recorded k [] = [].
Proof. reflexivity. Qed.

(** Bring a trace or a timeline to one right-nested append. *)
Ltac flatten :=
  repeat first
    [ rewrite map_app | rewrite events_recorded | rewrite recorded_app
    | rewrite recorded_cons | rewrite recorded_nil | rewrite app_one_assoc
    | rewrite <- app_assoc | rewrite app_nil_r
    | progress cbn [map snd app] ].

Lemma get_self_confidence_run
    (env : Env) (prompt : pyval) (answer : string) (st : State) :
  get_self_confidence env (model env) prompt answer st =
  (Ok (fst (elicitation env (model_calls st) prompt answer)),
   {| uuids := uuids st; clock_reads := clock_reads st;
      model_calls := S (model_calls st);
      trace := trace st ++ snd (elicitation env (model_calls st) prompt answer);
      timeline := timeline st ++
                  recorded (clock_reads st)
                    (snd (elicitation env (model_calls st) prompt answer)) |}).
Proof.
  unfold get_self_confidence, elicitation. run.
  destruct (generate_content env (model_calls st) _) as [reply | e]; run;
    [| flatten; reflexivity].
  destruct (text reply) as [t | e]; run;
    [| flatten; reflexivity].
  destruct (Re.search confidence_pattern (strip t)) as [group |]; run;
    [| reflexivity].
  destruct (py_float group) as [q | e]; run;
    [reflexivity | flatten; reflexivity].
Qed.

Lemma send_logs_unfold (env : Env) (log_data : dict) :
  send_logs_to_datadog env log_data =
  try_except
    (bind (lift (make_HTTPLogItem (log_entry env log_data)))
          (fun item => api_submit_log env [item]))
    (fun e => print ("Error sending logs to Datadog: " ++ exn_msg e)).
Proof. reflexivity. Qed.

Lemma send_logs_run (env : Env) (log_data : dict) (st : State) :
  make_HTTPLogItem (log_entry env log_data) = Ok (log_entry env log_data) ->
  send_logs_to_datadog env log_data st =
  (Ok tt,
   {| uuids := uuids st; clock_reads := clock_reads st;
      model_calls := model_calls st;
      trace := trace st ++ log_events env [log_entry env log_data];
      timeline := timeline st ++
                  recorded (clock_reads st) (log_events env [log_entry env log_data]) |}).
Proof.
  intros Hitem. rewrite send_logs_unfold. run. rewrite Hitem.
  unfold log_events.
  destruct (submit_log env [log_entry env log_data]) as [[] | e]; run.
  - reflexivity.
  - flatten. reflexivity.
Qed.

(** When the item cannot be built nothing is submitted, and the complaint
    goes to the operational channel. *)
Lemma send_logs_refused (env : Env) (log_data : dict) (st : State) (e : exn) :
  make_HTTPLogItem (log_entry env log_data) = Raise e ->
  send_logs_to_datadog env log_data st =
  (Ok tt,
   {| uuids := uuids st; clock_reads := clock_reads st;
      model_calls := model_calls st;
      trace := trace st ++ [EvPrint ("Error sending logs to Datadog: " ++ exn_msg e)];
      timeline := timeline st ++
                  [(clock_reads st,
                    EvPrint ("Error sending logs to Datadog: " ++ exn_msg e))] |}).
Proof.
  intros Hitem. rewrite send_logs_unfold. run. rewrite Hitem. reflexivity.
Qed.

(** The dispatchers never raise, whatever the sinks do. *)
Lemma send_logs_never_raises (env : Env) (log_data : dict) (st : State) :
  fst (send_logs_to_datadog env log_data st) = Ok tt.
Proof.
  destruct (make_HTTPLogItem (log_entry env log_data)) as [item | e] eqn:Hitem.
  - rewrite send_logs_unfold. run. rewrite Hitem.
    destruct (submit_log env _) as [[] | e]; reflexivity.
  - rewrite (send_logs_refused env log_data st e Hitem). reflexivity.
Qed.

Lemma send_metrics_never_raises (env : Env) (metrics_data : dict) (st : State) :
  fst (send_metrics_to_datadog env metrics_data st) = Ok tt.
Proof.
  unfold send_metrics_to_datadog. run.
  repeat (match goal with
          | |- context [getitem ?d ?k] => destruct (getitem d k); run
          end; try reflexivity).
  destruct (build_series _ _ _) as [series | e]; run; [| reflexivity].
  destruct (submit_metrics env _) as [[] | e]; reflexivity.
Qed.

Lemma send_success_metrics_run
    (env : Env) (latency_ms confidence risk : Q) (answer_length token_count : Z)
    (st : State) :
  send_metrics_to_datadog env
    [ ("model_name", PStr (MODEL_NAME env));
      ("latency_ms", PFloat latency_ms);
      ("self_confidence", PFloat confidence);
      ("hallucination_risk", PFloat risk);
      ("answer_length", PInt answer_length);
      ("token_count", PInt token_count) ] st =
  (Ok tt,
   {| uuids := uuids st; clock_reads := S (clock_reads st);
      model_calls := model_calls st;
      trace := trace st ++
               metrics_events env
                 (success_payload env (py_int (time_time env (clock_reads st)))
                    latency_ms confidence risk answer_length token_count);
      timeline := timeline st ++
               recorded (S (clock_reads st))
                 (metrics_events env
                    (success_payload env (py_int (time_time env (clock_reads st)))
                       latency_ms confidence risk answer_length token_count)) |}).
Proof.
  unfold send_metrics_to_datadog, metrics_events. run.
  change (getitem _ "model_name") with (Ok (PStr (MODEL_NAME env))).
  change (getitem _ "latency_ms") with (Ok (PFloat latency_ms)).
  change (getitem _ "self_confidence") with (Ok (PFloat confidence)).
  change (getitem _ "hallucination_risk") with (Ok (PFloat risk)).
  change (getitem _ "answer_length") with (Ok (PInt answer_length)).
  change (dict_get _ "token_count" (PInt 0)) with (PInt token_count).
  run. cbn [build_series metric_value format]. run.
  fold (success_payload env (py_int (time_time env (clock_reads st)))
          latency_ms confidence risk answer_length token_count).
  destruct (submit_metrics env _) as [[] | e]; run.
  - reflexivity.
  - flatten. reflexivity.
Qed.

Lemma on_exception_run
    (env : Env) (request_id : string) (start_time : Q) (e : exn) (st : State) :
  on_exception env request_id start_time e st =
  (Ok (failure_response e request_id),
   {| uuids := uuids st; clock_reads := S (S (clock_reads st));
      model_calls := model_calls st;
      trace := trace st ++
               log_events env
                 [log_entry env
                    (error_data request_id e
                       ((time_time env (clock_reads st) - start_time) * 1000))] ++
               [EvSubmitMetrics
                  [error_series env (py_int (time_time env (S (clock_reads st))))]];
      timeline := timeline st ++
               recorded (S (clock_reads st))
                 (log_events env
                    [log_entry env
                       (error_data request_id e
                          ((time_time env (clock_reads st) - start_time) * 1000))]) ++
               recorded (S (S (clock_reads st)))
                 [EvSubmitMetrics
                    [error_series env (py_int (time_time env (S (clock_reads st))))]] |}).
Proof.
  unfold on_exception. run.
  rewrite send_logs_run by reflexivity. run.
  rewrite <- !app_assoc.
  destruct (submit_metrics env _) as [[] | e']; reflexivity.
Qed.

Lemma nonempty_is_truthy (prompt : unicode) :
  prompt <> [] -> truthy (PStr prompt) = true.
Proof. destruct prompt; [congruence | reflexivity]. Qed.

Section ChatPaths.

Variable env : Env.
Variable st : State.

Lemma chat_no_json (e : exn) :
  chat env (Raise e) st = failed env st e 1 0 [].
Proof.
  unfold chat. run. rewrite on_exception_run. run.
  unfold failed, after. flatten. reflexivity.
Qed.

Lemma chat_not_an_object (data : pyval) (e : exn) :
  get_method data "prompt" (PStr "") = Raise e ->
  chat env (Ok data) st = failed env st e 1 0 [].
Proof.
  intros H. unfold chat. run. rewrite H. run.
  rewrite on_exception_run. run.
  unfold failed, after. flatten. reflexivity.
Qed.

Lemma chat_rejected (d : dict) :
  truthy (dict_get d "prompt" (PStr "")) = false ->
  chat env (Ok (PDict d)) st = (Ok rejection, after st 1 0 []).
Proof.
  intros H. unfold chat. run. cbn [get_method]. run. rewrite H.
  unfold after. cbn [map]. rewrite !app_nil_r. reflexivity.
Qed.

Lemma chat_generation_failed (d : dict) (e : exn) :
  truthy (dict_get d "prompt" (PStr "")) = true ->
  generate_content env (model_calls st) (dict_get d "prompt" (PStr "")) = Raise e ->
  chat env (Ok (PDict d)) st =
  failed env st e 2 1
    (recorded (2 + clock_reads st) [EvGenerate (dict_get d "prompt" (PStr ""))]).
Proof.
  intros Ht Hg. unfold chat. run. cbn [get_method]. run. rewrite Ht. run. rewrite Hg. run.
  rewrite on_exception_run. run.
  unfold failed, after. flatten. reflexivity.
Qed.

Lemma chat_no_text (d : dict) (reply : response) (e : exn) :
  truthy (dict_get d "prompt" (PStr "")) = true ->
  generate_content env (model_calls st) (dict_get d "prompt" (PStr "")) = Ok reply ->
  text reply = Raise e ->
  chat env (Ok (PDict d)) st =
  failed env st e 3 1
    (recorded (2 + clock_reads st) [EvGenerate (dict_get d "prompt" (PStr ""))]).
Proof.
  intros Ht Hg Hx. unfold chat. run. cbn [get_method]. run.
  rewrite Ht. run. rewrite Hg. run. rewrite Hx. run.
  rewrite on_exception_run. run.
  unfold failed, after. flatten. reflexivity.
Qed.

Lemma chat_prompt_not_text (d : dict) (reply : response) (answer : string) (e : exn) :
  truthy (dict_get d "prompt" (PStr "")) = true ->
  generate_content env (model_calls st) (dict_get d "prompt" (PStr "")) = Ok reply ->
  text reply = Ok answer ->
  calculate_hallucination_risk_dyn answer (dict_get d "prompt" (PStr ""))
    (fst (elicitation env (1 + model_calls st) (dict_get d "prompt" (PStr "")) answer))
    = Raise e ->
  chat env (Ok (PDict d)) st =
  failed env st e 3 2
    (generation_and_elicitation env st (dict_get d "prompt" (PStr "")) answer).
Proof.
  intros Ht Hg Hx Hr. unfold chat. run. cbn [get_method]. run.
  rewrite Ht. run. rewrite Hg. run. rewrite Hx. run.
  rewrite get_self_confidence_run. run.
  change (S (model_calls st)) with (1 + model_calls st)%nat.
  rewrite Hr. run.
  rewrite on_exception_run. run.
  unfold failed, after, generation_and_elicitation. flatten. reflexivity.
Qed.

Lemma chat_prompt_not_encodable
    (d : dict) (prompt : unicode) (reply : response) (answer : string) (e : exn) :
  dict_get d "prompt" (PStr "") = PStr prompt ->
  prompt <> [] ->
  generate_content env (model_calls st) (PStr prompt) = Ok reply ->
  text reply = Ok answer ->
  hash_prompt prompt = Raise e ->
  chat env (Ok (PDict d)) st =
  failed env st e 3 2 (generation_and_elicitation env st (PStr prompt) answer).
Proof.
  intros Hp Hne Hg Hx Hh. unfold chat. run. cbn [get_method]. run.
  rewrite Hp, (nonempty_is_truthy prompt Hne). run.
  rewrite Hg. run. rewrite Hx. run.
  rewrite get_self_confidence_run. run.
  cbn [calculate_hallucination_risk_dyn hash_prompt_dyn]. run.
  rewrite Hh. run.
  rewrite on_exception_run. run.
  unfold failed, after, generation_and_elicitation. flatten. reflexivity.
Qed.

Lemma chat_succeeded
    (d : dict) (prompt : unicode) (reply : response) (answer prompt_hash : string) :
  dict_get d "prompt" (PStr "") = PStr prompt ->
  prompt <> [] ->
  generate_content env (model_calls st) (PStr prompt) = Ok reply ->
  text reply = Ok answer ->
  hash_prompt prompt = Ok prompt_hash ->
  chat env (Ok (PDict d)) st = succeeded env st prompt reply answer prompt_hash.
Proof.
  intros Hp Hne Hg Hx Hh. unfold chat. run. cbn [get_method]. run.
  rewrite Hp, (nonempty_is_truthy prompt Hne). run.
  rewrite Hg. run. rewrite Hx. run.
  rewrite get_self_confidence_run. run.
  cbn [calculate_hallucination_risk_dyn hash_prompt_dyn]. run.
  rewrite Hh. run.
  rewrite send_success_metrics_run. run.
  rewrite send_logs_run by reflexivity. run.
  unfold succeeded, after, generation_and_elicitation. flatten. reflexivity.
Qed.

(** Every request goes one of the eight ways. *)
Lemma chat_follows_path (get_json : result pyval) :
  chat_path env get_json st (chat env get_json st).
Proof.
  destruct get_json as [data | e].
  2: { rewrite chat_no_json. apply path_no_json. reflexivity. }
  destruct (get_method data "prompt" (PStr "")) as [prompt | e] eqn:Hget.
  2: { rewrite (chat_not_an_object data e Hget).
       eapply path_not_an_object; [reflexivity | exact Hget]. }
  destruct data as [| | | | | | d]; try discriminate Hget.
  assert (Hp : dict_get d "prompt" (PStr "") = prompt)
    by (cbn [get_method] in Hget; injection Hget as E; exact E).
  clear Hget. rename Hp into Hget.
  destruct (truthy prompt) eqn:Ht.
  2: { rewrite chat_rejected by (rewrite Hget; exact Ht).
       eapply path_rejected; [reflexivity | rewrite Hget; exact Ht]. }
  destruct (generate_content env (model_calls st) prompt) as [reply | e] eqn:Hg.
  2: { rewrite (chat_generation_failed d e) by (rewrite Hget; assumption).
       rewrite Hget. eapply path_generation_failed; eauto. }
  destruct (text reply) as [answer | e] eqn:Hx.
  2: { rewrite (chat_no_text d reply e) by (rewrite ?Hget; assumption).
       rewrite Hget. eapply path_no_text; eauto. }
  destruct (calculate_hallucination_risk_dyn answer prompt
              (fst (elicitation env (1 + model_calls st) prompt answer)))
    as [risk | e] eqn:Hr.
  2: { rewrite (chat_prompt_not_text d reply answer e) by (rewrite ?Hget; assumption).
       rewrite Hget. eapply path_prompt_not_text; eauto. }
  destruct prompt as [| | | | p | |]; try discriminate Hr.
  assert (Hne : p <> []) by (intros ->; discriminate Ht).
  destruct (hash_prompt p) as [prompt_hash | e] eqn:Hh.
  - rewrite (chat_succeeded d p reply answer prompt_hash Hget Hne Hg Hx Hh).
    eapply path_succeeded; eauto.
  - rewrite (chat_prompt_not_encodable d p reply answer e Hget Hne Hg Hx Hh).
    eapply path_prompt_not_encodable; eauto.
Qed.

End ChatPaths.

(** ** RequestOrchestrator: rejection of an empty prompt *)

Lemma new_events_after (st : State) (reads calls : nat) (log : list (nat * event)) :
  new_events st (after st reads calls log) = map snd log.
Proof.
  unfold new_events, after; cbn [trace].
  rewrite skipn_app, skipn_all, Nat.sub_diag. reflexivity.
Qed.

Lemma new_timeline_after (st : State) (reads calls : nat) (log : list (nat * event)) :
  new_timeline st (after st reads calls log) = log.
Proof.
  unfold new_timeline, after; cbn [timeline].
  rewrite skipn_app, skipn_all, Nat.sub_diag. reflexivity.
Qed.

(** C4. A request whose JSON object has no prompt, or an empty one, is
    answered at once with status 400 and the body
    [{"error": "prompt is required"}]; the model is not called and nothing
    is sent to the metrics or log sinks (the trace is left as it was). *)
Theorem empty_prompt_rejected (env : Env) (st : State) (d : dict) :
  lookup "prompt" d = None \/ lookup "prompt" d = Some (PStr "") ->
  fst (chat env (Ok (PDict d)) st) =
    Ok (PDict [("error", PStr "prompt is required")], 400%Z) /\
  model_calls (snd (chat env (Ok (PDict d)) st)) = model_calls st /\
  trace (snd (chat env (Ok (PDict d)) st)) = trace st /\
  model_prompts (new_events st (snd (chat env (Ok (PDict d)) st))) = [] /\
  submitted_series (new_events st (snd (chat env (Ok (PDict d)) st))) = [] /\
  submitted_logs (new_events st (snd (chat env (Ok (PDict d)) st))) = [].
Proof.
  intros H.
  assert (Hfalsy : truthy (dict_get d "prompt" (PStr "")) = false).
  { unfold dict_get. destruct H as [-> | ->]; reflexivity. }
  rewrite (chat_rejected env st d Hfalsy).
  cbn [fst snd]. rewrite new_events_after.
  unfold after; cbn [model_calls trace map]. rewrite app_nil_r.
  repeat split.
Qed.

Lemma empty_prompt_rejected_witness :
  chat Scenario.paris_env (Scenario.json_prompt "") Scenario.initial =
    (Ok (PDict [("error", PStr "prompt is required")], 400%Z),
     {| uuids := 1; clock_reads := 1; model_calls := 0; trace := [];
        timeline := [] |}) /\
  fst (chat Scenario.paris_env (Ok (PDict [])) Scenario.initial) =
    Ok (PDict [("error", PStr "prompt is required")], 400%Z).
Proof.
  split.
  - vm_compute. reflexivity.
  - apply (empty_prompt_rejected Scenario.paris_env Scenario.initial []).
    left. reflexivity.
Defined.

(** ** RequestOrchestrator: a body that is not a JSON object *)

(** C10. When [request.get_json()] raises, or returns something that is
    not a JSON object (so that [data.get] raises), the handler answers with
    status 500 and the envelope [{error, request_id}] carrying the request id
    drawn before the body was read, sends the error log entry and the error
    counter, and calls the model not at all. *)
Theorem malformed_body_is_server_error
    (env : Env) (st : State) (get_json : result pyval) :
  (exists e, get_json = Raise e) \/
  (exists data, get_json = Ok data /\ forall d, data <> PDict d) ->
  let request_id := uuid4 env (uuids st) in
  let out := chat env get_json st in
  exists e : exn,
    (get_json = Raise e \/
     exists data, get_json = Ok data /\ e = AttributeError data "get") /\
    fst out =
      Ok (PDict [("error", PStr (exn_msg e)); ("request_id", PStr request_id)], 500%Z) /\
    new_events st (snd out) =
      (log_events env
         [log_entry env
            (error_data request_id e
               ((time_time env (1 + clock_reads st) - time_time env (clock_reads st))
                * 1000))] ++
       [EvSubmitMetrics
          [error_series env (py_int (time_time env (2 + clock_reads st)))]])%list /\
    uuids (snd out) = S (uuids st) /\
    model_calls (snd out) = model_calls st.
Proof.
  intros H request_id out. subst request_id out.
  destruct H as [[e ->] | (data & -> & Hdata)].
  - exists e. rewrite chat_no_json. unfold failed.
    cbn [fst snd]. rewrite new_events_after. flatten.
    split; [left; reflexivity |]. repeat split.
  - assert (Hget : get_method data "prompt" (PStr "") = Raise (AttributeError data "get")).
    { destruct data; try reflexivity. exfalso. eapply Hdata. reflexivity. }
    exists (AttributeError data "get").
    rewrite (chat_not_an_object env st data _ Hget). unfold failed.
    cbn [fst snd]. rewrite new_events_after. flatten.
    split; [right; exists data; split; reflexivity |]. repeat split.
Qed.

Lemma malformed_body_is_server_error_witness :
  fst (chat Scenario.paris_env (Ok PNone) Scenario.initial) =
    Ok (PDict [("error", PStr "'NoneType' object has no attribute 'get'");
               ("request_id", PStr Scenario.a_request_id)], 500%Z).
Proof.
  destruct (malformed_body_is_server_error
              Scenario.paris_env Scenario.initial (Ok PNone))
    as (e & [Habs | (data & Hdata & He)] & Hres & _).
  - right. exists PNone. split; [reflexivity | discriminate].
  - discriminate Habs.
  - injection Hdata as <-. rewrite Hres, He. reflexivity.
Defined.

(** ** TelemetryRecordBuilder: the sinks cannot be seen by the caller *)

(** Case analysis on the way a request goes. *)
Ltac by_path env st get_json :=
  destruct (chat_follows_path env st get_json)
    as [d Hj Ht | e Hj | data e Hj Hget | d prompt e Hj Hp Ht Hg
        | d prompt reply e Hj Hp Ht Hg Hx
        | d prompt reply answer e Hj Hp Ht Hg Hx Hr
        | d prompt reply answer e Hj Hp Hne Hg Hx Hh
        | d prompt reply answer prompt_hash Hj Hp Hne Hg Hx Hh].

(** The response of a request does not depend on the sinks. *)
Lemma chat_response_without_sinks
    (env : Env)
    (metrics_sink : MetricPayload -> result unit)
    (log_sink : HTTPLog -> result unit)
    (get_json : result pyval) (st : State) :
  fst (chat (with_sinks env metrics_sink log_sink) get_json st) =
  fst (chat env get_json st).
Proof.
  set (env' := with_sinks env metrics_sink log_sink).
  by_path env st get_json; subst get_json.
  - rewrite (chat_rejected env' st d Ht). reflexivity.
  - rewrite (chat_no_json env' st e). reflexivity.
  - rewrite (chat_not_an_object env' st data e Hget). reflexivity.
  - subst prompt. rewrite (chat_generation_failed env' st d e Ht Hg). reflexivity.
  - subst prompt. rewrite (chat_no_text env' st d reply e Ht Hg Hx). reflexivity.
  - subst prompt.
    rewrite (chat_prompt_not_text env' st d reply answer e Ht Hg Hx Hr). reflexivity.
  - rewrite (chat_prompt_not_encodable env' st d prompt reply answer e Hp Hne Hg Hx Hh).
    reflexivity.
  - rewrite (chat_succeeded env' st d prompt reply answer prompt_hash Hp Hne Hg Hx Hh).
    reflexivity.
Qed.

(** C7. The body and the status code returned to the caller are the same
    whatever the metrics sink and the log sink do, succeed or raise; and the
    two dispatch functions themselves never raise. *)
Theorem sink_failure_is_invisible
    (env : Env)
    (metrics_sink1 metrics_sink2 : MetricPayload -> result unit)
    (log_sink1 log_sink2 : HTTPLog -> result unit)
    (get_json : result pyval) (st : State) :
  fst (chat (with_sinks env metrics_sink1 log_sink1) get_json st) =
  fst (chat (with_sinks env metrics_sink2 log_sink2) get_json st) /\
  (exists body status,
      fst (chat (with_sinks env metrics_sink1 log_sink1) get_json st) =
      Ok (body, status)) /\
  (forall (data : dict) (st' : State),
      fst (send_metrics_to_datadog (with_sinks env metrics_sink1 log_sink1) data st')
      = Ok tt /\
      fst (send_logs_to_datadog (with_sinks env metrics_sink1 log_sink1) data st')
      = Ok tt).
Proof.
  split; [| split].
  - rewrite !chat_response_without_sinks. reflexivity.
  - destruct (chat_follows_path (with_sinks env metrics_sink1 log_sink1) st get_json);
      eexists; eexists; reflexivity.
  - intros data st'. split.
    + apply send_metrics_never_raises.
    + apply send_logs_never_raises.
Qed.

Lemma sink_failure_is_invisible_witness :
  fst (chat (with_sinks Scenario.paris_env Scenario.sink_up Scenario.sink_up)
         (Scenario.json_prompt "What is the capital of France?") Scenario.initial) =
  fst (chat (with_sinks Scenario.paris_env Scenario.sink_down Scenario.sink_down)
         (Scenario.json_prompt "What is the capital of France?") Scenario.initial).
Proof.
  apply (sink_failure_is_invisible Scenario.paris_env).
Defined.

(** ** What a request leaves in the trace *)

Lemma submitted_logs_app (l1 l2 : list event) :
  submitted_logs (l1 ++ l2) = (submitted_logs l1 ++ submitted_logs l2)%list.
Proof. apply flat_map_app. Qed.

Lemma submitted_series_app (l1 l2 : list event) :
  submitted_series (l1 ++ l2) = (submitted_series l1 ++ submitted_series l2)%list.
Proof. apply flat_map_app. Qed.

Lemma log_events_observed (env : Env) (body : HTTPLog) :
  submitted_logs (log_events env body) = body /\
  submitted_series (log_events env body) = [].
Proof.
  unfold log_events. destruct (submit_log env body); cbn; rewrite ?app_nil_r; auto.
Qed.

Lemma metrics_events_observed (env : Env) (payload : MetricPayload) :
  submitted_logs (metrics_events env payload) = [] /\
  submitted_series (metrics_events env payload) = payload.
Proof.
  unfold metrics_events. destruct (submit_metrics env payload); cbn; rewrite ?app_nil_r; auto.
Qed.

(** The elicitation talks to the model and to the console only. *)
Lemma elicitation_quiet (env : Env) (calls : nat) (prompt : pyval) (answer : string) :
  submitted_logs (snd (elicitation env calls prompt answer)) = [] /\
  submitted_series (snd (elicitation env calls prompt answer)) = [].
Proof.
  unfold elicitation.
  destruct (generate_content env calls _) as [reply | e]; [| split; reflexivity].
  destruct (text reply) as [t | e]; [| split; reflexivity].
  destruct (Re.search confidence_pattern (strip t)) as [group |]; [| split; reflexivity].
  destruct (py_float group); split; reflexivity.
Qed.

(** The elicited confidence is a number of [0,1], so the risk computed from
    it by a request that goes through is one too. *)
Lemma elicitation_in_unit (env : Env) (calls : nat) (prompt : pyval) (answer : string) :
  0 <= fst (elicitation env calls prompt answer) <= 1.
Proof.
  unfold elicitation.
  destruct (generate_content env calls _) as [reply | e]; [| cbn; lra].
  destruct (text reply) as [t | e]; [| cbn; lra].
  destruct (Re.search confidence_pattern (strip t)) as [group |] eqn:Hs; [| cbn; lra].
  destruct (py_float_token group (search_token _ _ Hs)) as (q & Hq & Hrange).
  rewrite Hq. exact Hrange.
Qed.

Lemma reported_risk_in_unit
    (env : Env) (calls : nat) (prompt : unicode) (answer : string) :
  0 <= calculate_hallucination_risk answer prompt
         (fst (elicitation env calls (PStr prompt) answer)) <= 1.
Proof. apply risk_range. apply elicitation_in_unit. Qed.

Lemma failed_observed
    (env : Env) (st : State) (e : exn) (reads calls : nat)
    (before : list (nat * event)) :
  quiet (map snd before) ->
  let out := failed env st e reads calls before in
  let request_id := uuid4 env (uuids st) in
  fst out = Ok (failure_response e request_id) /\
  uuids (snd out) = S (uuids st) /\
  submitted_logs (new_events st (snd out)) =
    [log_entry env
       (error_data request_id e
          ((time_time env (reads + clock_reads st) - time_time env (clock_reads st))
           * 1000))] /\
  submitted_series (new_events st (snd out)) =
    [error_series env (py_int (time_time env (1 + reads + clock_reads st)))].
Proof.
  intros [Hl Hs]. unfold failed. cbn [fst snd]. rewrite new_events_after.
  rewrite !map_app, !events_recorded.
  rewrite !submitted_logs_app, !submitted_series_app, Hl, Hs.
  rewrite (proj1 (log_events_observed env _)), (proj2 (log_events_observed env _)).
  repeat split.
Qed.

Lemma quiet_nothing : quiet (map snd (@nil (nat * event))).
Proof. split; reflexivity. Qed.

Lemma quiet_generation (k : nat) (p : pyval) :
  quiet (map snd (recorded k [EvGenerate p])).
Proof. split; reflexivity. Qed.

Lemma generation_and_elicitation_quiet
    (env : Env) (st : State) (prompt : pyval) (answer : string) :
  quiet (map snd (generation_and_elicitation env st prompt answer)).
Proof.
  unfold generation_and_elicitation. rewrite map_app, !events_recorded.
  destruct (elicitation_quiet env (1 + model_calls st) prompt answer) as [Hl Hs].
  split; cbn; assumption.
Qed.

Lemma succeeded_observed
    (env : Env) (st : State) (prompt : unicode) (reply : response)
    (answer prompt_hash : string) :
  let out := succeeded env st prompt reply answer prompt_hash in
  let request_id := uuid4 env (uuids st) in
  let clock := fun n => time_time env (n + clock_reads st)%nat in
  let confidence := fst (elicitation env (1 + model_calls st) (PStr prompt) answer) in
  let risk := calculate_hallucination_risk answer prompt confidence in
  let latency_ms := (clock 2%nat - clock 1%nat) * 1000 in
  fst out =
    Ok (success_response env request_id answer
          ((clock 4%nat - clock 0%nat) * 1000) confidence risk) /\
  uuids (snd out) = S (uuids st) /\
  submitted_logs (new_events st (snd out)) =
    [log_entry env
       (success_log_data env request_id prompt_hash latency_ms confidence risk
          (word_count answer))] /\
  submitted_series (new_events st (snd out)) =
    success_payload env (py_int (clock 3%nat)) latency_ms confidence risk
      (word_count answer)
      (match usage_metadata reply with Some n => n | None => 0%Z end).
Proof.
  unfold succeeded. cbn [fst snd]. rewrite new_events_after.
  rewrite !map_app, !events_recorded.
  rewrite !submitted_logs_app, !submitted_series_app.
  rewrite (proj1 (generation_and_elicitation_quiet env st _ _)),
          (proj2 (generation_and_elicitation_quiet env st _ _)).
  rewrite (proj1 (log_events_observed env _)), (proj2 (log_events_observed env _)).
  rewrite (proj1 (metrics_events_observed env _)), (proj2 (metrics_events_observed env _)).
  cbn [app]. rewrite app_nil_r.
  repeat split.
Qed.

Lemma model_prompts_app (l1 l2 : list event) :
  model_prompts (l1 ++ l2) = (model_prompts l1 ++ model_prompts l2)%list.
Proof. apply flat_map_app. Qed.

Lemma log_events_no_prompt (env : Env) (body : HTTPLog) :
  model_prompts (log_events env body) = [].
Proof. unfold log_events. destruct (submit_log env body); reflexivity. Qed.

Lemma metrics_events_no_prompt (env : Env) (payload : MetricPayload) :
  model_prompts (metrics_events env payload) = [].
Proof. unfold metrics_events. destruct (submit_metrics env payload); reflexivity. Qed.

Lemma elicitation_asks_once (env : Env) (calls : nat) (prompt : pyval) (answer : string) :
  model_prompts (snd (elicitation env calls prompt answer)) =
  [PStr (confidence_question env prompt answer)].
Proof.
  unfold elicitation.
  destruct (generate_content env calls _) as [reply | e]; [| reflexivity].
  destruct (text reply) as [t | e]; [| reflexivity].
  destruct (Re.search confidence_pattern (strip t)) as [group |]; [| reflexivity].
  destruct (py_float group); reflexivity.
Qed.

(** ** RequestOrchestrator: the request id *)

Lemma success_payload_anonymous
    (env : Env) (timestamp : Z) (latency_ms confidence risk : Q)
    (answer_length token_count : Z) (s : MetricSeries) :
  In s (success_payload env timestamp latency_ms confidence risk
          answer_length token_count) ->
  anonymous_series env s.
Proof.
  unfold success_payload. cbn [map In].
  intros H.
  repeat (destruct H as [<- | H];
          [unfold anonymous_series, success_series; cbn [metric tags resources points fst snd];
           repeat split;
           [ cbn; tauto | apply incl_refl | apply incl_refl
           | repeat constructor ] |]).
  destruct H.
Qed.

Lemma error_series_anonymous (env : Env) (timestamp : Z) :
  anonymous_series env (error_series env timestamp).
Proof.
  unfold anonymous_series, error_series; cbn [metric tags resources points].
  repeat split.
  - cbn. tauto.
  - intros t Ht. cbn in Ht |- *. tauto.
  - intros r [].
  - repeat constructor.
Qed.

(** C5, as stated, fails on the metric series: a successful request returns
    its request id to the caller, yet no series it submits mentions that id
    anywhere. *)
Lemma metric_series_lack_request_id :
  let out := chat Scenario.paris_env
               (Scenario.json_prompt "What is the capital of France?")
               Scenario.initial in
  let series := submitted_series (new_events Scenario.initial (snd out)) in
  (exists body, fst out = Ok (body, 200%Z) /\
                field "request_id" body = Some (PStr Scenario.a_request_id)) /\
  List.length series = 5%nat /\
  existsb (mentions Scenario.a_request_id) series = false.
Proof.
  cbv zeta. split; [| split].
  - eexists. split; vm_compute; reflexivity.
  - vm_compute. reflexivity.
  - vm_compute. reflexivity.
Qed.

(** C5, amended. Every handled request draws exactly one request id. When
    the request is answered with the success envelope or the error envelope
    (any status but the 400 rejection), that id is the [request_id] of the
    envelope, exactly one log entry is submitted, and the entry carries the
    same id, as its [request_id] attribute and in its message. The metric
    series carry no request id: they are identified by metric name, service,
    model name and environment only. *)
Theorem request_id_correlation
    (env : Env) (st : State) (get_json : result pyval) :
  let request_id := uuid4 env (uuids st) in
  let out := chat env get_json st in
  let events := new_events st (snd out) in
  uuids (snd out) = S (uuids st) /\
  (exists body status, fst out = Ok (body, status)) /\
  (forall body status,
      fst out = Ok (body, status) -> status <> 400%Z ->
      field "request_id" body = Some (PStr request_id) /\
      exists entry,
        submitted_logs events = [entry] /\
        lookup "request_id" (additional entry) = Some (PStr request_id) /\
        message entry = "LLM request completed: request_id=" ++ request_id) /\
  (forall s, In s (submitted_series events) -> anonymous_series env s).
Proof.
  intros request_id out events. subst request_id out events.
  assert (Hfailed : forall e reads calls before,
             quiet (map snd before) ->
             let out := failed env st e reads calls before in
             let events := new_events st (snd out) in
             uuids (snd out) = S (uuids st) /\
             (exists body status, fst out = Ok (body, status)) /\
             (forall body status,
                 fst out = Ok (body, status) -> status <> 400%Z ->
                 field "request_id" body = Some (PStr (uuid4 env (uuids st))) /\
                 exists entry,
                   submitted_logs events = [entry] /\
                   lookup "request_id" (additional entry)
                     = Some (PStr (uuid4 env (uuids st))) /\
                   message entry =
                     "LLM request completed: request_id=" ++ uuid4 env (uuids st)) /\
             (forall s, In s (submitted_series events) -> anonymous_series env s)).
  { intros e reads calls before Hq.
    destruct (failed_observed env st e reads calls before Hq) as (Hres & Hu & Hl & Hs).
    cbv zeta. split; [exact Hu |]. split; [| split].
    - eexists; eexists; exact Hres.
    - intros body status H _. rewrite Hres in H. injection H as <- <-.
      split; [reflexivity |].
      rewrite Hl. eexists. split; [reflexivity |]. split; reflexivity.
    - intros s Hin. rewrite Hs in Hin. destruct Hin as [<- | []].
      apply error_series_anonymous. }
  by_path env st get_json;
    try (apply Hfailed;
         first [ apply quiet_nothing | apply quiet_generation
               | apply generation_and_elicitation_quiet ]).
  - (* rejected *)
    cbn [fst snd]. rewrite new_events_after.
    split; [reflexivity |]. split; [| split].
    + eexists; eexists; reflexivity.
    + intros body status H Hstatus. injection H as <- <-. congruence.
    + intros s [].
  - (* succeeded *)
    destruct (succeeded_observed env st prompt reply answer prompt_hash)
      as (Hres & Hu & Hl & Hs).
    split; [exact Hu |]. split; [| split].
    + eexists; eexists; exact Hres.
    + intros body status H _. rewrite Hres in H. injection H as <- <-.
      split; [reflexivity |].
      rewrite Hl. eexists. split; [reflexivity |]. split; reflexivity.
    + intros s Hin. rewrite Hs in Hin.
      eapply success_payload_anonymous; exact Hin.
Qed.

Lemma request_id_correlation_witness :
  field "request_id"
    (PDict [("error", PStr "'NoneType' object has no attribute 'get'");
            ("request_id", PStr Scenario.a_request_id)])
  = Some (PStr Scenario.a_request_id) /\
  exists entry,
    submitted_logs
      (new_events Scenario.initial
         (snd (chat Scenario.paris_env (Ok PNone) Scenario.initial))) = [entry] /\
    lookup "request_id" (additional entry) = Some (PStr Scenario.a_request_id).
Proof.
  destruct (request_id_correlation Scenario.paris_env Scenario.initial (Ok PNone))
    as (_ & _ & Hid & _).
  destruct (Hid (PDict [("error", PStr "'NoneType' object has no attribute 'get'");
                        ("request_id", PStr Scenario.a_request_id)]) 500%Z)
    as (Hfield & entry & Hlogs & Hrid & _).
  - vm_compute. reflexivity.
  - discriminate.
  - split; [exact Hfield |]. exists entry. split; [exact Hlogs | exact Hrid].
Defined.

(** ** RequestOrchestrator: the two latencies *)

Lemma round_nearest_near (up : bool) (y : Q) :
  y - (1 # 2) <= inject_Z (round_nearest up y) <= y + (1 # 2).
Proof.
  unfold round_nearest.
  pose proof (Qfloor_le y) as Hlo.
  pose proof (Qlt_floor y) as Hhi.
  rewrite inject_Z_plus in Hhi. change (inject_Z 1) with 1 in Hhi.
  destruct (Qcompare (y - inject_Z (Qfloor y)) (1 # 2)) eqn:Hc.
  - apply Qeq_alt in Hc.
    destruct up.
    + rewrite inject_Z_plus. change (inject_Z 1) with 1. lra.
    + lra.
  - apply Qlt_alt in Hc. lra.
  - apply Qgt_alt in Hc. rewrite inject_Z_plus. change (inject_Z 1) with 1. lra.
Qed.

(** Rounding to two decimals moves a number by at most half a hundredth,
    whichever way a tie goes. *)
Lemma py_round_2_near (env : Env) (x : Q) :
  x - (1 # 200) <= py_round env x 2 <= x + (1 # 200).
Proof.
  unfold py_round.
  change (inject_Z (10 ^ Z.of_nat 2)) with (inject_Z 100).
  pose proof (round_nearest_near (round_tie_up env x 2) (x * inject_Z 100)) as H.
  set (r := inject_Z (round_nearest (round_tie_up env x 2) (x * inject_Z 100))) in *.
  clearbody r.
  change (inject_Z 100) with 100 in *.
  name_div r 100. lra.
Qed.

Lemma non_decreasing_by_steps (clock : nat -> Q) :
  (forall i, clock i <= clock (S i)) -> non_decreasing clock.
Proof.
  intros Hstep i j Hij. induction Hij as [| j Hij IH].
  - apply Qle_refl.
  - eapply Qle_trans; [exact IH | apply Hstep].
Qed.

Lemma tight_clock_non_decreasing : non_decreasing Scenario.tight_clock.
Proof.
  apply non_decreasing_by_steps. intros i.
  do 4 (destruct i as [| i]; [apply Qle_bool_iff; reflexivity |]).
  apply Qle_refl.
Qed.

Lemma seconds_non_decreasing : non_decreasing Scenario.seconds.
Proof.
  intros i j Hij. unfold Scenario.seconds. rewrite <- Zle_Qle. lia.
Qed.

(** Which clock readings enclose which events. *)
Lemma events_between_app (i j : nat) (l1 l2 : list (nat * event)) :
  events_between i j (l1 ++ l2) = (events_between i j l1 ++ events_between i j l2)%list.
Proof. unfold events_between. rewrite filter_app, map_app. reflexivity. Qed.

Lemma events_between_inside (i j k : nat) (events : list event) :
  (i < k <= j)%nat -> events_between i j (recorded k events) = events.
Proof.
  intros [Hlo Hhi]. unfold events_between, recorded.
  induction events as [| ev events IH]; [reflexivity |].
  cbn [map filter fst].
  apply Nat.ltb_lt in Hlo. apply Nat.leb_le in Hhi. rewrite Hlo, Hhi.
  cbn [andb map snd]. rewrite IH. reflexivity.
Qed.

Lemma events_between_outside (i j k : nat) (events : list event) :
  (k <= i \/ j < k)%nat -> events_between i j (recorded k events) = [].
Proof.
  intros H. unfold events_between, recorded.
  induction events as [| ev events IH]; [reflexivity |].
  cbn [map filter fst].
  assert (E : ((i <? k)%nat && (k <=? j)%nat)%bool = false).
  { apply andb_false_iff. destruct H as [H | H].
    - left. apply Nat.ltb_ge. exact H.
    - right. apply Nat.leb_gt. exact H. }
  rewrite E. exact IH.
Qed.

(** The timeline of a request that goes through, reading by reading. *)
Lemma succeeded_timeline
    (env : Env) (st : State) (prompt : unicode) (reply : response)
    (answer prompt_hash : string) :
  let out := snd (succeeded env st prompt reply answer prompt_hash) in
  let first := clock_reads st in
  let log := new_timeline st out in
  let events := new_events st out in
  let elicited := snd (elicitation env (1 + model_calls st) (PStr prompt) answer) in
  clock_reads out = (5 + first)%nat /\
  map snd log = events /\
  events_between first (4 + first) log = events /\
  events_between first (1 + first) log = [] /\
  events_between (1 + first) (2 + first) log = [EvGenerate (PStr prompt)] /\
  exists dispatched,
    events_between (2 + first) (4 + first) log = (elicited ++ dispatched)%list /\
    events = (EvGenerate (PStr prompt) :: elicited ++ dispatched)%list /\
    model_prompts dispatched = [] /\
    submitted_series dispatched = submitted_series events /\
    submitted_logs dispatched = submitted_logs events.
Proof.
  cbv zeta. unfold succeeded. cbn [snd].
  rewrite new_timeline_after, new_events_after.
  unfold generation_and_elicitation.
  split; [reflexivity |]. split; [reflexivity |].
  rewrite !recorded_app, !map_app, !events_recorded, !events_between_app.
  repeat first
    [ rewrite events_between_inside by lia
    | rewrite events_between_outside by lia ].
  cbn [app]. rewrite ?app_nil_r.
  split; [reflexivity |]. split; [reflexivity |]. split; [reflexivity |].
  eexists. split; [reflexivity |]. split; [reflexivity |].
  destruct (elicitation_quiet env (1 + model_calls st) (PStr prompt) answer) as [Hl Hs].
  split; [| split].
  - rewrite model_prompts_app, metrics_events_no_prompt, log_events_no_prompt.
    reflexivity.
  - cbn [submitted_series flat_map app].
    change (flat_map _ ?l) with (submitted_series l).
    rewrite (submitted_series_app (snd _)), Hs. reflexivity.
  - cbn [submitted_logs flat_map app].
    change (flat_map _ ?l) with (submitted_logs l).
    rewrite (submitted_logs_app (snd _)), Hl. reflexivity.
Qed.

(** C8, as stated, fails: the envelope latency is rounded to two decimals
    and the telemetry latency is not, so a request whose steps around the
    generation take less than the rounding step reports 1.0 ms to the caller
    and 1.004 ms to telemetry, on a clock that never goes back. *)
Lemma envelope_latency_below_telemetry :
  let out := chat Scenario.tight_env
               (Scenario.json_prompt "What is the capital of France?")
               Scenario.initial in
  non_decreasing (time_time Scenario.tight_env) /\
  exists body meta envelope series telemetry,
    fst out = Ok (body, 200%Z) /\
    field "metadata" body = Some meta /\
    field "latency_ms" meta = Some (PFloat envelope) /\
    In series (submitted_series (new_events Scenario.initial (snd out))) /\
    metric series = "llm.request.latency_ms" /\
    map value (points series) = [PFloat telemetry] /\
    envelope == 1 /\ telemetry == 1004 # 1000 /\
    ~ (telemetry <= envelope).
Proof.
  cbv zeta. split.
  - exact tight_clock_non_decreasing.
  - eexists. eexists. eexists. eexists. eexists.
    split; [vm_compute; reflexivity |].
    split; [vm_compute; reflexivity |].
    split; [vm_compute; reflexivity |].
    split; [vm_compute; left; reflexivity |].
    split; [reflexivity |].
    split; [reflexivity |].
    split; [reflexivity |].
    split; [reflexivity |].
    apply Qlt_not_le. reflexivity.
Qed.

(** C8, amended. In a successful request the handler reads the clock five
    times. The [latency_ms] of the envelope is the span from the first
    reading to the fifth, rounded to two decimals: every call the request
    makes to the outside (the generation, the confidence question, the two
    telemetry dispatches) lies between these two readings, none before or
    after. The [latency_ms] of the telemetry (the latency metric and the
    log entry) is the span from the second reading to the third, not
    rounded: between these two readings lies the generation call on the
    prompt of the request and nothing else, the confidence question and the
    dispatches come after the third. On a clock that never goes back the
    full span is at least the generation span, and the envelope latency is
    at least the telemetry latency less the rounding step of 0.005 ms. *)
Theorem latency_contract
    (env : Env) (st : State) (get_json : result pyval) (body : pyval) :
  fst (chat env get_json st) = Ok (body, 200%Z) ->
  let first := clock_reads st in
  let clock := fun n => time_time env (n + first)%nat in
  let full := (clock 4%nat - clock 0%nat) * 1000 in
  let generation := (clock 2%nat - clock 1%nat) * 1000 in
  let out := snd (chat env get_json st) in
  let events := new_events st out in
  let log := new_timeline st out in
  (exists meta, field "metadata" body = Some meta /\
                field "latency_ms" meta = Some (PFloat (py_round env full 2))) /\
  (exists series, In series (submitted_series events) /\
                  metric series = "llm.request.latency_ms" /\
                  map value (points series) = [PFloat generation]) /\
  (exists entry, submitted_logs events = [entry] /\
                 lookup "latency_ms" (additional entry) =
                   Some (PStr (py_str env (PFloat generation)))) /\
  (exists (d : dict) (prompt : unicode) (answer : string) (after_third : list event),
      get_json = Ok (PDict d) /\
      dict_get d "prompt" (PStr "") = PStr prompt /\
      field "response" body = Some (PStr answer) /\
      clock_reads out = (5 + first)%nat /\
      map snd log = events /\
      events_between first (4 + first) log = events /\
      events_between first (1 + first) log = [] /\
      events_between (1 + first) (2 + first) log = [EvGenerate (PStr prompt)] /\
      events_between (2 + first) (4 + first) log = after_third /\
      events = (EvGenerate (PStr prompt) :: after_third)%list /\
      model_prompts after_third = [PStr (confidence_question env (PStr prompt) answer)] /\
      submitted_series after_third = submitted_series events /\
      submitted_logs after_third = submitted_logs events) /\
  (non_decreasing (time_time env) ->
   generation <= full /\ generation - (1 # 200) <= py_round env full 2).
Proof.
  intros Hok first clock full generation out events log. subst first out events log.
  by_path env st get_json; try (cbn in Hok; discriminate Hok).
  destruct (succeeded_observed env st prompt reply answer prompt_hash)
    as (Hres & _ & Hl & Hs).
  rewrite Hres in Hok. injection Hok as <-.
  split; [| split; [| split; [| split]]].
  - eexists. split; reflexivity.
  - rewrite Hs. eexists. split; [left; reflexivity |]. split; reflexivity.
  - rewrite Hl. eexists. split; reflexivity.
  - destruct (succeeded_timeline env st prompt reply answer prompt_hash)
      as (Hreads & Hmap & Hall & Hnone & Hgen & dispatched & Hafter & Hsplit
          & Hprompts & Hseries & Hlogs).
    set (log := new_timeline st (snd (succeeded env st prompt reply answer prompt_hash)))
      in *.
    set (events := new_events st (snd (succeeded env st prompt reply answer prompt_hash)))
      in *.
    exists d, prompt, answer,
      (events_between (2 + clock_reads st) (4 + clock_reads st) log).
    split; [exact Hj |]. split; [exact Hp |]. split; [reflexivity |].
    split; [exact Hreads |]. split; [exact Hmap |]. split; [exact Hall |].
    split; [exact Hnone |]. split; [exact Hgen |]. split; [reflexivity |].
    rewrite Hafter.
    destruct (elicitation_quiet env (1 + model_calls st) (PStr prompt) answer) as [Hl' Hs'].
    split; [exact Hsplit |]. split; [| split].
    + rewrite model_prompts_app, elicitation_asks_once, Hprompts. reflexivity.
    + rewrite submitted_series_app, Hs', Hseries. reflexivity.
    + rewrite submitted_logs_app, Hl', Hlogs. reflexivity.
  - intros Hclock.
    assert (H01 : clock 0%nat <= clock 1%nat) by (apply Hclock; lia).
    assert (H24 : clock 2%nat <= clock 4%nat) by (apply Hclock; lia).
    pose proof (py_round_2_near env full) as Hround.
    assert (Hfull : generation <= full) by (unfold generation, full; lra).
    split; [exact Hfull | lra].
Qed.

Lemma latency_contract_witness :
  non_decreasing (time_time Scenario.paris_env) /\
  (time_time Scenario.paris_env 2 - time_time Scenario.paris_env 1) * 1000 - (1 # 200) <=
  py_round Scenario.paris_env
    ((time_time Scenario.paris_env 4 - time_time Scenario.paris_env 0) * 1000) 2.
Proof.
  split; [exact seconds_non_decreasing |].
  pose (request := Scenario.json_prompt "What is the capital of France?").
  pose (body := match fst (chat Scenario.paris_env request Scenario.initial) with
                | Ok (b, _) => b
                | Raise _ => PNone
                end).
  destruct (latency_contract Scenario.paris_env Scenario.initial request body)
    as (_ & _ & _ & _ & Hlat).
  - vm_compute. reflexivity.
  - destruct (Hlat seconds_non_decreasing) as [_ Hbound]. exact Hbound.
Defined.

(** ** PromptHasher: the contract *)

(** C9, amended. [hash_prompt] returns exactly 16 lowercase hexadecimal
    characters on every prompt that UTF-8 can encode, and raises
    [UnicodeEncodeError] on every prompt that holds a surrogate. On the
    prompts of the test scenarios two hashes are equal exactly when the
    prompts are. It is deterministic: the hash a successful request logs is
    [hash_prompt] of the prompt of the request, whatever the environment
    and the state of the process. *)
Theorem hash_prompt_contract :
  (forall p : unicode, encodable p = true ->
      exists h, hash_prompt p = Ok h /\
                String.length h = 16%nat /\ Forall lower_hex (chars h)) /\
  (forall p : unicode, encodable p = false ->
      exists e, hash_prompt p = Raise e /\ exn_type e = "UnicodeEncodeError") /\
  (forall p1 p2 : string,
      In p1 Scenario.test_prompts -> In p2 Scenario.test_prompts ->
      (hash_prompt p1 = hash_prompt p2 <-> p1 = p2)) /\
  (forall (env : Env) (st : State) (d : dict) (prompt : unicode) (body : pyval),
      dict_get d "prompt" (PStr "") = PStr prompt ->
      fst (chat env (Ok (PDict d)) st) = Ok (body, 200%Z) ->
      exists h entry,
        hash_prompt prompt = Ok h /\
        submitted_logs (new_events st (snd (chat env (Ok (PDict d)) st))) = [entry] /\
        lookup "prompt_hash" (additional entry) = Some (PStr h)).
Proof.
  split; [| split; [| split]].
  - apply hash_prompt_encodable.
  - apply hash_prompt_surrogate.
  - apply distinct_hashes_sound. vm_compute. reflexivity.
  - intros env st d0 prompt0 body Hprompt Hok.
    by_path env st (@Ok pyval (PDict d0)); try (cbn in Hok; discriminate Hok).
    injection Hj as <-.
    assert (E : prompt0 = prompt) by congruence. subst prompt0.
    destruct (succeeded_observed env st prompt reply answer prompt_hash)
      as (_ & _ & Hl & _).
    exists prompt_hash. eexists.
    split; [exact Hh |]. split; [exact Hl | reflexivity].
Qed.

Lemma hash_prompt_contract_witness :
  (exists h, hash_prompt "abc" = Ok h /\ String.length h = 16%nat) /\
  (hash_prompt "What is the capital of France?" =
   hash_prompt "Tell me everything about artificial intelligence." -> False).
Proof.
  destruct hash_prompt_contract as (Hformat & _ & Hcorpus & _).
  split.
  - destruct (Hformat "abc") as (h & Hh & Hlen & _).
    + reflexivity.
    + exists h. split; [exact Hh | exact Hlen].
  - intros E.
    assert (Habs : "What is the capital of France?" =
                   "Tell me everything about artificial intelligence.").
    { apply Hcorpus; [cbn; tauto | cbn; tauto | exact E]. }
    discriminate Habs.
Defined.

(** * Further properties of the scoring pipeline *)

(** ** HallucinationRiskScorer *)

Lemma lower_char_idempotent (c : ascii) : lower_char (lower_char c) = lower_char c.
Proof. destruct c as [[] [] [] [] [] [] [] []]; reflexivity. Qed.

Lemma isspace_lower_char (c : ascii) : isspace (lower_char c) = isspace c.
Proof. destruct c as [[] [] [] [] [] [] [] []]; reflexivity. Qed.

Lemma lower_idempotent (s : string) : lower (lower s) = lower s.
Proof.
  induction s as [| c s IH]; cbn; [reflexivity |].
  rewrite lower_char_idempotent, IH. reflexivity.
Qed.

Lemma is_empty_snoc (cur : string) (c : ascii) :
  is_empty (cur ++ String c EmptyString) = false.
Proof. destruct cur; reflexivity. Qed.

(** Lowering a text keeps its word boundaries. *)
Lemma split_from_lower_length (s cur cur' : string) :
  is_empty cur = is_empty cur' ->
  List.length (split_from cur (lower s)) = List.length (split_from cur' s).
Proof.
  revert cur cur'. induction s as [| c s IH]; intros cur cur' Hcur; cbn [lower split_from].
  - rewrite Hcur. destruct (is_empty cur'); reflexivity.
  - rewrite isspace_lower_char. destruct (isspace c).
    + rewrite Hcur. destruct (is_empty cur'); cbn [List.length];
        rewrite (IH EmptyString EmptyString eq_refl); reflexivity.
    + apply IH. rewrite !is_empty_snoc. reflexivity.
Qed.

Lemma word_count_lower (s : string) : word_count (lower s) = word_count s.
Proof.
  unfold word_count, split. rewrite (split_from_lower_length s _ EmptyString eq_refl).
  reflexivity.
Qed.

Lemma hedging_count_lower (s : string) : hedging_count (lower s) = hedging_count s.
Proof. unfold hedging_count. cbv zeta. rewrite lower_idempotent. reflexivity. Qed.

(** On the strings of the service the two ways of counting words agree. *)
Lemma isspace_code (c : ascii) : Unicode.isspace (code c) = isspace c.
Proof. destruct c as [[] [] [] [] [] [] [] []]; reflexivity. Qed.

Lemma of_string_snoc (cur : string) (c : ascii) :
  Unicode.of_string (cur ++ String c EmptyString) =
  (Unicode.of_string cur ++ [code c])%list.
Proof. induction cur as [| c' cur IH]; cbn; [reflexivity | rewrite IH; reflexivity]. Qed.

Lemma is_empty_of_string (s : string) :
  Unicode.is_empty (Unicode.of_string s) = is_empty s.
Proof. destruct s; reflexivity. Qed.

Lemma split_from_of_string (s cur : string) :
  Unicode.split_from (Unicode.of_string cur) (Unicode.of_string s) =
  map Unicode.of_string (split_from cur s).
Proof.
  revert cur. induction s as [| c s IH]; intros cur;
    cbn [Unicode.of_string Unicode.split_from split_from].
  - rewrite is_empty_of_string. destruct (is_empty cur); reflexivity.
  - rewrite isspace_code, is_empty_of_string. destruct (isspace c).
    + destruct (is_empty cur); cbn [map]; rewrite <- (IH EmptyString); reflexivity.
    + rewrite <- of_string_snoc. apply IH.
Qed.

Lemma word_count_of_string (s : string) :
  Unicode.word_count (Unicode.of_string s) = word_count s.
Proof.
  unfold Unicode.word_count, word_count, Unicode.split, split.
  pose proof (split_from_of_string s EmptyString) as H.
  cbn [Unicode.of_string] in H. rewrite H, length_map. reflexivity.
Qed.

(** X1. The score does not see letter case: two responses with the same
    lowercase form get the same score, against any prompt and confidence. *)
Theorem risk_ignores_letter_case
    (response1 response2 : string) (prompt : unicode) (confidence : Q) :
  lower response1 = lower response2 ->
  calculate_hallucination_risk response1 prompt confidence =
  calculate_hallucination_risk response2 prompt confidence.
Proof.
  intros Hlow.
  assert (Hh : hedging_count response1 = hedging_count response2).
  { rewrite <- (hedging_count_lower response1), <- (hedging_count_lower response2).
    rewrite Hlow. reflexivity. }
  assert (Hw : word_count response1 = word_count response2).
  { rewrite <- (word_count_lower response1), <- (word_count_lower response2).
    rewrite Hlow. reflexivity. }
  rewrite !risk_unfold. unfold verbosity_ratio. rewrite Hh, Hw. reflexivity.
Qed.

Lemma risk_ignores_letter_case_witness :
  calculate_hallucination_risk "It MIGHT be Paris, Probably." "capital?" (1 # 2) =
  calculate_hallucination_risk "it might be paris, probably." "capital?" (1 # 2).
Proof.
  apply risk_ignores_letter_case. reflexivity.
Defined.

(** X2. A prompt without words is scored as a one-word prompt: the length
    ratio divides by [max(prompt_length, 1)], so prompts of at most one word
    are interchangeable and an empty prompt cannot fail the division. *)
Theorem risk_of_wordless_prompt
    (response_text : string) (prompt1 prompt2 : unicode) (confidence : Q) :
  (Unicode.word_count prompt1 <= 1)%Z ->
  (Unicode.word_count prompt2 <= 1)%Z ->
  verbosity_ratio response_text prompt1 = inject_Z (word_count response_text) / 1 /\
  calculate_hallucination_risk response_text prompt1 confidence =
  calculate_hallucination_risk response_text prompt2 confidence.
Proof.
  intros H1 H2.
  assert (E1 : Z.max (Unicode.word_count prompt1) 1 = 1%Z) by lia.
  assert (E2 : Z.max (Unicode.word_count prompt2) 1 = 1%Z) by lia.
  split.
  - unfold verbosity_ratio. rewrite E1. reflexivity.
  - rewrite !risk_unfold. unfold verbosity_ratio. rewrite E1, E2. reflexivity.
Qed.

Lemma risk_of_wordless_prompt_witness :
  calculate_hallucination_risk "Paris." "" (9 # 10) =
  calculate_hallucination_risk "Paris." "capital?" (9 # 10).
Proof.
  apply (risk_of_wordless_prompt "Paris." "" "capital?" (9 # 10)).
  - apply Z.leb_le. reflexivity.
  - apply Z.leb_le. reflexivity.
Defined.

(** X3. Confidence alone fixes the score up to the 0.6 the two text signals
    can add. For every confidence the score is at most
    0.4 * (1 - confidence) + 0.6, so a confidence of 0.75 or more never
    gives a score above 0.7, whatever the text. For a confidence that is
    not negative the score is at least 0.4 * (1 - confidence). *)
Theorem risk_band_of_confidence
    (response_text : string) (prompt : unicode) (confidence : Q) :
  calculate_hallucination_risk response_text prompt confidence
    <= (4 # 10) * (1 - confidence) + (6 # 10) /\
  (3 # 4 <= confidence ->
   calculate_hallucination_risk response_text prompt confidence <= 7 # 10) /\
  (0 <= confidence ->
   (4 # 10) * (1 - confidence)
     <= calculate_hallucination_risk response_text prompt confidence).
Proof.
  rewrite risk_unfold.
  abstract_signals response_text prompt.
  name_divs; split_min; repeat split; intros; lra.
Qed.

Lemma risk_band_of_confidence_witness :
  calculate_hallucination_risk
    Scenario.hedged_long Scenario.one_word_prompt (3 # 4) <= 7 # 10 /\
  calculate_hallucination_risk
    Scenario.hedged_long Scenario.one_word_prompt (-1) <= 14 # 10.
Proof.
  split.
  - destruct (risk_band_of_confidence
                Scenario.hedged_long Scenario.one_word_prompt (3 # 4)) as (_ & Hcap & _).
    apply Hcap. apply Qle_bool_iff. reflexivity.
  - destruct (risk_band_of_confidence
                Scenario.hedged_long Scenario.one_word_prompt (-1)) as (Hupper & _).
    exact Hupper.
Defined.

(** X4. The score is clamped from above only. With a confidence above 1,
    and a response without words or hedging phrases, it is
    0.4 * (1 - confidence), a negative number. *)
Theorem risk_is_not_clamped_below
    (response_text : string) (prompt : unicode) (confidence : Q) :
  1 < confidence ->
  hedging_count response_text = 0%Z ->
  word_count response_text = 0%Z ->
  calculate_hallucination_risk response_text prompt confidence
    == (4 # 10) * (1 - confidence) /\
  calculate_hallucination_risk response_text prompt confidence < 0.
Proof.
  intros Hc Hh Hw. rewrite risk_unfold.
  pose proof (verbosity_ratio_no_words response_text prompt Hw) as Hv.
  rewrite Hh. change (inject_Z 0) with 0.
  abstract_signals response_text prompt.
  name_divs; split_min; split; lra.
Qed.

Lemma risk_is_not_clamped_below_witness :
  calculate_hallucination_risk "" "capital?" 2 < 0.
Proof.
  destruct (risk_is_not_clamped_below "" "capital?" 2) as [_ Hneg].
  - reflexivity.
  - reflexivity.
  - reflexivity.
  - exact Hneg.
Defined.

(** X5. The two text signals count only up to their caps: responses that
    agree on [min(hedging_count, 5)] and on [min(verbosity_ratio, 50)] get
    the same score, so a sixth hedging phrase or a ratio beyond 50 changes
    nothing. *)
Theorem risk_signals_are_capped
    (response1 : string) (prompt1 : unicode)
    (response2 : string) (prompt2 : unicode) (confidence : Q) :
  Z.min (hedging_count response1) 5 = Z.min (hedging_count response2) 5 ->
  py_min (verbosity_ratio response1 prompt1) 50
    == py_min (verbosity_ratio response2 prompt2) 50 ->
  calculate_hallucination_risk response1 prompt1 confidence ==
  calculate_hallucination_risk response2 prompt2 confidence.
Proof.
  intros Hh Hv. rewrite !risk_unfold.
  assert (Hh' : inject_Z (Z.min (hedging_count response1) 5) ==
                inject_Z (Z.min (hedging_count response2) 5))
    by (rewrite Hh; reflexivity).
  clear Hh.
  assert (Hmin : forall z : Z,
             (inject_Z z <= 5 /\ inject_Z (Z.min z 5) = inject_Z z) \/
             (5 <= inject_Z z /\ inject_Z (Z.min z 5) = 5)).
  { intros z. destruct (Z.le_ge_cases z 5) as [H | H].
    - left. split; [change 5 with (inject_Z 5); rewrite <- Zle_Qle; exact H |].
      rewrite Z.min_l by exact H. reflexivity.
    - right. split; [change 5 with (inject_Z 5); rewrite <- Zle_Qle; exact H |].
      rewrite Z.min_r by exact H. reflexivity. }
  destruct (Hmin (hedging_count response1)) as [[H1 E1] | [H1 E1]];
    destruct (Hmin (hedging_count response2)) as [[H2 E2] | [H2 E2]];
    rewrite E1, E2 in Hh'; clear E1 E2 Hmin;
    abstract_signals response1 prompt1; abstract_signals response2 prompt2;
    name_divs; split_min; lra.
Qed.

Lemma risk_signals_are_capped_witness :
  calculate_hallucination_risk
    "might possibly perhaps maybe likely" "" (1 # 2) ==
  calculate_hallucination_risk
    "might possibly perhaps maybe likely/probably" "" (1 # 2).
Proof.
  apply risk_signals_are_capped.
  - vm_compute. reflexivity.
  - vm_compute. reflexivity.
Defined.

(** ** SelfConfidenceEstimator *)

Lemma new_events_app (st st' : State) (events : list event) :
  trace st' = (trace st ++ events)%list -> new_events st st' = events.
Proof.
  intros H. unfold new_events. rewrite H.
  rewrite skipn_app, skipn_all, Nat.sub_diag. reflexivity.
Qed.

(** X6. The confidence elicitation is a single attempt: it calls the model
    exactly once, with the follow-up question, whether that call succeeds or
    not; it reads no clock, draws no uuid and submits nothing to the sinks. *)
Theorem get_self_confidence_single_attempt
    (env : Env) (prompt : pyval) (answer : string) (st : State) :
  let out := get_self_confidence env (model env) prompt answer st in
  model_calls (snd out) = S (model_calls st) /\
  clock_reads (snd out) = clock_reads st /\
  uuids (snd out) = uuids st /\
  model_prompts (new_events st (snd out)) =
    [PStr (confidence_question env prompt answer)] /\
  submitted_logs (new_events st (snd out)) = [] /\
  submitted_series (new_events st (snd out)) = [].
Proof.
  cbv zeta. rewrite get_self_confidence_run. cbn [snd model_calls clock_reads uuids].
  rewrite (new_events_app st _ (snd (elicitation env (model_calls st) prompt answer)))
    by reflexivity.
  destruct (elicitation_quiet env (model_calls st) prompt answer) as [Hl Hs].
  repeat split; try assumption.
  apply elicitation_asks_once.
Qed.

Lemma unicode_prefix_self_app (x b : unicode) :
  Unicode.prefix x (x ++ b)%list = true.
Proof.
  induction x as [| c x IH]; cbn; [reflexivity |].
  rewrite N.eqb_refl. exact IH.
Qed.

Lemma unicode_contains_app_r (x a b : unicode) :
  Unicode.contains x b = true -> Unicode.contains x (a ++ b)%list = true.
Proof.
  intros H. induction a as [| c a IH]; cbn [app]; [exact H |].
  cbn [Unicode.contains]. rewrite IH. apply orb_true_r.
Qed.

Lemma unicode_contains_self_app (x b : unicode) :
  Unicode.contains x (x ++ b)%list = true.
Proof.
  destruct x as [| c x]; [destruct b; reflexivity |].
  cbn [app Unicode.contains]. change (c :: (x ++ b)%list) with ((c :: x) ++ b)%list.
  rewrite unicode_prefix_self_app. reflexivity.
Qed.

Lemma of_string_app (s t : string) :
  Unicode.of_string (s ++ t) = (Unicode.of_string s ++ Unicode.of_string t)%list.
Proof. induction s as [| c s IH]; cbn; [reflexivity | rewrite IH; reflexivity]. Qed.

(** X7. The follow-up question quotes the original prompt (as [str] renders
    it) and the original answer verbatim. *)
Theorem confidence_question_quotes
    (env : Env) (original_prompt : pyval) (original_response : string) :
  Unicode.contains (format env original_prompt)
    (confidence_question env original_prompt original_response) = true /\
  Unicode.contains original_response
    (confidence_question env original_prompt original_response) = true.
Proof.
  unfold confidence_question. split.
  - apply unicode_contains_app_r. apply unicode_contains_self_app.
  - do 2 apply unicode_contains_app_r.
    rewrite !of_string_app.
    do 2 apply unicode_contains_app_r. apply unicode_contains_self_app.
Qed.

Lemma prefix_take (n : nat) (s : string) : prefix (take n s) s = true.
Proof.
  revert s. induction n as [| n IH]; intros [| c s]; cbn; try reflexivity.
  destruct (ascii_dec c c) as [_ | Hne]; [apply IH | contradiction].
Qed.

Lemma match_here_prefix (r : Re.regex) (s m : string) :
  Re.match_here r s = Some m -> prefix m s = true.
Proof.
  unfold Re.match_here. destruct (Re.matcher r s _); [| discriminate].
  intros [= <-]. apply prefix_take.
Qed.

Lemma search_contains (r : Re.regex) (s m : string) :
  Re.search r s = Some m -> contains m s = true.
Proof.
  induction s as [| c s IH]; cbn [Re.search];
    destruct (Re.match_here r _) as [m' |] eqn:E.
  - intros [= <-]. apply match_here_prefix in E.
    destruct m'; [reflexivity | discriminate E].
  - discriminate.
  - intros [= <-]. apply match_here_prefix in E.
    cbn [contains]. rewrite E. reflexivity.
  - intros H. cbn [contains]. rewrite (IH H). apply orb_true_r.
Qed.

(** X8. Whatever the reply, a match of the confidence pattern is a piece of
    the reply of one of four shapes ([0], [1], [1.0], or an optional [0], a
    dot and digits), and [float] reads it without error as a number of
    [0,1]: a reply such as [1.5] or [10] is read as 1, never as a number
    above 1. *)
Theorem confidence_pattern_reads_unit_numbers (reply group : string) :
  Re.search confidence_pattern reply = Some group ->
  confidence_token group /\
  contains group reply = true /\
  exists q : Q, py_float group = Ok q /\ 0 <= q <= 1.
Proof.
  intros H.
  pose proof (search_token reply group H) as Htoken.
  split; [exact Htoken |]. split.
  - eapply search_contains; exact H.
  - apply py_float_token; exact Htoken.
Qed.

Lemma confidence_pattern_reads_unit_numbers_witness :
  exists q : Q, py_float "1" = Ok q /\ 0 <= q <= 1.
Proof.
  destruct (confidence_pattern_reads_unit_numbers "about 1.5 out of 2" "1")
    as (_ & _ & Hq).
  - vm_compute. reflexivity.
  - exact Hq.
Defined.

Lemma match_here_needs_start (c : ascii) (s : string) :
  starts_number c = false ->
  Re.match_here confidence_pattern (String c s) = None.
Proof.
  intros Hc. unfold Re.match_here, confidence_pattern.
  cbn [Re.matcher Re.or_else].
  destruct (Ascii.eqb_spec "0" c) as [<- | _]; [discriminate Hc |].
  destruct (Ascii.eqb_spec "." c) as [<- | _]; [discriminate Hc |].
  destruct (Ascii.eqb_spec "1" c) as [<- | _]; [discriminate Hc |].
  reflexivity.
Qed.

Lemma search_needs_start (s : string) :
  all_chars (fun c => negb (starts_number c)) s = true ->
  Re.search confidence_pattern s = None.
Proof.
  induction s as [| c s IH]; intros H.
  - reflexivity.
  - cbn [all_chars] in H. apply andb_true_iff in H. destruct H as [Hc Hs].
    apply negb_true_iff in Hc.
    cbn [Re.search]. rewrite (match_here_needs_start c s Hc). apply IH. exact Hs.
Qed.

Lemma all_chars_lstrip (p : ascii -> bool) (s : string) :
  all_chars p s = true -> all_chars p (lstrip s) = true.
Proof.
  induction s as [| c s IH]; intros H; [reflexivity |].
  cbn [lstrip]. destruct (isspace c); [| exact H].
  cbn [all_chars] in H. apply andb_true_iff in H. apply IH. apply H.
Qed.

Lemma all_chars_rev_onto (p : ascii -> bool) (s acc : string) :
  all_chars p s = true -> all_chars p acc = true ->
  all_chars p (rev_onto s acc) = true.
Proof.
  revert acc. induction s as [| c s IH]; intros acc Hs Hacc; [exact Hacc |].
  cbn [all_chars] in Hs. apply andb_true_iff in Hs. destruct Hs as [Hc Hs].
  cbn [rev_onto]. apply IH; [exact Hs |]. cbn [all_chars]. rewrite Hc, Hacc. reflexivity.
Qed.

Lemma all_chars_strip (p : ascii -> bool) (s : string) :
  all_chars p s = true -> all_chars p (strip s) = true.
Proof.
  intros H. unfold strip, reversed.
  apply all_chars_rev_onto; [| reflexivity].
  apply all_chars_lstrip. apply all_chars_rev_onto; [| reflexivity].
  apply all_chars_lstrip. exact H.
Qed.

(** X9. A reply in which no character is [0], [1] or a dot cannot match the
    pattern, so the estimate is the default 0.5: ratings such as "85%" or
    "9/2" are not read as numbers. *)
Theorem unreadable_rating_defaults
    (env : Env) (model_instance : pyval -> M response)
    (original_prompt : pyval) (original_response : string) (st : State)
    (reply : response) (t : string) :
  fst (model_instance
         (PStr (confidence_question env original_prompt original_response)) st)
    = Ok reply ->
  text reply = Ok t ->
  all_chars (fun c => negb (starts_number c)) t = true ->
  fst (get_self_confidence env model_instance original_prompt original_response st)
    = Ok (1 # 2).
Proof.
  intros Hcall Ht Hchars.
  rewrite get_self_confidence_cases.
  destruct (model_instance _ st) as [[reply' | e] st1]; cbn [fst] in Hcall;
    [| discriminate Hcall].
  injection Hcall as ->. rewrite Ht.
  rewrite (search_needs_start (strip t)) by (apply all_chars_strip; exact Hchars).
  reflexivity.
Qed.

Lemma unreadable_rating_defaults_witness :
  fst (get_self_confidence Scenario.paris_env (Scenario.replying "85% sure")
         (PStr "What is the capital of France?") "Paris." Scenario.initial)
    = Ok (1 # 2).
Proof.
  apply (unreadable_rating_defaults
           Scenario.paris_env (Scenario.replying "85% sure")
           (PStr "What is the capital of France?") "Paris." Scenario.initial
           (Response (Ok "85% sure") None) "85% sure").
  - reflexivity.
  - reflexivity.
  - reflexivity.
Defined.

(** ** TelemetryRecordBuilder: the two dispatchers *)

Lemma getitem_lookup (d : dict) (key : string) (v : pyval) :
  lookup key d = Some v -> getitem d key = Ok v.
Proof. intros H. unfold getitem. rewrite H. reflexivity. Qed.

Lemma getitem_missing (d : dict) (key : string) :
  lookup key d = None -> getitem d key = Raise (KeyError key).
Proof. intros H. unfold getitem. rewrite H. reflexivity. Qed.

(** X10. When [metrics_data] lacks one of the five keys read with
    [metrics_data[key]], nothing is submitted to the metrics sink: the
    dispatcher reads the clock, reports the first missing key on the
    operational channel and returns normally. *)
Theorem send_metrics_missing_key
    (env : Env) (metrics_data : dict) (st : State) (key : string) :
  first_missing metrics_data = Some key ->
  let out := send_metrics_to_datadog env metrics_data st in
  fst out = Ok tt /\
  new_events st (snd out) =
    [EvPrint ("Error sending metrics to Datadog: " ++ "'" ++ key ++ "'")] /\
  submitted_series (new_events st (snd out)) = [] /\
  clock_reads (snd out) = S (clock_reads st).
Proof.
  intros Hmiss. cbv zeta.
  set (complaint := EvPrint ("Error sending metrics to Datadog: " ++ "'" ++ key ++ "'")).
  assert (Hrun : send_metrics_to_datadog env metrics_data st =
                 (Ok tt,
                  {| uuids := uuids st; clock_reads := S (clock_reads st);
                     model_calls := model_calls st;
                     trace := trace st ++ [complaint];
                     timeline := timeline st ++ [(S (clock_reads st), complaint)] |})).
  { unfold first_missing, required_metric_keys in Hmiss. cbn [find] in Hmiss.
    unfold send_metrics_to_datadog, complaint. run.
    destruct (lookup "model_name" metrics_data) as [v1 |] eqn:H1.
    2: { injection Hmiss as <-. rewrite (getitem_missing _ _ H1). run. reflexivity. }
    rewrite (getitem_lookup _ _ _ H1). run.
    destruct (lookup "latency_ms" metrics_data) as [v2 |] eqn:H2.
    2: { injection Hmiss as <-. rewrite (getitem_missing _ _ H2). run. reflexivity. }
    rewrite (getitem_lookup _ _ _ H2). run.
    destruct (lookup "self_confidence" metrics_data) as [v3 |] eqn:H3.
    2: { injection Hmiss as <-. rewrite (getitem_missing _ _ H3). run. reflexivity. }
    rewrite (getitem_lookup _ _ _ H3). run.
    destruct (lookup "hallucination_risk" metrics_data) as [v4 |] eqn:H4.
    2: { injection Hmiss as <-. rewrite (getitem_missing _ _ H4). run. reflexivity. }
    rewrite (getitem_lookup _ _ _ H4). run.
    destruct (lookup "answer_length" metrics_data) as [v5 |] eqn:H5.
    2: { injection Hmiss as <-. rewrite (getitem_missing _ _ H5). run. reflexivity. }
    discriminate Hmiss. }
  rewrite Hrun. cbn [fst snd clock_reads].
  erewrite !new_events_app by (cbn [trace]; reflexivity).
  repeat split.
Qed.

Lemma send_metrics_missing_key_witness :
  new_events Scenario.initial
    (snd (send_metrics_to_datadog Scenario.paris_env
            [("model_name", PStr "gemini-2.5-flash"); ("latency_ms", PFloat 12)]
            Scenario.initial)) =
  [EvPrint "Error sending metrics to Datadog: 'self_confidence'"].
Proof.
  apply (send_metrics_missing_key Scenario.paris_env
           [("model_name", PStr "gemini-2.5-flash"); ("latency_ms", PFloat 12)]
           Scenario.initial "self_confidence").
  reflexivity.
Defined.





Lemma first_clash_of_entry (env : Env) (log_data : dict) :
  first_clash (additional (log_entry env log_data)) =
  first_clash log_data.
Proof.
  unfold first_clash. cbn [additional log_entry].
  induction log_data as [| [k v] d IH]; [reflexivity |].
  cbn [map filter fst snd].
  destruct (is_number v); cbn [fst];
    destruct (existsb (String.eqb k) log_item_keywords); cbn [fst];
    try reflexivity; exact IH.
Qed.

Lemma first_clash_none (log_data : dict) :
  clashes log_data = false -> first_clash log_data = None.
Proof.
  unfold clashes, keys, first_clash.
  induction log_data as [| [k v] d IH]; [reflexivity |].
  cbn [map existsb filter fst]. intros H.
  apply orb_false_iff in H. destruct H as [Hk Hd].
  rewrite Hk. apply IH. exact Hd.
Qed.

Lemma first_clash_some (log_data : dict) :
  clashes log_data = true -> exists key, first_clash log_data = Some key.
Proof.
  unfold clashes, keys, first_clash.
  induction log_data as [| [k v] d IH]; [discriminate |].
  cbn [map existsb filter fst]. intros H.
  destruct (existsb (String.eqb k) log_item_keywords).
  - exists k. reflexivity.
  - apply IH. exact H.
Qed.

Lemma additional_keys (env : Env) (log_data : dict) :
  keys (additional (log_entry env log_data)) = keys log_data.
Proof.
  unfold keys. cbn [additional log_entry]. rewrite map_map.
  apply map_ext. intros [k v]. cbn [fst snd]. destruct (is_number v); reflexivity.
Qed.

(** The attributes the client refuses are those of the values that cannot
    be logged. *)
Lemma unloggable_of_entry (env : Env) (log_data : dict) :
  find (fun kv => negb (is_str (snd kv))) (additional (log_entry env log_data)) =
  find (fun kv => negb (loggable (snd kv))) log_data.
Proof.
  cbn [additional log_entry].
  induction log_data as [| [k v] d IH]; [reflexivity |].
  cbn [map find fst snd]. unfold loggable.
  destruct (is_number v) eqn:Hn; cbn [snd is_str negb orb].
  - exact IH.
  - destruct (is_str v); cbn [negb]; [exact IH | reflexivity].
Qed.

Lemma find_none_forallb {A : Type} (p : A -> bool) (l : list A) :
  forallb p l = true -> find (fun x => negb (p x)) l = None.
Proof.
  induction l as [| x l IH]; [reflexivity |].
  cbn [forallb find]. intros H. apply andb_true_iff in H. destruct H as [Hx Hl].
  rewrite Hx. cbn [negb]. apply IH. exact Hl.
Qed.

Lemma find_some_forallb {A : Type} (p : A -> bool) (l : list A) :
  forallb p l = false -> exists x, find (fun x => negb (p x)) l = Some x.
Proof.
  induction l as [| x l IH]; [discriminate |].
  cbn [forallb find]. intros H. destruct (p x); cbn [negb andb] in *.
  - apply IH. exact H.
  - exists x. reflexivity.
Qed.

(** X12. A telemetry dict whose keys do not clash with the keyword
    arguments of the log item, and whose values are strings or numbers
    ([int], [float] or [bool]), is submitted as one log entry with the same
    keys in the same order: every number is replaced by its [str], every
    string is kept, and the message carries the request id, or [unknown]
    when the dict has none. When some value is neither a string nor a
    number ([None], a list, a dict), the client refuses the item: nothing is
    submitted, and the refusal is reported on the operational channel. The
    dispatcher returns normally either way, whatever the sink does. *)
Theorem send_logs_entry (env : Env) (log_data : dict) (st : State) :
  clashes log_data = false ->
  let out := send_logs_to_datadog env log_data st in
  fst out = Ok tt /\
  (forallb (fun kv => loggable (snd kv)) log_data = true ->
   exists entry : HTTPLogItem,
     submitted_logs (new_events st (snd out)) = [entry] /\
     keys (additional entry) = keys log_data /\
     Forall (fun kv => is_str (snd kv) = true) (additional entry) /\
     (forall key v, In (key, v) log_data ->
        In (key, if is_number v then PStr (py_str env v) else v) (additional entry)) /\
     message entry =
       (Unicode.of_string "LLM request completed: request_id=" ++
        format env (dict_get log_data "request_id" (PStr "unknown")))%list /\
     (lookup "request_id" log_data = None ->
      message entry = Unicode.of_string "LLM request completed: request_id=unknown")) /\
  (forallb (fun kv => loggable (snd kv)) log_data = false ->
   submitted_logs (new_events st (snd out)) = [] /\
   exists complaint,
     new_events st (snd out) =
       [EvPrint ("Error sending logs to Datadog: " ++ complaint)]).
Proof.
  intros Hclash. cbv zeta.
  split; [apply send_logs_never_raises |].
  assert (Hnone : first_clash (additional (log_entry env log_data)) = None).
  { rewrite first_clash_of_entry. apply first_clash_none. exact Hclash. }
  split.
  - intros Hvalues.
    assert (Hitem : make_HTTPLogItem (log_entry env log_data) =
                    Ok (log_entry env log_data)).
    { unfold make_HTTPLogItem. rewrite Hnone, unloggable_of_entry.
      rewrite (find_none_forallb (fun kv => loggable (snd kv)) log_data Hvalues).
      reflexivity. }
    rewrite (send_logs_run env log_data st Hitem). cbn [snd].
    erewrite new_events_app by (cbn [trace]; reflexivity).
    exists (log_entry env log_data).
    split; [apply log_events_observed |].
    split; [apply additional_keys |].
    split; [| split; [| split]].
    + cbn [additional log_entry]. apply Forall_forall.
      intros kv Hin. apply in_map_iff in Hin. destruct Hin as ([k v] & <- & Hin).
      rewrite forallb_forall in Hvalues. specialize (Hvalues _ Hin).
      unfold loggable in Hvalues. cbn [snd] in Hvalues |- *.
      destruct (is_number v); cbn [snd]; [reflexivity | exact Hvalues].
    + intros key v Hin. cbn [additional log_entry].
      apply in_map_iff. exists (key, v). split; [| exact Hin].
      cbn [fst snd]. destruct (is_number v); reflexivity.
    + reflexivity.
    + intros Hid. cbn [message log_entry]. unfold dict_get. rewrite Hid. reflexivity.
  - intros Hvalues.
    destruct (find_some_forallb (fun kv => loggable (snd kv)) log_data Hvalues)
      as [kv Hkv].
    assert (Hitem : make_HTTPLogItem (log_entry env log_data) =
                    Raise (ApiTypeError (fst kv) "str" (snd kv))).
    { unfold make_HTTPLogItem. rewrite Hnone, unloggable_of_entry, Hkv. reflexivity. }
    rewrite (send_logs_refused env log_data st _ Hitem). cbn [snd].
    erewrite !new_events_app by (cbn [trace]; reflexivity).
    split; [reflexivity |]. eexists. reflexivity.
Qed.

Lemma send_logs_entry_witness :
  (exists entry : HTTPLogItem,
     submitted_logs
       (new_events Scenario.initial
          (snd (send_logs_to_datadog Scenario.paris_env
                  [("latency_ms", PFloat 12); ("status", PStr "error")]
                  Scenario.initial))) = [entry] /\
     message entry = Unicode.of_string "LLM request completed: request_id=unknown") /\
  submitted_logs
    (new_events Scenario.initial
       (snd (send_logs_to_datadog Scenario.paris_env
               [("latency_ms", PFloat 12); ("causes", PList [PStr "timeout"])]
               Scenario.initial))) = [].
Proof.
  split.
  - destruct (send_logs_entry Scenario.paris_env
                [("latency_ms", PFloat 12); ("status", PStr "error")]
                Scenario.initial)
      as (_ & Hentry & _).
    + reflexivity.
    + destruct Hentry as (entry & Hlogs & _ & _ & _ & _ & Hmsg); [reflexivity |].
      exists entry. split; [exact Hlogs | apply Hmsg; reflexivity].
  - destruct (send_logs_entry Scenario.paris_env
                [("latency_ms", PFloat 12); ("causes", PList [PStr "timeout"])]
                Scenario.initial)
      as (_ & _ & Hrefused).
    + reflexivity.
    + apply Hrefused. reflexivity.
Defined.

(** X13. A telemetry dict with a key that is also a keyword argument of the
    log item ([ddsource], [ddtags], [hostname], [message] or [service]) is
    never submitted: building the item fails, the failure is reported on the
    operational channel, and the dispatcher returns normally. *)
Theorem send_logs_keyword_clash (env : Env) (log_data : dict) (st : State) :
  clashes log_data = true ->
  let out := send_logs_to_datadog env log_data st in
  fst out = Ok tt /\
  submitted_logs (new_events st (snd out)) = [] /\
  exists key complaint,
    In key log_item_keywords /\ In key (keys log_data) /\
    new_events st (snd out) =
      [EvPrint ("Error sending logs to Datadog: " ++ complaint)].
Proof.
  intros Hclash. cbv zeta.
  destruct (first_clash_some log_data Hclash) as [key Hkey].
  assert (Hin : In key log_item_keywords /\ In key (keys log_data)).
  { unfold first_clash in Hkey.
    destruct (filter _ log_data) as [| kv rest] eqn:Hf; [discriminate Hkey |].
    injection Hkey as <-.
    assert (Hkv : In kv (filter (fun kv => existsb (String.eqb (fst kv)) log_item_keywords)
                           log_data)) by (rewrite Hf; left; reflexivity).
    apply filter_In in Hkv. destruct Hkv as [Hmem Hex].
    split.
    - apply existsb_exists in Hex. destruct Hex as (k & Hk & Heq).
      apply String.eqb_eq in Heq. rewrite Heq. exact Hk.
    - unfold keys. apply in_map. exact Hmem. }
  assert (Hitem : make_HTTPLogItem (log_entry env log_data) =
                  Raise (TypeError_keyword key)).
  { unfold make_HTTPLogItem. rewrite first_clash_of_entry, Hkey. reflexivity. }
  rewrite (send_logs_refused env log_data st _ Hitem). cbn [fst snd].
  erewrite !new_events_app by (cbn [trace]; reflexivity).
  split; [reflexivity |]. split; [reflexivity |].
  exists key, (exn_msg (TypeError_keyword key)).
  split; [apply Hin |]. split; [apply Hin | reflexivity].
Qed.

Lemma send_logs_keyword_clash_witness :
  submitted_logs
    (new_events Scenario.initial
       (snd (send_logs_to_datadog Scenario.paris_env
               [("request_id", PStr "r"); ("message", PStr "hello")]
               Scenario.initial))) = [].
Proof.
  apply (send_logs_keyword_clash Scenario.paris_env
           [("request_id", PStr "r"); ("message", PStr "hello")] Scenario.initial).
  reflexivity.
Defined.

(** ** RequestOrchestrator: outcomes of a request *)

Lemma hash_prompt_ok_encodable (p : unicode) (h : string) :
  hash_prompt p = Ok h -> encodable p = true.
Proof.
  intros H. destruct (encodable p) eqn:E; [reflexivity |].
  destruct (hash_prompt_surrogate p E) as (e & He & _). congruence.
Qed.

Lemma hash_prompt_raise_surrogate (p : unicode) (e : exn) :
  hash_prompt p = Raise e -> encodable p = false.
Proof.
  intros H. destruct (encodable p) eqn:E; [| reflexivity].
  destruct (hash_prompt_encodable p E) as (h & Hh & _). congruence.
Qed.

(** X14. The handler never raises and answers with one of three statuses.
    It answers 400 exactly when the body is a JSON object whose prompt is
    missing or falsy, and 200 exactly when the body is a JSON object whose
    prompt is a non-empty string that UTF-8 can encode (it holds no lone
    surrogate), the generation call returns and its text can be read; every
    other request is answered 500. What the confidence call and the sinks
    do has no part in the status. *)
Theorem chat_status (env : Env) (st : State) (get_json : result pyval) :
  exists body status,
    fst (chat env get_json st) = Ok (body, status) /\
    (status = 200%Z \/ status = 400%Z \/ status = 500%Z) /\
    (status = 400%Z <->
     exists d, get_json = Ok (PDict d) /\
               truthy (dict_get d "prompt" (PStr "")) = false) /\
    (status = 200%Z <->
     exists d prompt reply answer,
       get_json = Ok (PDict d) /\
       dict_get d "prompt" (PStr "") = PStr prompt /\
       prompt <> [] /\
       encodable prompt = true /\
       generate_content env (model_calls st) (PStr prompt) = Ok reply /\
       text reply = Ok answer).
Proof.
  by_path env st get_json;
    eexists; eexists; (split; [reflexivity |]);
    (split; [auto |]); subst get_json.
  - (* rejected *)
    split; split.
    + intros _. exists d. split; [reflexivity | exact Ht].
    + intros _. reflexivity.
    + intros H. discriminate H.
    + intros (d' & p & r & a & Hd & Hp & Hne & _). injection Hd as <-.
      rewrite Hp, (nonempty_is_truthy p Hne) in Ht. discriminate Ht.
  - (* get_json raised *)
    split; split.
    + intros H. discriminate H.
    + intros (d & Hd & _). discriminate Hd.
    + intros H. discriminate H.
    + intros (d & p & r & a & Hd & _). discriminate Hd.
  - (* not an object *)
    split; split.
    + intros H. discriminate H.
    + intros (d & Hd & _). injection Hd as ->. discriminate Hget.
    + intros H. discriminate H.
    + intros (d & p & r & a & Hd & _). injection Hd as ->. discriminate Hget.
  - (* generation failed *)
    split; split.
    + intros H. discriminate H.
    + intros (d' & Hd & Hf). injection Hd as <-. rewrite Hp in Hf. congruence.
    + intros H. discriminate H.
    + intros (d' & p & r & a & Hd & Hp' & _ & _ & Hg' & _). injection Hd as <-.
      rewrite Hp in Hp'. congruence.
  - (* no text *)
    split; split.
    + intros H. discriminate H.
    + intros (d' & Hd & Hf). injection Hd as <-. rewrite Hp in Hf. congruence.
    + intros H. discriminate H.
    + intros (d' & p & r & a & Hd & Hp' & _ & _ & Hg' & Hx'). injection Hd as <-.
      rewrite Hp in Hp'. congruence.
  - (* prompt not a string *)
    split; split.
    + intros H. discriminate H.
    + intros (d' & Hd & Hf). injection Hd as <-. rewrite Hp in Hf. congruence.
    + intros H. discriminate H.
    + intros (d' & p & r & a & Hd & Hp' & _). injection Hd as <-.
      rewrite Hp in Hp'. rewrite Hp' in Hr. discriminate Hr.
  - (* prompt not encodable *)
    split; split.
    + intros H. discriminate H.
    + intros (d' & Hd & Hf). injection Hd as <-.
      rewrite Hp, (nonempty_is_truthy prompt Hne) in Hf. discriminate Hf.
    + intros H. discriminate H.
    + intros (d' & p & r & a & Hd & Hp' & _ & Henc & _). injection Hd as <-.
      assert (E : p = prompt) by congruence. subst p.
      rewrite (hash_prompt_raise_surrogate prompt e Hh) in Henc. discriminate Henc.
  - (* succeeded *)
    split; split.
    + intros H. discriminate H.
    + intros (d' & Hd & Hf). injection Hd as <-.
      rewrite Hp, (nonempty_is_truthy prompt Hne) in Hf. discriminate Hf.
    + intros _. exists d, prompt, reply, answer.
      pose proof (hash_prompt_ok_encodable prompt prompt_hash Hh). auto 10.
    + intros _. reflexivity.
Qed.

Lemma chat_status_witness :
  (exists body, fst (chat Scenario.paris_env
                       (Scenario.json_prompt "What is the capital of France?")
                       Scenario.initial) = Ok (body, 200%Z)) /\
  (exists body, fst (chat Scenario.paris_env
                       (Scenario.json_prompt Scenario.lone_surrogate)
                       Scenario.initial) = Ok (body, 500%Z)).
Proof.
  split.
  - destruct (chat_status Scenario.paris_env Scenario.initial
                (Scenario.json_prompt "What is the capital of France?"))
      as (body & status & Hres & _ & _ & [_ H200]).
    assert (Hs : status = 200%Z).
    { apply H200.
      exists [("prompt", PStr "What is the capital of France?")],
             (Unicode.of_string "What is the capital of France?"),
             (Response (Ok "Paris.") (Some 12%Z)), "Paris.".
      repeat split; try reflexivity. discriminate. }
    exists body. rewrite Hres, Hs. reflexivity.
  - destruct (chat_status Scenario.paris_env Scenario.initial
                (Scenario.json_prompt Scenario.lone_surrogate))
      as (body & status & Hres & Hstatus & [H400 _] & [H200 _]).
    assert (Hs : status = 500%Z).
    { destruct Hstatus as [Hs | [Hs | Hs]]; [| | exact Hs].
      - destruct (H200 Hs) as (d & p & r & a & Hd & Hp & _ & Henc & _).
        injection Hd as <-. injection Hp as <-. discriminate Henc.
      - destruct (H400 Hs) as (d & Hd & Hfalsy).
        injection Hd as <-. discriminate Hfalsy. }
    exists body. rewrite Hres, Hs. reflexivity.
Defined.

(** X15. A prompt that is falsy without being the empty string ([null],
    [false], [0], [0.0], an empty list or an empty object) is rejected like
    an empty one: status 400, no model call, nothing emitted. *)
Theorem falsy_prompt_rejected
    (env : Env) (st : State) (d : dict) (v : pyval) :
  lookup "prompt" d = Some v ->
  truthy v = false ->
  fst (chat env (Ok (PDict d)) st) =
    Ok (PDict [("error", PStr "prompt is required")], 400%Z) /\
  model_calls (snd (chat env (Ok (PDict d)) st)) = model_calls st /\
  new_events st (snd (chat env (Ok (PDict d)) st)) = [].
Proof.
  intros Hv Hfalsy.
  assert (H : truthy (dict_get d "prompt" (PStr "")) = false)
    by (unfold dict_get; rewrite Hv; exact Hfalsy).
  rewrite (chat_rejected env st d H). cbn [fst snd].
  rewrite new_events_after. repeat split.
Qed.

Lemma falsy_prompt_rejected_witness :
  fst (chat Scenario.paris_env (Ok (PDict [("prompt", PList [])])) Scenario.initial) =
    Ok (PDict [("error", PStr "prompt is required")], 400%Z).
Proof.
  apply (falsy_prompt_rejected Scenario.paris_env Scenario.initial
           [("prompt", PList [])] (PList [])); reflexivity.
Defined.

Lemma failed_prompts
    (env : Env) (st : State) (e : exn) (reads calls : nat)
    (before : list (nat * event)) :
  model_prompts (new_events st (snd (failed env st e reads calls before))) =
  model_prompts (map snd before).
Proof.
  unfold failed. cbn [snd]. rewrite new_events_after.
  rewrite !map_app, !events_recorded.
  rewrite !model_prompts_app, log_events_no_prompt. cbn. rewrite app_nil_r. reflexivity.
Qed.

Lemma generation_and_elicitation_prompts
    (env : Env) (st : State) (prompt : pyval) (answer : string) :
  model_prompts (map snd (generation_and_elicitation env st prompt answer)) =
  [prompt; PStr (confidence_question env prompt answer)].
Proof.
  unfold generation_and_elicitation. rewrite map_app, !events_recorded.
  rewrite model_prompts_app, elicitation_asks_once. reflexivity.
Qed.

(** X16. A prompt that is truthy but not a string (a number, [true], a
    non-empty list or object) is not rejected: it is sent to the model as it
    is, the confidence question is asked as well, and only then does scoring
    fail on [prompt.split()]. The caller gets status 500 with the text of
    that [AttributeError], after two model calls. *)
Theorem non_text_prompt_fails_late
    (env : Env) (st : State) (d : dict) (v : pyval)
    (reply : response) (answer : string) :
  lookup "prompt" d = Some v ->
  truthy v = true ->
  (forall s, v <> PStr s) ->
  generate_content env (model_calls st) v = Ok reply ->
  text reply = Ok answer ->
  let out := chat env (Ok (PDict d)) st in
  fst out =
    Ok (PDict [("error", PStr ("'" ++ type_name v ++ "' object has no attribute 'split'"));
               ("request_id", PStr (uuid4 env (uuids st)))], 500%Z) /\
  model_prompts (new_events st (snd out)) =
    [v; PStr (confidence_question env v answer)] /\
  model_calls (snd out) = S (S (model_calls st)).
Proof.
  intros Hv Ht Hns Hg Hx. cbv zeta.
  assert (Hp : dict_get d "prompt" (PStr "") = v) by (unfold dict_get; rewrite Hv; reflexivity).
  assert (Hr : calculate_hallucination_risk_dyn answer v
                 (fst (elicitation env (1 + model_calls st) v answer)) =
               Raise (AttributeError v "split")).
  { destruct v; try reflexivity. exfalso. eapply Hns. reflexivity. }
  rewrite <- Hp in Ht, Hg, Hr.
  rewrite (chat_prompt_not_text env st d reply answer _ Ht Hg Hx Hr).
  rewrite Hp. split; [reflexivity |]. split.
  - rewrite failed_prompts. apply generation_and_elicitation_prompts.
  - reflexivity.
Qed.

Lemma non_text_prompt_fails_late_witness :
  fst (chat Scenario.paris_env (Ok (PDict [("prompt", PInt 7)])) Scenario.initial) =
    Ok (PDict [("error", PStr "'int' object has no attribute 'split'");
               ("request_id", PStr Scenario.a_request_id)], 500%Z).
Proof.
  apply (non_text_prompt_fails_late Scenario.paris_env Scenario.initial
           [("prompt", PInt 7)] (PInt 7) (Response (Ok "Paris.") (Some 12%Z)) "Paris.");
    try reflexivity.
  discriminate.
Defined.

Lemma succeeded_prompts
    (env : Env) (st : State) (prompt : unicode) (reply : response)
    (answer prompt_hash : string) :
  model_prompts (new_events st (snd (succeeded env st prompt reply answer prompt_hash))) =
  [PStr prompt; PStr (confidence_question env (PStr prompt) answer)].
Proof.
  unfold succeeded. cbn [snd]. rewrite new_events_after.
  rewrite map_app, model_prompts_app, generation_and_elicitation_prompts.
  rewrite events_recorded.
  rewrite !model_prompts_app, log_events_no_prompt, metrics_events_no_prompt.
  reflexivity.
Qed.

Ltac wrong_status :=
  match goal with
  | H : Ok _ = Ok (_, _) |- _ =>
      cbv [rejection failure_response success_response] in H; congruence
  end.

(** X17. No request calls the model more than twice or reads the clock more
    than five times, and each draws one uuid: there is no retry. A rejected
    request (400) makes no model call and one clock reading; a successful one
    (200) makes exactly two calls, the generation and then the confidence
    question, and five readings. *)
Theorem chat_effort (env : Env) (st : State) (get_json : result pyval) :
  let out := chat env get_json st in
  let prompts := model_prompts (new_events st (snd out)) in
  (List.length prompts <= 2)%nat /\
  model_calls (snd out) = (List.length prompts + model_calls st)%nat /\
  (1 + clock_reads st <= clock_reads (snd out) <= 5 + clock_reads st)%nat /\
  uuids (snd out) = S (uuids st) /\
  (forall body, fst out = Ok (body, 400%Z) ->
     prompts = [] /\ clock_reads (snd out) = S (clock_reads st)) /\
  (forall body, fst out = Ok (body, 200%Z) ->
     exists prompt answer,
       prompts = [PStr prompt; PStr (confidence_question env (PStr prompt) answer)] /\
       field "response" body = Some (PStr answer) /\
       clock_reads (snd out) = (5 + clock_reads st)%nat).
Proof.
  cbv zeta.
  by_path env st get_json.
  - cbn [fst snd]. rewrite new_events_after. cbn.
    repeat split; intros; try lia; try wrong_status.
  - rewrite failed_prompts. cbn.
    repeat split; intros; try lia; try wrong_status.
  - rewrite failed_prompts. cbn.
    repeat split; intros; try lia; try wrong_status.
  - rewrite failed_prompts. cbn.
    repeat split; intros; try lia; try wrong_status.
  - rewrite failed_prompts. cbn.
    repeat split; intros; try lia; try wrong_status.
  - rewrite failed_prompts, generation_and_elicitation_prompts. cbn.
    repeat split; intros; try lia; try wrong_status.
  - rewrite failed_prompts, generation_and_elicitation_prompts. cbn.
    repeat split; intros; try lia; try wrong_status.
  - rewrite succeeded_prompts. cbn.
    repeat split; intros; try lia; try wrong_status.
    match goal with H : _ = Ok (_, 200%Z) |- _ => injection H as <- end.
    exists prompt, answer. repeat split.
Qed.

Lemma chat_effort_witness :
  model_prompts
    (new_events Scenario.initial
       (snd (chat Scenario.paris_env (Scenario.json_prompt "") Scenario.initial))) = [].
Proof.
  destruct (chat_effort Scenario.paris_env Scenario.initial (Scenario.json_prompt ""))
    as (_ & _ & _ & _ & H400 & _).
  destruct (H400 (PDict [("error", PStr "prompt is required")])) as [Hnone _].
  - vm_compute. reflexivity.
  - exact Hnone.
Defined.

(** ** RequestOrchestrator: what is emitted and what is returned *)

(** Events that all lie before a reading are not found after it. *)
Lemma events_between_later (i j i' j' : nat) (log : list (nat * event)) :
  events_between i j log = map snd log ->
  (j <= i')%nat ->
  events_between i' j' log = [].
Proof.
  intros Hall Hle. revert Hall. unfold events_between.
  induction log as [| [k ev] log IH]; [reflexivity |].
  cbn [filter map fst snd].
  destruct ((i <? k)%nat && (k <=? j)%nat)%bool eqn:E.
  - intros H. cbn [map snd] in H. injection H as H.
    apply andb_true_iff in E. destruct E as [_ E]. apply Nat.leb_le in E.
    assert (E' : (i' <? k)%nat = false) by (apply Nat.ltb_ge; lia).
    rewrite E'. cbn [andb]. apply IH. exact H.
  - intros H. exfalso.
    assert (Hlen : (List.length
                      (map snd (filter (fun entry => (i <? fst entry)%nat &&
                                                     (fst entry <=? j)%nat)%bool log))
                    <= List.length log)%nat).
    { rewrite length_map. apply filter_length_le. }
    rewrite H in Hlen. cbn [List.length] in Hlen. rewrite length_map in Hlen. lia.
Qed.

Lemma failed_timeline
    (env : Env) (st : State) (e : exn) (reads calls : nat)
    (before : list (nat * event)) :
  events_between (clock_reads st) (reads + clock_reads st) before = map snd before ->
  quiet (map snd before) ->
  let out := snd (failed env st e reads calls before) in
  let first := clock_reads st in
  let log := new_timeline st out in
  let events := new_events st out in
  clock_reads out = (2 + reads + first)%nat /\
  map snd log = events /\
  model_prompts (events_between first (reads + first) log) = model_prompts events /\
  submitted_logs (events_between (reads + first) (1 + reads + first) log) =
    submitted_logs events /\
  submitted_series (events_between (1 + reads + first) (2 + reads + first) log) =
    submitted_series events.
Proof.
  intros Hbefore [Hl Hs]. cbv zeta. unfold failed. cbn [snd].
  rewrite new_timeline_after, new_events_after.
  split; [reflexivity |]. split; [reflexivity |].
  pose proof (events_between_later _ _ (reads + clock_reads st)
                (1 + reads + clock_reads st) before Hbefore (Nat.le_refl _)) as Hmid.
  pose proof (events_between_later _ _ (1 + reads + clock_reads st)
                (2 + reads + clock_reads st) before Hbefore (Nat.le_succ_diag_r _))
    as Hlate.
  rewrite !map_app, !events_recorded, !events_between_app.
  rewrite Hbefore, Hmid, Hlate.
  repeat first
    [ rewrite events_between_inside by lia
    | rewrite events_between_outside by lia ].
  cbn [app]. rewrite ?app_nil_r.
  rewrite !model_prompts_app, !submitted_logs_app, !submitted_series_app.
  rewrite Hl, Hs, log_events_no_prompt.
  rewrite (proj2 (log_events_observed env _)).
  cbn. rewrite ?app_nil_r. repeat split.
Qed.

Lemma generation_before_third_reading (st : State) (prompt : pyval) (reads : nat) :
  (2 <= reads)%nat ->
  events_between (clock_reads st) (reads + clock_reads st)
    (recorded (2 + clock_reads st) [EvGenerate prompt]) =
  map snd (recorded (2 + clock_reads st) [EvGenerate prompt]).
Proof.
  intros H. rewrite events_between_inside by lia. rewrite events_recorded. reflexivity.
Qed.

Lemma elicitation_before_fourth_reading
    (env : Env) (st : State) (prompt : pyval) (answer : string) :
  events_between (clock_reads st) (3 + clock_reads st)
    (generation_and_elicitation env st prompt answer) =
  map snd (generation_and_elicitation env st prompt answer).
Proof.
  unfold generation_and_elicitation.
  rewrite events_between_app, map_app, !events_recorded.
  rewrite !events_between_inside by lia. reflexivity.
Qed.

(** The error path, however it was entered. *)
Lemma failed_shape
    (env : Env) (st : State) (e : exn) (reads calls : nat)
    (before : list (nat * event)) (body : pyval) :
  events_between (clock_reads st) (reads + clock_reads st) before = map snd before ->
  quiet (map snd before) ->
  fst (failed env st e reads calls before) = Ok (body, 500%Z) ->
  let request_id := uuid4 env (uuids st) in
  let out := snd (failed env st e reads calls before) in
  let first := clock_reads st in
  let events := new_events st out in
  let log := new_timeline st out in
  let latency_ms :=
    (time_time env (reads + first) - time_time env first) * 1000 in
  body = PDict [("error", PStr (exn_msg e)); ("request_id", PStr request_id)] /\
  (exists entry,
      submitted_logs events = [entry] /\
      submitted_logs (events_between (reads + first) (1 + reads + first) log) = [entry] /\
      additional entry =
        [ ("request_id", PStr request_id);
          ("error", PStr (exn_msg e));
          ("latency_ms", PStr (py_str env (PFloat latency_ms)));
          ("status", PStr "error") ]) /\
  submitted_series events =
    [ {| metric := "llm.error.count";
         intake_type := UNSPECIFIED;
         points := [ {| timestamp := py_int (time_time env (1 + reads + first));
                        value := PFloat 1 |} ];
         resources := [];
         tags := [ Unicode.of_string ("service:" ++ SERVICE_NAME);
                   Unicode.of_string ("env:" ++ ENVIRONMENT env) ] |} ] /\
  clock_reads out = (2 + reads + first)%nat /\
  model_prompts (events_between first (reads + first) log) = model_prompts events /\
  (non_decreasing (time_time env) -> 0 <= latency_ms).
Proof.
  intros Hbefore Hq Hres. cbv zeta.
  destruct (failed_observed env st e reads calls before Hq) as (Hres' & _ & Hl & Hs).
  destruct (failed_timeline env st e reads calls before Hbefore Hq)
    as (Hreads & _ & Hprompts & Hlogs & _).
  rewrite Hres' in Hres. injection Hres as <-.
  split; [reflexivity |]. split; [| split; [| split; [| split]]].
  - rewrite Hlogs, Hl. eexists. split; [reflexivity |]. split; reflexivity.
  - rewrite Hs. reflexivity.
  - exact Hreads.
  - exact Hprompts.
  - intros Hclock.
    assert (H : time_time env (clock_reads st) <= time_time env (reads + clock_reads st))
      by (apply Hclock; lia).
    lra.
Qed.

(** X18. A request answered 500 failed in one of six ways: the body could
    not be read, the body is not a JSON object, the generation call raised,
    the text of its reply could not be read, the prompt is not a string, or
    the prompt cannot be encoded. The response carries the text of that very
    exception, with the request id. The handler then reads the clock, and
    emits the failure record only: one log entry, submitted after that
    reading, whose attributes are exactly the request id, the same error
    text, the time from the start of the request to that reading (as a
    string) and the status [error]; and one series [llm.error.count] of
    value 1.0 tagged by service and environment. Every model call of the
    request comes before that reading. No confidence, risk, answer length
    or prompt hash is emitted, and on a clock that never goes back the
    elapsed time is not negative. *)
Theorem failure_telemetry
    (env : Env) (st : State) (get_json : result pyval) (body : pyval) :
  fst (chat env get_json st) = Ok (body, 500%Z) ->
  let request_id := uuid4 env (uuids st) in
  let out := snd (chat env get_json st) in
  let first := clock_reads st in
  let events := new_events st out in
  let log := new_timeline st out in
  exists (e : exn) (reads : nat),
    failure env st get_json e reads /\
    let latency_ms :=
      (time_time env (reads + first) - time_time env first) * 1000 in
    body = PDict [("error", PStr (exn_msg e)); ("request_id", PStr request_id)] /\
    (exists entry,
        submitted_logs events = [entry] /\
        submitted_logs (events_between (reads + first) (1 + reads + first) log) = [entry] /\
        additional entry =
          [ ("request_id", PStr request_id);
            ("error", PStr (exn_msg e));
            ("latency_ms", PStr (py_str env (PFloat latency_ms)));
            ("status", PStr "error") ]) /\
    submitted_series events =
      [ {| metric := "llm.error.count";
           intake_type := UNSPECIFIED;
           points := [ {| timestamp := py_int (time_time env (1 + reads + first));
                          value := PFloat 1 |} ];
           resources := [];
           tags := [ Unicode.of_string ("service:" ++ SERVICE_NAME);
                     Unicode.of_string ("env:" ++ ENVIRONMENT env) ] |} ] /\
    clock_reads out = (2 + reads + first)%nat /\
    model_prompts (events_between first (reads + first) log) = model_prompts events /\
    (non_decreasing (time_time env) -> 0 <= latency_ms).
Proof.
  intros Hres. cbv zeta.
  by_path env st get_json.
  - discriminate Hres.
  - exists e, 1%nat. split; [apply body_unreadable; exact Hj |].
    apply (failed_shape env st e 1 0 [] body eq_refl quiet_nothing Hres).
  - exists e, 1%nat. split.
    + destruct data; cbn [get_method] in Hget; try discriminate Hget;
        injection Hget as <-; (eapply body_not_an_object; [exact Hj | discriminate]).
    + apply (failed_shape env st e 1 0 [] body eq_refl quiet_nothing Hres).
  - exists e, 2%nat. split; [eapply generation_raised; eauto |].
    apply (failed_shape env st e 2 1 _ body
             (generation_before_third_reading st prompt 2 (le_n 2))
             (quiet_generation _ prompt) Hres).
  - exists e, 3%nat. split; [eapply text_unreadable; eauto |].
    apply (failed_shape env st e 3 1 _ body
             (generation_before_third_reading st prompt 3 (le_S 2 2 (le_n 2)))
             (quiet_generation _ prompt) Hres).
  - exists e, 3%nat. split.
    + destruct prompt; cbn [calculate_hallucination_risk_dyn] in Hr;
        try discriminate Hr; injection Hr as <-;
        (eapply prompt_not_a_string; eauto; discriminate).
    + apply (failed_shape env st e 3 2 _ body
               (elicitation_before_fourth_reading env st prompt answer)
               (generation_and_elicitation_quiet env st prompt answer) Hres).
  - exists e, 3%nat. split; [eapply prompt_not_encodable; eauto |].
    apply (failed_shape env st e 3 2 _ body
             (elicitation_before_fourth_reading env st (PStr prompt) answer)
             (generation_and_elicitation_quiet env st (PStr prompt) answer) Hres).
  - discriminate Hres.
Qed.

Lemma failure_telemetry_witness :
  exists series,
    submitted_series
      (new_events Scenario.initial
         (snd (chat Scenario.paris_env (Ok PNone) Scenario.initial))) = [series] /\
    metric series = "llm.error.count".
Proof.
  destruct (failure_telemetry Scenario.paris_env Scenario.initial (Ok PNone)
              (PDict [("error", PStr "'NoneType' object has no attribute 'get'");
                      ("request_id", PStr Scenario.a_request_id)]))
    as (e & reads & _ & _ & _ & Hseries & _).
  - vm_compute. reflexivity.
  - eexists. split; [exact Hseries | reflexivity].
Defined.

Lemma round_nearest_between (up : bool) (a b : Z) (y : Q) :
  inject_Z a <= y <= inject_Z b ->
  (a <= round_nearest up y <= b)%Z.
Proof.
  intros [Ha Hb].
  assert (Hfa : (a <= Qfloor y)%Z).
  { rewrite <- (Qfloor_Z a). apply Qfloor_resp_le. exact Ha. }
  assert (Hfb : (Qfloor y <= b)%Z).
  { rewrite <- (Qfloor_Z b). apply Qfloor_resp_le. exact Hb. }
  assert (Hstep : inject_Z (Qfloor y) < y -> (Qfloor y + 1 <= b)%Z).
  { intros Hlt.
    assert (Hfb' : inject_Z (Qfloor y) < inject_Z b) by (eapply Qlt_le_trans; eassumption).
    rewrite <- Zlt_Qlt in Hfb'. lia. }
  unfold round_nearest.
  destruct (Qcompare (y - inject_Z (Qfloor y)) (1 # 2)) eqn:Hc.
  - apply Qeq_alt in Hc. destruct up; [| lia].
    split; [lia |]. apply Hstep. lra.
  - lia.
  - apply Qgt_alt in Hc. split; [lia |]. apply Hstep. lra.
Qed.

(** Rounding to three decimals stays within half a thousandth and within
    [0,1], whichever way a tie goes. *)
Lemma py_round_3_unit (env : Env) (x : Q) :
  0 <= x <= 1 ->
  0 <= py_round env x 3 <= 1 /\
  x - (1 # 2000) <= py_round env x 3 <= x + (1 # 2000).
Proof.
  intros Hx. unfold py_round.
  change (inject_Z (10 ^ Z.of_nat 3)) with (inject_Z 1000).
  set (up := round_tie_up env x 3). clearbody up.
  pose proof (round_nearest_near up (x * inject_Z 1000)) as Hnear.
  pose proof (round_nearest_between up 0 1000 (x * inject_Z 1000)) as Hbetween.
  change (inject_Z 1000) with 1000 in *.
  change (inject_Z 0) with 0 in Hbetween.
  assert (Hrange : (0 <= round_nearest up (x * 1000) <= 1000)%Z)
    by (apply Hbetween; lra).
  destruct Hrange as [Hlo Hhi].
  rewrite Zle_Qle in Hlo, Hhi.
  change (inject_Z 0) with 0 in Hlo. change (inject_Z 1000) with 1000 in Hhi.
  set (r := inject_Z (round_nearest up (x * 1000))) in *. clearbody r.
  name_div r 1000. lra.
Qed.

(** X19. A request answered 200 carries a JSON object whose prompt is a
    non-empty string; the generation call on that prompt returned the
    answer, and the confidence is what [get_self_confidence] makes of that
    prompt and answer as the second model call. The confidence is a number
    of [0,1]; the risk is the score of the answer against the prompt at
    that confidence and lies in [0,1]. The metric series and the log entry
    carry both unrounded, with the generation latency, the number of words
    of the answer and (the series) the token count of the reply, 0 when it
    has none; the log entry carries the hash of the prompt of the request.
    The envelope carries the answer, and the confidence and the risk
    rounded to three decimals, hence still in [0,1] and within 0.0005 of
    the telemetry values. *)
Theorem success_telemetry
    (env : Env) (st : State) (get_json : result pyval) (body : pyval) :
  fst (chat env get_json st) = Ok (body, 200%Z) ->
  let request_id := uuid4 env (uuids st) in
  let clock := fun n => time_time env (n + clock_reads st)%nat in
  let generation_ms := (clock 2%nat - clock 1%nat) * 1000 in
  let events := new_events st (snd (chat env get_json st)) in
  exists (d : dict) (prompt : unicode) (reply : response)
         (answer prompt_hash : string) (confidence : Q),
    get_json = Ok (PDict d) /\
    dict_get d "prompt" (PStr "") = PStr prompt /\
    prompt <> [] /\
    generate_content env (model_calls st) (PStr prompt) = Ok reply /\
    text reply = Ok answer /\
    hash_prompt prompt = Ok prompt_hash /\
    (forall st' : State,
        model_calls st' = S (model_calls st) ->
        fst (get_self_confidence env (model env) (PStr prompt) answer st')
          = Ok confidence) /\
    let risk := calculate_hallucination_risk answer prompt confidence in
    let token_count := match usage_metadata reply with Some n => n | None => 0%Z end in
    0 <= confidence <= 1 /\ 0 <= risk <= 1 /\
    body =
      PDict
        [ ("request_id", PStr request_id);
          ("response", PStr answer);
          ("metadata",
           PDict
             [ ("latency_ms",
                PFloat (py_round env ((clock 4%nat - clock 0%nat) * 1000) 2));
               ("confidence", PFloat (py_round env confidence 3));
               ("hallucination_risk", PFloat (py_round env risk 3));
               ("model", PStr (MODEL_NAME env)) ]) ] /\
    map (fun s => (metric s, map value (points s))) (submitted_series events) =
      [ ("llm.request.latency_ms", [PFloat generation_ms]);
        ("llm.self_confidence", [PFloat confidence]);
        ("llm.hallucination_risk", [PFloat risk]);
        ("llm.answer_length", [PFloat (inject_Z (word_count answer))]);
        ("llm.token.count", [PFloat (inject_Z token_count)]) ] /\
    (exists entry,
        submitted_logs events = [entry] /\
        additional entry =
          [ ("request_id", PStr request_id);
            ("prompt_hash", PStr prompt_hash);
            ("model_name", PStr (MODEL_NAME env));
            ("latency_ms", PStr (py_str env (PFloat generation_ms)));
            ("hallucination_risk", PStr (py_str env (PFloat risk)));
            ("self_confidence", PStr (py_str env (PFloat confidence)));
            ("answer_length", PStr (py_str env (PInt (word_count answer))));
            ("status", PStr "success") ]) /\
    (0 <= py_round env confidence 3 <= 1 /\
     confidence - (1 # 2000) <= py_round env confidence 3 <= confidence + (1 # 2000)) /\
    (0 <= py_round env risk 3 <= 1 /\
     risk - (1 # 2000) <= py_round env risk 3 <= risk + (1 # 2000)).
Proof.
  intros Hres. cbv zeta.
  by_path env st get_json; try (cbn in Hres; discriminate Hres).
  destruct (succeeded_observed env st prompt reply answer prompt_hash)
    as (Hres' & _ & Hl & Hs).
  rewrite Hres' in Hres. injection Hres as <-.
  pose proof (elicitation_in_unit env (1 + model_calls st) (PStr prompt) answer) as Hc.
  pose proof (risk_range answer prompt _ Hc) as Hrisk.
  exists d, prompt, reply, answer, prompt_hash,
         (fst (elicitation env (1 + model_calls st) (PStr prompt) answer)).
  do 6 (split; [assumption |]).
  split.
  { intros st' Hcalls. rewrite get_self_confidence_run. cbn [fst].
    rewrite Hcalls. reflexivity. }
  split; [exact Hc |]. split; [exact Hrisk |].
  split; [reflexivity |]. split; [rewrite Hs; reflexivity |].
  split; [rewrite Hl; eexists; split; reflexivity |].
  split; apply py_round_3_unit; assumption.
Qed.

Lemma success_telemetry_witness :
  exists entry,
    submitted_logs
      (new_events Scenario.initial
         (snd (chat Scenario.paris_env
                 (Scenario.json_prompt "What is the capital of France?")
                 Scenario.initial))) = [entry] /\
    lookup "status" (additional entry) = Some (PStr "success").
Proof.
  pose (request := Scenario.json_prompt "What is the capital of France?").
  pose (body := match fst (chat Scenario.paris_env request Scenario.initial) with
                | Ok (b, _) => b
                | Raise _ => PNone
                end).
  destruct (success_telemetry Scenario.paris_env Scenario.initial request body)
    as (d & p & r & a & h & c & _ & _ & _ & _ & _ & _ & _ & _ & _ & _ & _
        & (entry & Hlogs & Hadd) & _).
  - vm_compute. reflexivity.
  - exists entry. split; [exact Hlogs |]. rewrite Hadd. reflexivity.
Defined.

(** X20. A failure of the confidence call does not fail the request: when
    the prompt is a non-empty string that UTF-8 can encode and the
    generation returns a readable text, the request is answered 200 even
    though the second model call raises; the failure is reported on the
    operational channel, and the neutral confidence 0.5 is what the envelope
    and the telemetry carry. *)
Theorem confidence_failure_is_absorbed
    (env : Env) (st : State) (d : dict) (prompt : unicode)
    (reply : response) (answer : string) (e : exn) :
  dict_get d "prompt" (PStr "") = PStr prompt ->
  prompt <> [] ->
  encodable prompt = true ->
  generate_content env (model_calls st) (PStr prompt) = Ok reply ->
  text reply = Ok answer ->
  generate_content env (S (model_calls st))
    (PStr (confidence_question env (PStr prompt) answer)) = Raise e ->
  let out := chat env (Ok (PDict d)) st in
  let events := new_events st (snd out) in
  exists body meta,
    fst out = Ok (body, 200%Z) /\
    field "response" body = Some (PStr answer) /\
    field "metadata" body = Some meta /\
    field "confidence" meta = Some (PFloat (py_round env (1 # 2) 3)) /\
    py_round env (1 # 2) 3 == 1 # 2 /\
    field "hallucination_risk" meta =
      Some (PFloat (py_round env (calculate_hallucination_risk answer prompt (1 # 2)) 3)) /\
    In (EvPrint ("Error getting self-confidence: " ++ exn_msg e)) events /\
    In ("llm.self_confidence", [PFloat (1 # 2)])
       (map (fun s => (metric s, map value (points s))) (submitted_series events)).
Proof.
  intros Hp Hne Henc Hg Hx Hraise. cbv zeta.
  destruct (hash_prompt_encodable prompt Henc) as (prompt_hash & Hh & _).
  rewrite (chat_succeeded env st d prompt reply answer prompt_hash Hp Hne Hg Hx Hh).
  assert (Hel : elicitation env (1 + model_calls st) (PStr prompt) answer =
                (1 # 2,
                 [EvGenerate (PStr (confidence_question env (PStr prompt) answer));
                  EvPrint ("Error getting self-confidence: " ++ exn_msg e)])).
  { unfold elicitation. change (1 + model_calls st)%nat with (S (model_calls st)).
    rewrite Hraise. reflexivity. }
  destruct (succeeded_observed env st prompt reply answer prompt_hash)
    as (Hres & _ & _ & Hs).
  rewrite Hel in Hres, Hs. cbn [fst] in Hres, Hs.
  eexists. eexists.
  split; [exact Hres |].
  split; [reflexivity |]. split; [reflexivity |]. split; [reflexivity |].
  split; [reflexivity |]. split; [reflexivity |].
  split.
  - unfold succeeded. cbn [snd]. rewrite new_events_after.
    unfold generation_and_elicitation. rewrite Hel. cbn [snd].
    rewrite !map_app, !events_recorded. cbn [app].
    right. right. left. reflexivity.
  - rewrite Hs. right. left. reflexivity.
Qed.

Lemma confidence_failure_is_absorbed_witness :
  exists body,
    fst (chat shaky_env (Scenario.json_prompt "capital?") Scenario.initial)
      = Ok (body, 200%Z).
Proof.
  destruct (confidence_failure_is_absorbed shaky_env Scenario.initial
              [("prompt", PStr "capital?")] (Unicode.of_string "capital?")
              (Response (Ok "Paris.") None) "Paris." Scenario.service_unavailable)
    as (body & meta & Hres & _).
  - reflexivity.
  - discriminate.
  - reflexivity.
  - reflexivity.
  - reflexivity.
  - reflexivity.
  - exists body. exact Hres.
Defined.

(** X22. A prompt that holds a lone surrogate is not rejected: it is sent
    to the model, the confidence question is asked as well, and only then
    does hashing the prompt for the log fail on [prompt.encode()]. The
    caller gets status 500 with the text of that [UnicodeEncodeError], after
    two model calls, and the only series submitted is the error counter. *)
Theorem unencodable_prompt_fails_late
    (env : Env) (st : State) (d : dict) (prompt : unicode)
    (reply : response) (answer : string) :
  lookup "prompt" d = Some (PStr prompt) ->
  encodable prompt = false ->
  generate_content env (model_calls st) (PStr prompt) = Ok reply ->
  text reply = Ok answer ->
  let out := chat env (Ok (PDict d)) st in
  let events := new_events st (snd out) in
  exists e : exn,
    hash_prompt prompt = Raise e /\
    exn_type e = "UnicodeEncodeError" /\
    fst out =
      Ok (PDict [("error", PStr (exn_msg e));
                 ("request_id", PStr (uuid4 env (uuids st)))], 500%Z) /\
    model_prompts events =
      [PStr prompt; PStr (confidence_question env (PStr prompt) answer)] /\
    model_calls (snd out) = S (S (model_calls st)) /\
    map metric (submitted_series events) = ["llm.error.count"].
Proof.
  intros Hv Henc Hg Hx. cbv zeta.
  assert (Hp : dict_get d "prompt" (PStr "") = PStr prompt)
    by (unfold dict_get; rewrite Hv; reflexivity).
  assert (Hne : prompt <> []) by (intros ->; discriminate Henc).
  destruct (hash_prompt_surrogate prompt Henc) as (e & Hh & Htype).
  exists e. split; [exact Hh |]. split; [exact Htype |].
  rewrite (chat_prompt_not_encodable env st d prompt reply answer e Hp Hne Hg Hx Hh).
  destruct (failed_observed env st e 3 2
              (generation_and_elicitation env st (PStr prompt) answer)
              (generation_and_elicitation_quiet env st (PStr prompt) answer))
    as (Hres & _ & _ & Hs).
  split; [exact Hres |]. split; [| split].
  - rewrite failed_prompts. apply generation_and_elicitation_prompts.
  - reflexivity.
  - rewrite Hs. reflexivity.
Qed.

Lemma unencodable_prompt_fails_late_witness :
  exists e : exn,
    hash_prompt Scenario.lone_surrogate = Raise e /\
    fst (chat Scenario.paris_env (Scenario.json_prompt Scenario.lone_surrogate)
           Scenario.initial) =
      Ok (PDict [("error", PStr (exn_msg e));
                 ("request_id", PStr Scenario.a_request_id)], 500%Z).
Proof.
  destruct (unencodable_prompt_fails_late Scenario.paris_env Scenario.initial
              [("prompt", PStr Scenario.lone_surrogate)] Scenario.lone_surrogate
              (Response (Ok "Paris.") (Some 12%Z)) "Paris.")
    as (e & Hh & _ & Hres & _).
  - reflexivity.
  - reflexivity.
  - reflexivity.
  - reflexivity.
  - exists e. split; [exact Hh | exact Hres].
Defined.
